(** * EcoMetrics: multi-company configuration, schema mapping and upload validation

    A shallow embedding of [company_manager.py], [data_uploader.py] and the
    query path of [data_connector.py], with the properties of the
    specification stated and settled against it.

    Conventions of the embedding.
    - Python values that travel through [json.dumps]/[json.loads] are values
      of the type [json]; a Python [dict] is an association list in insertion
      order, Python's [None] is [JNull].
    - A Python call that may raise returns a [result]; the stateful calls
      (everything that reaches the DuckDB connection) live in the monad [M],
      which threads the [Store] and propagates exceptions the way Python
      does.
    - The DuckDB tables are finite maps keyed by their primary key. *)

From Stdlib Require Import ZArith List String Ascii Bool Lia.
From stdpp Require Import base option gmap strings list.

Local Open Scope string_scope.
Local Open Scope Z_scope.

(* ===================================================================== *)
(** ** Python values                                                      *)
(* ===================================================================== *)

(** The exceptions the modelled code can meet. *)
Inductive exn :=
| TypeError
| AttributeError
| KeyError
| ValueError
| ConstraintException   (* duckdb: primary key violation *)
| CatalogException      (* duckdb: table does not exist *)
| BinderException       (* duckdb: column count mismatch on INSERT *)
| ParserException       (* duckdb: the text of the statement does not parse *)
| ConversionException.  (* duckdb: a value cannot be cast to the type of its column *)

Inductive result (A : Type) :=
| Ok (a : A)
| Raise (e : exn).
Arguments Ok {A} a.
Arguments Raise {A} e.

Definition result_bind {A B} (r : result A) (k : A -> result B) : result B :=
  match r with
  | Ok a => k a
  | Raise e => Raise e
  end.

(** JSON documents, which is what [json.dumps] accepts and [json.loads]
    returns.  A float is the dyadic rational [m * 2^e]. *)
Unset Elimination Schemes.
Inductive json :=
| JNull
| JBool (b : bool)
| JInt (z : Z)
| JFloat (m e : Z)
| JStr (s : string)
| JArr (items : list json)
| JObj (fields : list (string * json)).
Set Elimination Schemes.

(** Structural equality of documents, as a boolean: two statements sent to
    the connection share a cache entry exactly when their parameters are
    equal. *)
Fixpoint json_eqb (a b : json) {struct a} : bool :=
  match a, b with
  | JNull, JNull => true
  | JBool x, JBool y => Bool.eqb x y
  | JInt x, JInt y => Z.eqb x y
  | JFloat m e, JFloat m' e' => Z.eqb m m' && Z.eqb e e'
  | JStr x, JStr y => String.eqb x y
  | JArr xs, JArr ys =>
      (fix items_eqb (xs ys : list json) {struct xs} : bool :=
         match xs, ys with
         | [], [] => true
         | x :: xs', y :: ys' => json_eqb x y && items_eqb xs' ys'
         | _, _ => false
         end) xs ys
  | JObj xs, JObj ys =>
      (fix fields_eqb (xs ys : list (string * json)) {struct xs} : bool :=
         match xs, ys with
         | [], [] => true
         | (k, x) :: xs', (k', y) :: ys' =>
             String.eqb k k' && json_eqb x y && fields_eqb xs' ys'
         | _, _ => false
         end) xs ys
  | _, _ => false
  end.

(** Python truthiness ([if x:], [x and ...], [not x], [x or ...]). *)
Definition truthy (x : json) : bool :=
  match x with
  | JNull => false
  | JBool b => b
  | JInt z => negb (Z.eqb z 0)
  | JFloat m _ => negb (Z.eqb m 0)
  | JStr s => negb (String.eqb s EmptyString)
  | JArr items => match items with [] => false | _ => true end
  | JObj fields => match fields with [] => false | _ => true end
  end.

(** [d.get(key, default)] on the association list of a dict. *)
Fixpoint dict_get {V} (fields : list (string * V)) (key : string) : option V :=
  match fields with
  | [] => None
  | (k, v) :: rest => if String.eqb k key then Some v else dict_get rest key
  end.

(** [d[key] = value]: the value of an existing key is replaced in place, a
    new key goes last. *)
Fixpoint dict_set {V} (fields : list (string * V)) (key : string) (value : V)
  : list (string * V) :=
  match fields with
  | [] => [(key, value)]
  | (k, v) :: rest =>
      if String.eqb k key then (k, value) :: rest
      else (k, v) :: dict_set rest key value
  end.

(** [d.update(other)] *)
Definition dict_update {V} (fields other : list (string * V)) : list (string * V) :=
  fold_left (fun acc kv => dict_set acc (fst kv) (snd kv)) other fields.

(** [x or fallback] *)
Definition py_or (x fallback : json) : json := if truthy x then x else fallback.

(** [needle in haystack] on two strings. *)
Fixpoint str_contains (haystack needle : string) : bool :=
  String.prefix needle haystack ||
  match haystack with
  | EmptyString => false
  | String _ rest => str_contains rest needle
  end.

(** [key in x] for a string [key]: membership of a key in a dict, of an
    element in a list, of a substring in a string; a [TypeError] on the
    values that are not containers. *)
Definition py_contains (x : json) (key : string) : result bool :=
  match x with
  | JObj fields => Ok (match dict_get fields key with Some _ => true | None => false end)
  | JArr items => Ok (existsb (json_eqb (JStr key)) items)
  | JStr s => Ok (str_contains s key)
  | _ => Raise TypeError
  end.

(** [x[key]] for a string [key]. *)
Definition py_getitem (x : json) (key : string) : result json :=
  match x with
  | JObj fields =>
      match dict_get fields key with
      | Some v => Ok v
      | None => Raise KeyError
      end
  | _ => Raise TypeError
  end.

(** [x.get(key, {})]: only a dict has the method. *)
Definition py_get (x : json) (key : string) : result json :=
  match x with
  | JObj fields => Ok (default (JObj []) (dict_get fields key))
  | _ => Raise AttributeError
  end.

(** [x.items()]: only a dict has the method. *)
Definition py_items (x : json) : result (list (string * json)) :=
  match x with
  | JObj fields => Ok fields
  | _ => Raise AttributeError
  end.

(* ===================================================================== *)
(** ** pandas: series and data frames                                     *)
(* ===================================================================== *)

(** A numeric cell: an integer, a finite float [m * 2^e], NaN or an
    infinity. *)
Inductive number :=
| Int (z : Z)
| Float (m e : Z)
| NaN
| Inf (negative : bool).

(** [x < k] and [x > k] for an integer literal [k], as numpy evaluates
    them: exact on the finite values, [False] on NaN. *)
Definition number_ltb (x : number) (k : Z) : bool :=
  match x with
  | Int z => z <? k
  | Float m e => if 0 <=? e then m * 2 ^ e <? k else m <? k * 2 ^ (- e)
  | NaN => false
  | Inf negative => negative
  end.

Definition number_gtb (x : number) (k : Z) : bool :=
  match x with
  | Int z => k <? z
  | Float m e => if 0 <=? e then k <? m * 2 ^ e else k * 2 ^ (- e) <? m
  | NaN => false
  | Inf negative => negb negative
  end.

(** A [datetime64[ns]] value: nanoseconds since 1970-01-01T00:00. *)
Definition Timestamp := Z.

(** Days from 1970-01-01 to the civil date [y]-[m]-[d] (proleptic
    Gregorian calendar). *)
Definition days_from_civil (y m d : Z) : Z :=
  let y' := if m <=? 2 then y - 1 else y in
  let era := y' / 400 in
  let yoe := y' - era * 400 in
  let mp := (m + 9) mod 12 in
  let doy := (153 * mp + 2) / 5 + d - 1 in
  let doe := yoe * 365 + yoe / 4 - yoe / 100 + doy in
  era * 146097 + doe - 719468.

Definition nanoseconds_per_day : Z := 86400 * 1000000000.

(** [pd.to_datetime('YYYY-MM-DD')]: midnight of that day. *)
Definition midnight (y m d : Z) : Timestamp :=
  days_from_civil y m d * nanoseconds_per_day.

(** A cell of an [object] column as the readers produce it: a string, or a
    number (a missing cell is NaN). *)
Inductive pyobj :=
| OStr (s : string)
| ONum (n : number).

(** A column, by dtype.  [None] in a datetime column is NaT. *)
Inductive Series :=
| NumericSeries (values : list number)          (* int64, float64 *)
| BoolSeries (values : list bool)               (* bool *)
| DatetimeSeries (values : list (option Timestamp))   (* datetime64[ns] *)
| ObjectSeries (values : list pyobj).           (* object *)

(** [pd.api.types.is_numeric_dtype]: bool counts as numeric. *)
Definition is_numeric_dtype (s : Series) : bool :=
  match s with
  | NumericSeries _ | BoolSeries _ => true
  | DatetimeSeries _ | ObjectSeries _ => false
  end.

(** The cell-wise comparison of an [object] column with an integer: Python
    compares each cell, and [str < int] raises [TypeError]. *)
Fixpoint object_compare (cmp : number -> Z -> bool) (cells : list pyobj) (k : Z)
  : result (list bool) :=
  match cells with
  | [] => Ok []
  | OStr _ :: _ => Raise TypeError
  | ONum n :: rest =>
      result_bind (object_compare cmp rest k) (fun bs => Ok (cmp n k :: bs))
  end.

Definition bool_as_int (b : bool) : number := Int (if b then 1 else 0).

(** [series < k] and [series > k]: a boolean series, or [TypeError] on a
    datetime column and on an [object] column holding a string. *)
Definition series_compare (cmp : number -> Z -> bool) (s : Series) (k : Z)
  : result (list bool) :=
  match s with
  | NumericSeries values => Ok (map (fun x => cmp x k) values)
  | BoolSeries values => Ok (map (fun b => cmp (bool_as_int b) k) values)
  | DatetimeSeries _ => Raise TypeError
  | ObjectSeries cells => object_compare cmp cells k
  end.

Definition series_lt := series_compare number_ltb.
Definition series_gt := series_compare number_gtb.

(** [.any()] of a boolean series. *)
Definition any (bs : list bool) : bool := existsb id bs.

(** [dates < bound] and [dates > bound] on parsed dates: NaT compares
    [False]. *)
Definition dates_lt (dates : list (option Timestamp)) (bound : Timestamp) : list bool :=
  map (fun d => match d with Some t => t <? bound | None => false end) dates.

Definition dates_gt (dates : list (option Timestamp)) (bound : Timestamp) : list bool :=
  map (fun d => match d with Some t => bound <? t | None => false end) dates.

(** A data frame: the length of its index and its columns in order, each
    with its label.  The readers of [_read_file] hand out frames with
    distinct labels; [rename] and a caller's own frame may repeat a label,
    and [df[col]] is then a frame, see [repeated]. *)
Record DataFrame := {
  index_len : nat;
  data : list (string * Series)
}.

(** [df.columns] *)
Definition columns (df : DataFrame) : list string := map fst (data df).

(** [col in df.columns] *)
Definition has_column (df : DataFrame) (col : string) : bool :=
  existsb (String.eqb col) (columns df).

(** [df[col]] for a label that is present once: the column.  For a label
    that occurs more than once it is the first of the columns [df[col]]
    is made of. *)
Fixpoint getitem_data (cols : list (string * Series)) (col : string) : option Series :=
  match cols with
  | [] => None
  | (label, s) :: rest => if String.eqb label col then Some s else getitem_data rest col
  end.

Definition getitem (df : DataFrame) (col : string) : option Series :=
  getitem_data (data df) col.

(** The label occurs more than once among the columns: [df[col]] is a
    frame and not a series. *)
Definition repeated (df : DataFrame) (col : string) : bool :=
  Nat.ltb 1 (length (List.filter (String.eqb col) (columns df))).

(** The columns of the frame [df[col]]. *)
Definition getitem_frame (df : DataFrame) (col : string) : list Series :=
  map snd (List.filter (fun c => String.eqb col (fst c)) (data df)).

(** [frame < k] and [frame > k], column by column. *)
Fixpoint frame_compare (cmp : number -> Z -> bool) (cols : list Series) (k : Z)
  : result (list (list bool)) :=
  match cols with
  | [] => Ok []
  | s :: rest =>
      result_bind (series_compare cmp s k) (fun bs =>
      result_bind (frame_compare cmp rest k) (fun later => Ok (bs :: later)))
  end.

(** The truth value of [(df[col] < k).any()] for a repeated label: the
    comparison of a frame is a frame, its [.any()] a series with one entry
    for each column, and the truth value of such a series is ambiguous:
    [ValueError], when the comparison did not raise already. *)
Definition frame_any (cmp : number -> Z -> bool) (df : DataFrame) (col : string) (k : Z)
  : result bool :=
  result_bind (frame_compare cmp (getitem_frame df col) k) (fun _ => Raise ValueError).

(** [df.rename(columns=column_mapping)]: every label found in the mapping
    is replaced, the others and all the data are kept. *)
Definition rename (df : DataFrame) (column_mapping : gmap string string) : DataFrame :=
  {| index_len := index_len df;
     data := map (fun c => (default (fst c) (column_mapping !! fst c), snd c)) (data df) |}.

(** [df[col] = value] for a label that is absent and a string [value]: a
    new last column holding [value] in every row. *)
Definition setitem_new (df : DataFrame) (col value : string) : DataFrame :=
  {| index_len := index_len df;
     data := (data df ++ [(col, ObjectSeries (repeat (OStr value) (index_len df)))])%list |}.

(* ===================================================================== *)
(** ** data_connector.py: the DuckDB connection and its query cache       *)
(* ===================================================================== *)

(** A row of the table [companies], without its primary key. *)
Record company_row := {
  company_name : string;
  industry : string;
  description : string;
  created_at : Z;
  settings : json;
  is_active : bool
}.

(** The statements [CompanyManager] sends through [DuckDBConnection.query],
    each with its parameters.  The text of a statement is fixed by its
    constructor, so a statement is also the key under which Streamlit's
    [cache_data] files its answer. *)
Inductive statement :=
| InsertCompany (company_id name industry description : string) (settings : json)
    (* INSERT INTO companies (...) VALUES (?, ?, ?, ?, ?) *)
| SelectConfig (company_id config_type : string)
    (* SELECT config_data FROM company_configs WHERE company_id = ? AND config_type = ? *)
| UpsertConfig (company_id config_type : string) (config_data : json).
    (* INSERT OR REPLACE INTO company_configs (...) VALUES (?, ?, ?) *)

(** What [cursor.df()] returns. *)
Inductive relation :=
| Count (n : Z)                 (* the answer to an INSERT *)
| ConfigRows (rows : list json) (* column config_data, decoded *).

Definition statement_eqb (p q : statement) : bool :=
  match p, q with
  | InsertCompany i n d e s, InsertCompany i' n' d' e' s' =>
      String.eqb i i' && String.eqb n n' && String.eqb d d' && String.eqb e e'
      && json_eqb s s'
  | SelectConfig i t, SelectConfig i' t' => String.eqb i i' && String.eqb t t'
  | UpsertConfig i t c, UpsertConfig i' t' c' =>
      String.eqb i i' && String.eqb t t' && json_eqb c c'
  | _, _ => false
  end.

(** The state behind the connection: the two tables of the registry keyed
    by their primary keys, the staging tables by name (each the frames
    written to it, oldest first), the entries of the query cache (newest
    first, each with the time it was filed) and the wall clock in seconds.
    The three registry tables exist: [initialize_company_tables] has run. *)
Record Store := {
  companies : gmap string company_row;
  company_configs : gmap (string * string) json;
  staging : gmap string (list DataFrame);
  cache : list (statement * (Z * relation));
  clock : Z
}.

Definition set_companies (f : gmap string company_row -> gmap string company_row)
  (st : Store) : Store :=
  {| companies := f (companies st); company_configs := company_configs st;
     staging := staging st; cache := cache st; clock := clock st |}.

Definition set_company_configs
  (f : gmap (string * string) json -> gmap (string * string) json) (st : Store) : Store :=
  {| companies := companies st; company_configs := f (company_configs st);
     staging := staging st; cache := cache st; clock := clock st |}.

Definition set_staging
  (f : gmap string (list DataFrame) -> gmap string (list DataFrame)) (st : Store) : Store :=
  {| companies := companies st; company_configs := company_configs st;
     staging := f (staging st); cache := cache st; clock := clock st |}.

Definition set_cache
  (f : list (statement * (Z * relation)) -> list (statement * (Z * relation)))
  (st : Store) : Store :=
  {| companies := companies st; company_configs := company_configs st;
     staging := staging st; cache := f (cache st); clock := clock st |}.

(** Time passing between two calls. *)
Definition advance (seconds : Z) (st : Store) : Store :=
  {| companies := companies st; company_configs := company_configs st;
     staging := staging st; cache := cache st; clock := clock st + seconds |}.

(** A store with empty tables and an empty cache. *)
Definition empty_store : Store :=
  {| companies := ∅; company_configs := ∅; staging := ∅; cache := []; clock := 0 |}.

(** Stateful code: a call takes the store and returns its outcome with the
    store it leaves. *)
Definition M (A : Type) : Type := Store -> result A * Store.

Definition ret {A} (a : A) : M A := fun st => (Ok a, st).

Definition raise {A} (e : exn) : M A := fun st => (Raise e, st).

Definition bind {A B} (m : M A) (k : A -> M B) : M B :=
  fun st =>
    match m st with
    | (Ok a, st') => k a st'
    | (Raise e, st') => (Raise e, st')
    end.

(** [try: body  except Exception: handler] *)
Definition try_except {A} (body : M A) (handler : exn -> M A) : M A :=
  fun st =>
    match body st with
    | (Ok a, st') => (Ok a, st')
    | (Raise e, st') => handler e st'
    end.

(** A call that may raise and does not touch the store. *)
Definition lift {A} (r : result A) : M A := fun st => (r, st).

Notation "x <- m ;; k" := (bind m (fun x => k))
  (at level 100, m at next level, right associativity).

(** [for x in xs: body(x)] *)
Fixpoint for_each {A} (xs : list A) (body : A -> M unit) : M unit :=
  match xs with
  | [] => ret tt
  | x :: rest => _ <- body x ;; for_each rest body
  end.

(** The cursor running one statement on the tables. *)
Definition execute (q : statement) : M relation :=
  fun st =>
    match q with
    | InsertCompany company_id name ind descr sett =>
        match companies st !! company_id with
        | Some _ => (Raise ConstraintException, st)
        | None =>
            (Ok (Count 1),
             set_companies
               (insert company_id
                  {| company_name := name; industry := ind; description := descr;
                     created_at := clock st; settings := sett; is_active := true |})
               st)
        end
    | SelectConfig company_id config_type =>
        (Ok (ConfigRows
               match company_configs st !! (company_id, config_type) with
               | Some config_data => [config_data]
               | None => []
               end),
         st)
    | UpsertConfig company_id config_type config_data =>
        (Ok (Count 1),
         set_company_configs (insert (company_id, config_type) config_data) st)
    end.

Fixpoint cache_find (entries : list (statement * (Z * relation))) (q : statement)
  : option (Z * relation) :=
  match entries with
  | [] => None
  | (q', entry) :: rest => if statement_eqb q' q then Some entry else cache_find rest q
  end.

(** The answer [cache_data(ttl=ttl)] holds for a statement: the newest
    entry under that key, as long as it is younger than [ttl] seconds. *)
Definition cache_lookup (ttl : Z) (q : statement) (st : Store) : option relation :=
  match cache_find (cache st) q with
  | Some (filed, answer) => if clock st <? filed + ttl then Some answer else None
  | None => None
  end.

(** The default of the parameter [ttl] of [DuckDBConnection.query]. *)
Definition default_ttl : Z := 3600.

(** [DuckDBConnection.query]: the inner [_query] is wrapped in
    [cache_data], so a statement with a live cache entry is answered from
    the cache and not run; an answer that was computed is filed, an
    exception is not. *)
Definition query (q : statement) : M relation :=
  fun st =>
    match cache_lookup default_ttl q st with
    | Some answer => (Ok answer, st)
    | None =>
        match execute q st with
        | (Ok answer, st') =>
            (Ok answer, set_cache (cons (q, (clock st', answer))) st')
        | (Raise e, st') => (Raise e, st')
        end
    end.

(* ===================================================================== *)
(** ** company_manager.py: class CompanyManager                           *)
(* ===================================================================== *)

(** [table.get(industry)] and [industry in table] for an optional
    industry: [None] is no key of the tables. *)
Definition lookup_industry {V} (table : list (string * V)) (industry : option string)
  : option V :=
  match industry with
  | Some name => dict_get table name
  | None => None
  end.

Definition industry_products : list (string * list string) :=
  [ ("Packaging", ["Plastic Containers"; "Paper Packaging"; "Glass Bottles";
                   "Aluminum Cans"; "Biodegradable Packaging"]);
    ("Manufacturing", ["Electronics"; "Automotive"; "Machinery"; "Textiles"]);
    ("Retail", ["Apparel"; "Electronics"; "Home Goods"; "Food"]);
    ("Food & Beverage", ["Beverages"; "Snacks"; "Dairy"; "Frozen Foods"]);
    ("Pharmaceutical", ["Prescription Drugs"; "Over-the-Counter"; "Medical Devices"]);
    ("Technology", ["Software"; "Hardware"; "Services"; "Cloud Solutions"]) ].

Definition _get_default_products (industry : option string) : list string :=
  default ["Product A"; "Product B"; "Product C"]
    (lookup_industry industry_products industry).

Definition base_mappings : list (string * list (string * string)) :=
  [ ("sales",
      [ ("product_column", "product_line");
        ("region_column", "region");
        ("customer_column", "customer_segment");
        ("date_column", "date");
        ("quantity_column", "units_sold");
        ("revenue_column", "revenue");
        ("cost_column", "cost_of_goods") ]);
    ("esg",
      [ ("product_column", "product_line");
        ("facility_column", "facility");
        ("date_column", "date");
        ("emissions_column", "emissions_kg_co2");
        ("energy_column", "energy_consumption_kwh");
        ("water_column", "water_usage_liters") ]) ].

Definition industry_mappings : list (string * list (string * list (string * string))) :=
  [ ("Manufacturing",
      [ ("sales",
          [ ("product_column", "product_category");
            ("region_column", "location");
            ("customer_column", "client_type") ]) ]);
    ("Retail",
      [ ("sales",
          [ ("product_column", "category");
            ("region_column", "store_location");
            ("customer_column", "customer_type") ]) ]) ].

(** The base mappings, with the entries of the industry written over them
    for every data type the base has. *)
Definition _get_default_schema_mappings (industry : option string)
  : list (string * list (string * string)) :=
  let mappings := base_mappings in
  match lookup_industry industry_mappings industry with
  | Some overrides =>
      fold_left
        (fun mappings override =>
           let data_type := fst override in
           let type_mappings := snd override in
           match dict_get mappings data_type with
           | Some current =>
               dict_set mappings data_type (dict_update current type_mappings)
           | None => mappings
           end)
        overrides mappings
  | None => mappings
  end.

Definition base_metrics : list (string * list string) :=
  [ ("financial", ["revenue"; "profit_margin"; "cost_of_goods"]);
    ("esg", ["emissions"; "energy_consumption"; "recycled_content"]);
    ("operational", ["units_produced"; "efficiency"; "quality_score"]) ].

Definition industry_metrics : list (string * list (string * list string)) :=
  [ ("Manufacturing",
      [ ("financial", ["revenue"; "profit_margin"; "production_cost"]);
        ("esg", ["emissions"; "energy_consumption"; "waste_generation"]);
        ("operational", ["units_produced"; "defect_rate"; "efficiency"]) ]);
    ("Retail",
      [ ("financial", ["sales"; "profit_margin"; "inventory_cost"]);
        ("esg", ["emissions"; "energy_consumption"; "packaging_waste"]);
        ("operational", ["units_sold"; "inventory_turnover"; "customer_satisfaction"]) ]) ].

Definition _get_default_metrics (industry : option string) : list (string * list string) :=
  default base_metrics (lookup_industry industry_metrics industry).

(** The Python values above as the documents [json.dumps] writes. *)
Definition json_of_dict {V} (encode : V -> json) (fields : list (string * V)) : json :=
  JObj (map (fun kv => (fst kv, encode (snd kv))) fields).

Definition json_of_strings (xs : list string) : json := JArr (map JStr xs).

Definition json_of_mappings (mappings : list (string * list (string * string))) : json :=
  json_of_dict (json_of_dict JStr) mappings.

Definition json_of_metrics (metrics : list (string * list string)) : json :=
  json_of_dict json_of_strings metrics.

(** [result.iloc[0]['config_data']] and [result.empty] in
    [get_company_config]: a relation without that column gives KeyError. *)
Definition get_company_config (company_id config_type : string) : M json :=
  try_except
    (answer <- query (SelectConfig company_id config_type) ;;
     match answer with
     | ConfigRows (config_data :: _) => ret config_data
     | ConfigRows [] => ret JNull
     | Count _ => raise KeyError
     end)
    (fun _ => ret JNull).

Definition update_company_config (company_id config_type : string) (config_data : json)
  : M bool :=
  try_except
    (_ <- query (UpsertConfig company_id config_type config_data) ;;
     ret true)
    (fun _ => ret false).

Definition _initialize_default_configs (company_id : string) (industry : option string)
  : M unit :=
  let default_products := _get_default_products industry in
  let default_mappings := _get_default_schema_mappings industry in
  let configs :=
    [ ("products", JObj [("product_lines", json_of_strings default_products)]);
      ("schema", JObj [("mappings", json_of_mappings default_mappings)]);
      ("metrics", json_of_metrics (_get_default_metrics industry)) ] in
  for_each configs
    (fun config =>
       _ <- update_company_config company_id (fst config) (snd config) ;;
       ret tt).

(** [industry], [description] and [settings] default to [None]. *)
Definition create_company (company_id company_name : string)
  (industry description : option string) (settings : json) : M bool :=
  try_except
    (_ <- query (InsertCompany company_id company_name
                   (default EmptyString industry) (default EmptyString description)
                   (py_or settings (JObj []))) ;;
     _ <- _initialize_default_configs company_id industry ;;
     ret true)
    (fun _ => ret false).

Definition get_company_schema_mapping (company_id data_type : string) : M json :=
  schema_config <- get_company_config company_id "schema" ;;
  if truthy schema_config then
    has_mappings <- lift (py_contains schema_config "mappings") ;;
    if has_mappings : bool then
      mappings <- lift (py_getitem schema_config "mappings") ;;
      lift (py_get mappings data_type)
    else ret (JObj [])
  else ret (JObj []).

(** [company_col in df.columns]: a label is looked up by its hash, so a
    list or a dict raises [TypeError]; the labels are strings, so no other
    value is among them. *)
Definition index_contains (df : DataFrame) (x : json) : result bool :=
  match x with
  | JStr label => Ok (has_column df label)
  | JArr _ | JObj _ => Raise TypeError
  | _ => Ok false
  end.

(** The loop of [transform_company_data] over [mapping.items()], filling
    the dict [column_mapping]. *)
Fixpoint collect_column_mapping (df : DataFrame) (items : list (string * json))
  (column_mapping : gmap string string) : result (gmap string string) :=
  match items with
  | [] => Ok column_mapping
  | (standard_col, company_col) :: rest =>
      result_bind (index_contains df company_col) (fun present =>
        collect_column_mapping df rest
          match company_col with
          | JStr label =>
              if present && negb (String.eqb standard_col label)
              then <[label := standard_col]> column_mapping
              else column_mapping
          | _ => column_mapping
          end)
  end.

Definition transform_company_data (df : DataFrame) (company_id data_type : string)
  : M DataFrame :=
  mapping <- get_company_schema_mapping company_id data_type ;;
  if negb (truthy mapping) then
    (* No mapping needed, return as-is *)
    ret df
  else
    items <- lift (py_items mapping) ;;
    column_mapping <- lift (collect_column_mapping df items ∅) ;;
    let df := if decide (column_mapping = ∅) then df else rename df column_mapping in
    let df := if has_column df "company_id" then df
              else setitem_new df "company_id" company_id in
    ret df.

(* ===================================================================== *)
(** ** pandas and DuckDB as the uploader meets them                       *)
(* ===================================================================== *)

(** [CREATE TABLE ... AS SELECT * FROM df] and
    [INSERT INTO ... SELECT * FROM df]. *)
Inductive ingestion := CreateAs | InsertSelect.

(** What the code asks of its libraries and does not define itself: the
    parsers behind [pd.to_datetime] for data that is not yet [datetime64]
    (the values they give, and whether these carry a time zone), the three
    file readers, and two things about DuckDB.  [ingest] is its reading of
    a frame: the exception, if any, with which a statement that selects
    from [df] fails because of the frame (no column, a cell DuckDB cannot
    convert, a value it cannot cast to the column type of the table), given
    the frames the target table holds, if it exists.  [run_sql] is what it
    does with the text of a statement in which the name of the table is not
    a plain identifier, with [df] in scope: the text may fail to parse, or
    go on as SQL of its own.  The development holds for every such
    behaviour. *)
Class Pandas := {
  parse_datetime : Series -> result (list (option Timestamp));
  parse_tz_aware : Series -> bool;
  read_csv : string -> result DataFrame;
  read_excel : string -> result DataFrame;
  read_json : string -> result DataFrame;
  ingest : ingestion -> option (list DataFrame) -> DataFrame -> option exn;
  run_sql : string -> DataFrame -> M unit
}.

(** [pd.to_datetime(series)]: a datetime column is returned as it is. *)
Definition to_datetime `{Pandas} (s : Series) : result (list (option Timestamp)) :=
  match s with
  | DatetimeSeries values => Ok values
  | _ => parse_datetime s
  end.

(** The parsed dates carry a time zone; a [datetime64[ns]] column has
    none.  Comparing such dates with a bound that has no time zone raises
    [TypeError]. *)
Definition tz_aware `{Pandas} (s : Series) : bool :=
  match s with
  | DatetimeSeries _ => false
  | _ => parse_tz_aware s
  end.

(* ===================================================================== *)
(** ** data_uploader.py: class DataUploader                               *)
(* ===================================================================== *)

(** [s.endswith(suffix)] *)
Fixpoint str_endswith (s suffix : string) : bool :=
  String.eqb s suffix ||
  match s with
  | EmptyString => false
  | String _ rest => str_endswith rest suffix
  end.

(** [repr] of a list of strings that hold no quote, no backslash and no
    control character, which is the case of every column name of the
    tables below: ['a', 'b']. *)
Definition py_repr_names (names : list string) : string :=
  "[" +:+ String.concat ", " (map (fun name => "'" +:+ name +:+ "'") names) +:+ "]".

Record UploadedFile := {
  name : string;
  content : string
}.

(** The message of [upload_file], one constructor for each of its
    f-strings with the values they interpolate. *)
Inductive message :=
| failed_to_read                            (* Failed to read file. Please check the file format. *)
| validation_failed (errors : list string)  (* Validation failed: {errors} *)
| uploaded (rows : nat) (company_id : string)  (* Successfully uploaded {len(df)} rows for {company_id} *)
| failed_to_save                            (* Failed to save data to database *)
| upload_error (e : exn).                   (* Upload error: {str(e)} *)

Record validation_result := {
  valid : bool;
  errors : list string
}.

Section DataUploader.
Context `{Pandas}.

Definition _read_file (uploaded_file : UploadedFile) : option DataFrame :=
  let read :=
    if str_endswith (name uploaded_file) ".csv" then
      result_bind (read_csv (content uploaded_file)) (fun df => Ok (Some df))
    else if str_endswith (name uploaded_file) ".xlsx"
            || str_endswith (name uploaded_file) ".xls" then
      result_bind (read_excel (content uploaded_file)) (fun df => Ok (Some df))
    else if str_endswith (name uploaded_file) ".json" then
      result_bind (read_json (content uploaded_file)) (fun df => Ok (Some df))
    else Ok None in
  match read with
  | Ok df => df
  | Raise _ => None
  end.

Definition get_default_schema (data_type : string) : list (string * string) :=
  let schemas :=
    [ ("sales",
        [ ("product_column", "product_line");
          ("region_column", "region");
          ("customer_column", "customer_segment");
          ("date_column", "date");
          ("quantity_column", "units_sold");
          ("revenue_column", "revenue");
          ("cost_column", "cost_of_goods") ]);
      ("esg",
        [ ("product_column", "product_line");
          ("facility_column", "facility");
          ("date_column", "date");
          ("emissions_column", "emissions_kg_co2");
          ("energy_column", "energy_consumption_kwh");
          ("water_column", "water_usage_liters") ]);
      ("supply_chain",
        [ ("supplier_column", "supplier");
          ("date_column", "date");
          ("quantity_column", "order_quantity");
          ("value_column", "order_value") ]) ] in
  default [] (dict_get schemas data_type).

Definition _get_required_columns (data_type : string) : list string :=
  let required_columns :=
    [ ("sales", ["date"; "product_line"; "units_sold"; "revenue"]);
      ("esg", ["date"; "facility"; "emissions_kg_co2"; "energy_consumption_kwh"]);
      ("supply_chain", ["date"; "supplier"; "order_quantity"; "order_value"]) ] in
  default [] (dict_get required_columns data_type).

Definition type_validations : list (string * list (string * string)) :=
  [ ("sales", [("date", "datetime"); ("units_sold", "numeric"); ("revenue", "numeric")]);
    ("esg", [("date", "datetime"); ("emissions_kg_co2", "numeric");
             ("energy_consumption_kwh", "numeric")]);
    ("supply_chain", [("date", "datetime"); ("order_quantity", "numeric");
                      ("order_value", "numeric")]) ].

(** [pd.to_datetime(df[col])] for a label that is present: of a frame (a
    repeated label) it raises, for want of columns year, month and day. *)
Definition item_to_datetime (df : DataFrame) (col : string) (series : Series)
  : result (list (option Timestamp)) :=
  if repeated df col then Raise ValueError else to_datetime series.

(** [pd.api.types.is_numeric_dtype(df[col])]: a frame has no dtype. *)
Definition item_is_numeric (df : DataFrame) (col : string) (series : Series) : bool :=
  negb (repeated df col) && is_numeric_dtype series.

(** [(df[col] < k).any()] and [(df[col] > k).any()] where they are used
    as a condition. *)
Definition item_any (cmp : number -> Z -> bool) (df : DataFrame) (col : string)
  (series : Series) (k : Z) : result bool :=
  if repeated df col then frame_any cmp df col k
  else result_bind (series_compare cmp series k) (fun flags => Ok (any flags)).

(** The body of the loop of [_validate_data_types] for one column: the
    errors it appends. *)
Definition validate_column_type (df : DataFrame) (col expected_type : string)
  : list string :=
  match getitem df col with
  | Some series =>
      if String.eqb expected_type "datetime" then
        match item_to_datetime df col series with
        | Ok _ => []
        | Raise _ => ["Column " +:+ col +:+ " should be a valid date"]
        end
      else if String.eqb expected_type "numeric" then
        if item_is_numeric df col series then []
        else ["Column " +:+ col +:+ " should be numeric"]
      else []
  | None => []
  end.

Definition _validate_data_types (df : DataFrame) (data_type : string) : list string :=
  let validations := default [] (dict_get type_validations data_type) in
  flat_map (fun v => validate_column_type df (fst v) (snd v)) validations.

Definition positive_columns : list (string * list string) :=
  [ ("sales", ["units_sold"; "revenue"; "cost_of_goods"]);
    ("esg", ["emissions_kg_co2"; "energy_consumption_kwh"; "water_usage_liters"]);
    ("supply_chain", ["order_quantity"; "order_value"]) ].

Definition percentage_columns : list (string * list string) :=
  [ ("esg", ["recycled_material_pct"; "renewable_energy_pct"]) ].

Definition min_date : Timestamp := midnight 2020 1 1.
Definition max_date : Timestamp := midnight 2030 12 31.

(** One round of a loop that appends the errors of [check col] for every
    column in turn; the first exception ends it. *)
Fixpoint check_columns (check : string -> result (list string)) (cols : list string)
  : result (list string) :=
  match cols with
  | [] => Ok []
  | col :: rest =>
      result_bind (check col) (fun found =>
      result_bind (check_columns check rest) (fun later =>
      Ok (found ++ later)%list))
  end.

(** [if col in df.columns and (df[col] < 0).any(): errors.append(...)] *)
Definition check_negative (df : DataFrame) (col : string) : result (list string) :=
  match getitem df col with
  | Some series =>
      result_bind (item_any number_ltb df col series 0) (fun below =>
      Ok (if below : bool
          then ["Column " +:+ col +:+ " contains negative values"] else []))
  | None => Ok []
  end.

(** The comparisons of the date block, inside its [try]: dates that carry
    a time zone cannot be compared with the bounds, which carry none. *)
Definition outside_window (series : Series) (dates : list (option Timestamp))
  : result bool :=
  if tz_aware series then Raise TypeError
  else Ok (any (dates_lt dates min_date) || any (dates_gt dates max_date)).

(** The date range check, with its own [try]/[except] around the parse and
    the comparisons. *)
Definition check_date_range (df : DataFrame) : list string :=
  match getitem df "date" with
  | Some series =>
      match result_bind (item_to_datetime df "date" series) (outside_window series) with
      | Ok outside =>
          if outside : bool
          then ["Dates are outside allowed range (2020-2030)"]
          else []
      | Raise _ => ["Invalid date format in date column"]
      end
  | None => []
  end.

(** [if (df[col] < 0).any() or (df[col] > 100).any(): errors.append(...)] *)
Definition check_percentage (df : DataFrame) (col : string) : result (list string) :=
  match getitem df col with
  | Some series =>
      result_bind (item_any number_ltb df col series 0) (fun below =>
      if below : bool
      then Ok ["Column " +:+ col +:+ " contains values outside 0-100 range"]
      else
        result_bind (item_any number_gtb df col series 100) (fun above =>
        Ok (if above : bool
            then ["Column " +:+ col +:+ " contains values outside 0-100 range"]
            else [])))
  | None => Ok []
  end.

Definition _validate_business_rules (df : DataFrame) (data_type : string)
  : result (list string) :=
  result_bind
    (check_columns (check_negative df) (default [] (dict_get positive_columns data_type)))
    (fun negative_errors =>
  let date_errors := check_date_range df in
  result_bind
    (check_columns (check_percentage df)
       (default [] (dict_get percentage_columns data_type)))
    (fun percentage_errors =>
  Ok (negative_errors ++ date_errors ++ percentage_errors)%list)).

(** The look-up of the company schema at the head of [validate_data]; its
    value is bound to [schema_config] and not read again. *)
Definition lookup_schema_config (company_id data_type : string) : M json :=
  schema_config <- get_company_config company_id "schema" ;;
  if negb (truthy schema_config) then
    ret (json_of_dict JStr (get_default_schema data_type))
  else
    has_mappings <- lift (py_contains schema_config "mappings") ;;
    if negb has_mappings then
      ret (json_of_dict JStr (get_default_schema data_type))
    else
      mappings <- lift (py_getitem schema_config "mappings") ;;
      lift (py_get mappings data_type).

Definition missing_columns (df : DataFrame) (data_type : string) : list string :=
  List.filter (fun col => negb (has_column df col)) (_get_required_columns data_type).

Definition missing_error (missing : list string) : string :=
  "Missing required columns: " +:+ py_repr_names missing.

Definition validate_data (df : DataFrame) (company_id data_type : string)
  : M validation_result :=
  schema_config <- lookup_schema_config company_id data_type ;;
  let missing := missing_columns df data_type in
  let errors := match missing with [] => [] | _ => [missing_error missing] end in
  let type_errors := _validate_data_types df data_type in
  let errors := (errors ++ type_errors)%list in
  rule_errors <- lift (_validate_business_rules df data_type) ;;
  let errors := (errors ++ rule_errors)%list in
  ret {| valid := Nat.eqb (length errors) 0; errors := errors |}.

(** A name that can be spliced into SQL text as it is: letters, digits and
    underscores.  The names of the staging tables start with stg_, so none
    is a keyword. *)
Definition plain_char (c : ascii) : bool :=
  let n := nat_of_ascii c in
  (Nat.leb 48 n && Nat.leb n 57) || (Nat.leb 65 n && Nat.leb n 90)
  || (Nat.leb 97 n && Nat.leb n 122) || Nat.eqb n 95.

Fixpoint plain_name (s : string) : bool :=
  match s with
  | EmptyString => true
  | String c rest => plain_char c && plain_name rest
  end.

(** DuckDB compares the names of tables without regard to case: the key of
    a table is its name in lower case. *)
Definition lower (c : ascii) : ascii :=
  let n := nat_of_ascii c in
  if Nat.leb 65 n && Nat.leb n 90 then ascii_of_nat (n + 32) else c.

Fixpoint table_key (s : string) : string :=
  match s with
  | EmptyString => EmptyString
  | String c rest => String (lower c) (table_key rest)
  end.

(** [cursor.execute(f"CREATE TABLE IF NOT EXISTS {table} AS SELECT * FROM df")] *)
Definition create_table_if_not_exists (table : string) (df : DataFrame) : M unit :=
  fun st =>
    if plain_name table then
      match ingest CreateAs (staging st !! table_key table) df with
      | Some e => (Raise e, st)
      | None =>
          match staging st !! table_key table with
          | Some _ => (Ok tt, st)
          | None => (Ok tt, set_staging (insert (table_key table) [df]) st)
          end
      end
    else
      run_sql ("CREATE TABLE IF NOT EXISTS " +:+ table +:+ " AS SELECT * FROM df") df st.

(** [cursor.execute(f"SELECT 1 FROM {table} LIMIT 1")] *)
Definition probe_table (table : string) (df : DataFrame) : M unit :=
  fun st =>
    if plain_name table then
      match staging st !! table_key table with
      | Some _ => (Ok tt, st)
      | None => (Raise CatalogException, st)
      end
    else run_sql ("SELECT 1 FROM " +:+ table +:+ " LIMIT 1") df st.

(** [cursor.execute(f"CREATE TABLE {table} AS SELECT * FROM df")] *)
Definition create_table (table : string) (df : DataFrame) : M unit :=
  fun st =>
    if plain_name table then
      match staging st !! table_key table with
      | Some _ => (Raise CatalogException, st)
      | None =>
          match ingest CreateAs None df with
          | Some e => (Raise e, st)
          | None => (Ok tt, set_staging (insert (table_key table) [df]) st)
          end
      end
    else run_sql ("CREATE TABLE " +:+ table +:+ " AS SELECT * FROM df") df st.

(** [cursor.execute(f"INSERT INTO {table} SELECT * FROM df")]: the columns
    are matched by position and must be as many as the table has; the
    values are cast to the types of its columns. *)
Definition insert_into (table : string) (df : DataFrame) : M unit :=
  fun st =>
    if plain_name table then
      match staging st !! table_key table with
      | Some (first :: frames) =>
          if Nat.eqb (length (data first)) (length (data df)) then
            match ingest InsertSelect (Some (first :: frames)) df with
            | Some e => (Raise e, st)
            | None =>
                (Ok tt,
                 set_staging (insert (table_key table) (first :: frames ++ [df])%list) st)
            end
          else (Raise BinderException, st)
      | Some [] =>
          match ingest InsertSelect (Some []) df with
          | Some e => (Raise e, st)
          | None => (Ok tt, set_staging (insert (table_key table) [df]) st)
          end
      | None => (Raise CatalogException, st)
      end
    else run_sql ("INSERT INTO " +:+ table +:+ " SELECT * FROM df") df st.

Definition staging_table (data_type company_id : string) : string :=
  "stg_" +:+ data_type +:+ "_data_" +:+ company_id.

Definition main_staging_table (data_type : string) : string :=
  "stg_" +:+ data_type +:+ "_data".

Definition save_data (df : DataFrame) (company_id data_type : string) : M bool :=
  try_except
    (_ <- create_table_if_not_exists (staging_table data_type company_id) df ;;
     _ <- (fun st =>
             match probe_table (main_staging_table data_type) df st with
             | (Raise _, st') => create_table (main_staging_table data_type) df st'
             | (Ok _, st') => insert_into (main_staging_table data_type) df st'
             end) ;;
     ret true)
    (fun _ => ret false).

Definition upload_file (uploaded_file : UploadedFile) (company_id data_type : string)
  : M (bool * message) :=
  try_except
    match _read_file uploaded_file with
    | None => ret (false, failed_to_read)
    | Some df =>
        validation <- validate_data df company_id data_type ;;
        if negb (valid validation) then
          ret (false, validation_failed (errors validation))
        else
          transformed_df <- transform_company_data df company_id data_type ;;
          success <- save_data transformed_df company_id data_type ;;
          if success : bool then ret (true, uploaded (index_len df) company_id)
          else ret (false, failed_to_save)
    end
    (fun e => ret (false, upload_error e)).

End DataUploader.

(** For reading the frame out of an outcome. *)
Definition result_map {A B} (f : A -> B) (r : result A) : result B :=
  result_bind r (fun a => Ok (f a)).

(** Nothing is cached about a statement. *)
Definition uncached (q : statement) (st : Store) : Prop :=
  cache_lookup default_ttl q st = None.

(** The company a statement is about. *)
Definition statement_company (q : statement) : string :=
  match q with
  | InsertCompany company_id _ _ _ _ => company_id
  | SelectConfig company_id _ => company_id
  | UpsertConfig company_id _ _ => company_id
  end.

(* ===================================================================== *)
(** ** Sample data                                                        *)
(* ===================================================================== *)

(** The frame of [test_schema_mapping] in [test_multi_company.py]. *)
Definition test_df : DataFrame :=
  {| index_len := 2;
     data :=
       [ ("product_category", ObjectSeries [OStr "Electronics"; OStr "Automotive"]);
         ("location", ObjectSeries [OStr "North America"; OStr "Europe"]);
         ("client_type", ObjectSeries [OStr "Wholesale"; OStr "Retail"]);
         ("date", ObjectSeries [OStr "2023-01-01"; OStr "2023-01-02"]);
         ("units_sold", NumericSeries [Int 100; Int 200]);
         ("revenue", NumericSeries [Int 1000; Int 2000]) ] |}.

(** One row of supply chain data in canonical columns. *)
Definition supply_frame : DataFrame :=
  {| index_len := 1;
     data :=
       [ ("date", DatetimeSeries [Some (midnight 2023 1 1)]);
         ("supplier", ObjectSeries [OStr "Supplier A"]);
         ("order_quantity", NumericSeries [Int 100]);
         ("order_value", NumericSeries [Int 1000]) ] |}.

(** The store after [create_company("acme", "Acme", "Manufacturing")] on an
    empty database. *)
Definition acme_store : Store :=
  snd (create_company "acme" "Acme" (Some "Manufacturing") None JNull empty_store).

(** A value that can be looked up among the labels of a frame. *)
Definition hashable (x : json) : bool :=
  match x with
  | JArr _ | JObj _ => false
  | _ => true
  end.

(** Every column labelled company_id of [df] is, at the same position and
    with the same data, a column labelled company_id of [df']. *)
Definition keeps_company_id (df df' : DataFrame) : Prop :=
  forall (i : nat) series,
    data df !! i = Some ("company_id", series) ->
    data df' !! i = Some ("company_id", series).

(** A frame tagged for another company, and a store in which the sales
    mapping of acme names company_id as one of its own columns. *)
Definition tagged_frame : DataFrame :=
  {| index_len := 1;
     data := [ ("company_id", ObjectSeries [OStr "globex"]);
               ("revenue", NumericSeries [Int 1000]) ] |}.

Definition retagging_store : Store :=
  snd (update_company_config "acme" "schema"
         (JObj [("mappings", JObj [("sales", JObj [("tenant", JStr "company_id")])])])
         empty_store).

(** The sales mapping seeded for a Manufacturing company. *)
Definition acme_sales_fields : list (string * json) :=
  [ ("product_column", JStr "product_category");
    ("region_column", JStr "location");
    ("customer_column", JStr "client_type");
    ("date_column", JStr "date");
    ("quantity_column", JStr "units_sold");
    ("revenue_column", JStr "revenue");
    ("cost_column", JStr "cost_of_goods") ].

(** The configuration [get_company_config] shows for a company. *)
Definition visible_config (company_id config_type : string) (st : Store) : json :=
  match fst (get_company_config company_id config_type st) with
  | Ok config => config
  | Raise _ => JNull
  end.

(** A schema configuration of the documented shape, or none: a dict whose
    entry mappings, if it has one, is a dict. *)
Definition well_formed_schema_config (config : json) : Prop :=
  config = JNull \/
  exists fields,
    config = JObj fields /\
    forall mappings, dict_get fields "mappings" = Some mappings ->
                     exists categories, mappings = JObj categories.

(** The verdict of [validate_data] on a frame, once the look-up of the
    company schema has returned. *)
Definition verdict `{Pandas} (df : DataFrame) (data_type : string)
  : result validation_result :=
  let missing := missing_columns df data_type in
  let errors := match missing with [] => [] | _ => [missing_error missing] end in
  let errors := (errors ++ _validate_data_types df data_type)%list in
  result_bind (_validate_business_rules df data_type) (fun rule_errors =>
  let errors := (errors ++ rule_errors)%list in
  Ok {| valid := Nat.eqb (length errors) 0; errors := errors |}).

(** [df[col] = series] for each of the new columns, none of which the
    frame has. *)
Definition add_columns (df : DataFrame) (new : list (string * Series)) : DataFrame :=
  {| index_len := index_len df; data := (data df ++ new)%list |}.

(** A frame on which neither the type checks nor the business rules find
    an error. *)
Definition passes `{Pandas} (data_type : string) (df : DataFrame) : Prop :=
  _validate_data_types df data_type = [] /\
  _validate_business_rules df data_type = Ok [].

(** A column of valid type and in-range values for a data type: the frame
    made of this column alone passes. *)
Definition column_passes `{Pandas} (data_type col : string) (series : Series) : Prop :=
  passes data_type {| index_len := 0; data := [(col, series)] |}.

(** What the checks of a data type ask of the column [col] of a frame. *)
Definition column_ok `{Pandas} (data_type : string) (df : DataFrame) (col : string)
  : Prop :=
  (forall expected_type,
      In (col, expected_type) (default [] (dict_get type_validations data_type)) ->
      validate_column_type df col expected_type = []) /\
  (In col (default [] (dict_get positive_columns data_type)) ->
   check_negative df col = Ok []) /\
  (col = "date" -> check_date_range df = []) /\
  (In col (default [] (dict_get percentage_columns data_type)) ->
   check_percentage df col = Ok []).

(** A sales frame with one negative revenue, and the three columns it
    lacks, with valid values. *)
Definition negative_revenue : DataFrame :=
  {| index_len := 1; data := [("revenue", NumericSeries [Int (-5)])] |}.

Definition completing_columns : list (string * Series) :=
  [ ("date", DatetimeSeries [Some (midnight 2023 1 1)]);
    ("product_line", ObjectSeries [OStr "Widgets"]);
    ("units_sold", NumericSeries [Int 3]) ].

(** A column that can be compared with a number: no datetime column, and
    no [object] column with a string in it. *)
Definition comparable (series : Series) : bool :=
  match series with
  | NumericSeries _ | BoolSeries _ => true
  | DatetimeSeries _ => false
  | ObjectSeries cells =>
      forallb (fun cell => match cell with ONum _ => true | OStr _ => false end) cells
  end.

(** Every column of the frame that the business rules of the data type
    compare with a number is comparable. *)
Definition rules_comparable (data_type : string) (df : DataFrame) : Prop :=
  forall col series,
    In col (default [] (dict_get positive_columns data_type)
            ++ default [] (dict_get percentage_columns data_type))%list ->
    getitem df col = Some series ->
    comparable series = true.

(** The column holds a value below zero. *)
Definition has_negative (series : Series) : Prop :=
  exists below, series_lt series 0 = Ok below /\ any below = true.

Definition negative_message (col : string) : string :=
  "Column " +:+ col +:+ " contains negative values".

Definition date_range_message : string :=
  "Dates are outside allowed range (2020-2030)".

(** Some date lies strictly before [min_date] or strictly after
    [max_date]. *)
Definition out_of_range (dates : list (option Timestamp)) : Prop :=
  exists t, In (Some t) dates /\ (t < min_date \/ max_date < t).

(** The last character of a string. *)
Fixpoint last_char (s : string) : option ascii :=
  match s with
  | EmptyString => None
  | String c EmptyString => Some c
  | String _ rest => last_char rest
  end.

(** Frames on which the comparison of a text column with zero raises:
    units_sold holds text, next to a negative revenue or to a date before
    2020; and a revenue column in which a negative number and a text
    meet. *)
Definition text_units_negative_revenue : DataFrame :=
  {| index_len := 1;
     data := [ ("units_sold", ObjectSeries [OStr "twelve"]);
               ("revenue", NumericSeries [Int (-5)]) ] |}.

Definition mixed_revenue : DataFrame :=
  {| index_len := 2;
     data := [ ("revenue", ObjectSeries [ONum (Int (-5)); OStr "twelve"]) ] |}.

Definition text_units_early_date : DataFrame :=
  {| index_len := 1;
     data := [ ("date", DatetimeSeries [Some (midnight 2019 6 30)]);
               ("units_sold", ObjectSeries [OStr "twelve"]) ] |}.

(** Ten rows of sales, one of them with a negative revenue. *)
Definition ten_rows : DataFrame :=
  {| index_len := 10;
     data :=
       [ ("date", DatetimeSeries (repeat (Some (midnight 2023 1 1)) 10));
         ("product_line", ObjectSeries (repeat (OStr "Widgets") 10));
         ("units_sold", NumericSeries (repeat (Int 3) 10));
         ("revenue",
          NumericSeries (repeat (Int 100) 4 ++ [Int (-5)] ++ repeat (Int 100) 5)) ] |}.

(** Sales on the first and on the last day of the window. *)
Definition boundary_dates : DataFrame :=
  {| index_len := 2;
     data := [ ("date", DatetimeSeries [Some (midnight 2020 1 1);
                                         Some (midnight 2030 12 31)]) ] |}.

(** What a check found, when it returned. *)
Definition found_by (check : string -> result (list string)) (col : string)
  : list string :=
  match check col with
  | Ok found => found
  | Raise _ => []
  end.

(** A pandas whose csv reader yields the frame with text in units_sold. *)
Definition text_units_pandas : Pandas :=
  {| parse_datetime := fun _ => Raise ValueError;
     parse_tz_aware := fun _ => false;
     read_csv := fun _ => Ok text_units_negative_revenue;
     read_excel := fun _ => Raise ValueError;
     read_json := fun _ => Raise ValueError;
     ingest := fun _ _ _ => None;
     run_sql := fun _ _ => raise ParserException |}.

(** A store in which the schema configuration of acme has no dict under
    mappings. *)
Definition malformed_store : Store :=
  snd (update_company_config "acme" "schema" (JObj [("mappings", JNull)]) empty_store).

(** A pandas whose csv reader yields one fixed frame, for running
    examples: a sales file with a single revenue column. *)
Definition revenue_only : DataFrame :=
  {| index_len := 1; data := [("revenue", NumericSeries [Int 1000])] |}.

Definition fixture_pandas : Pandas :=
  {| parse_datetime := fun _ => Raise ValueError;
     parse_tz_aware := fun _ => false;
     read_csv := fun _ => Ok revenue_only;
     read_excel := fun _ => Raise ValueError;
     read_json := fun _ => Raise ValueError;
     ingest := fun _ _ _ => None;
     run_sql := fun _ _ => raise ParserException |}.

Definition revenue_csv : UploadedFile :=
  {| name := "sales.csv"; content := "revenue" +:+ String "010"%char "1000" |}.

(** ** More of company_manager.py *)

(** The row [create_company] inserts. *)
Definition new_company_row (company_name : string) (industry description : option string)
  (settings : json) (now : Z) : company_row :=
  {| company_name := company_name;
     industry := default EmptyString industry;
     description := default EmptyString description;
     created_at := now;
     settings := py_or settings (JObj []);
     is_active := true |}.

(** ** More of data_uploader.py *)

Definition known_data_types : list string := ["sales"; "esg"; "supply_chain"].

Definition percentage_message (col : string) : string :=
  "Column " +:+ col +:+ " contains values outside 0-100 range".

(** The value is below 0 or above 100, as the comparisons of the
    percentage check see it. *)
Definition outside_percentage (x : number) : Prop :=
  number_ltb x 0 = true \/ number_gtb x 100 = true.

(** A sales frame whose date column holds text that is no date, and an esg
    frame with percentages at and beyond the bounds. *)
Definition unparseable_date : DataFrame :=
  {| index_len := 1;
     data := [ ("date", ObjectSeries [OStr "yesterday"]);
               ("revenue", NumericSeries [Int 10]) ] |}.

Definition esg_percentages : DataFrame :=
  {| index_len := 3;
     data := [ ("recycled_material_pct", NumericSeries [Int 0; Int 100; Int 101]) ] |}.

Definition numeric_message (col : string) : string :=
  "Column " +:+ col +:+ " should be numeric".

(** No cache entry was filed later than now. *)
Definition cache_from_past (st : Store) : Prop :=
  Forall (fun entry => fst (snd entry) <= clock st) (cache st).

(** An [object] column of numbers, as a reader leaves a numeric column with
    missing cells. *)
Definition object_units : DataFrame :=
  {| index_len := 2;
     data := [ ("units_sold", ObjectSeries [ONum (Int 3); ONum NaN]) ] |}.

(** A store in which a read of the products of acme was cached before
    they were written. *)
Definition stale_store : Store :=
  snd (update_company_config "acme" "products" (JStr "value")
         (snd (get_company_config "acme" "products" empty_store))).

(** The store after a first sales frame of acme was saved. *)
Definition uploaded_store : Store :=
  snd (@save_data fixture_pandas revenue_only "acme" "sales" acme_store).

(** The csv file of the frame with text in units_sold. *)
Definition text_units_csv : UploadedFile :=
  {| name := "sales.csv";
     content := "units_sold,revenue" +:+ String "010"%char "twelve,-5" |}.

(** The test frame with one more column, which no mapping names. *)
Definition sales_with_reference : DataFrame :=
  add_columns test_df [("order_ref", ObjectSeries [OStr "A-1"; OStr "A-2"])].

(* ===================================================================== *)
(** * Properties                                                          *)
(* ===================================================================== *)

(** ** Documents and statements *)

Lemma json_eqb_true : forall a b, json_eqb a b = true -> a = b.
Proof.
  fix IH 1.
  intros [| x | x | m e | x | xs | xs] [| y | y | m' e' | y | ys | ys];
    simpl; try discriminate; intros Heq.
  - reflexivity.
  - f_equal. by apply Bool.eqb_prop.
  - f_equal. by apply Z.eqb_eq.
  - apply andb_prop in Heq as [Hm He].
    apply Z.eqb_eq in Hm, He. congruence.
  - f_equal. by apply String.eqb_eq.
  - f_equal. revert ys Heq.
    induction xs as [| x xs IHxs]; intros [| y ys] Heq; try discriminate.
    + reflexivity.
    + apply andb_prop in Heq as [Hx Hxs].
      f_equal; [by apply IH | by apply IHxs].
  - f_equal. revert ys Heq.
    induction xs as [| [k x] xs IHxs]; intros [| [k' y] ys] Heq; try discriminate.
    + reflexivity.
    + apply andb_prop in Heq as [Hkx Hxs].
      apply andb_prop in Hkx as [Hk Hx].
      apply String.eqb_eq in Hk. subst k'.
      f_equal; [f_equal; by apply IH | by apply IHxs].
Qed.

Lemma json_eqb_refl : forall a, json_eqb a a = true.
Proof.
  fix IH 1.
  intros [| x | x | m e | x | xs | xs]; simpl.
  - reflexivity.
  - by destruct x.
  - apply Z.eqb_refl.
  - by rewrite !Z.eqb_refl.
  - apply String.eqb_refl.
  - induction xs as [| x xs IHxs]; [reflexivity |].
    by rewrite IH, IHxs.
  - induction xs as [| [k x] xs IHxs]; [reflexivity |].
    by rewrite String.eqb_refl, IH, IHxs.
Qed.

Lemma json_eqb_eq a b : json_eqb a b = true <-> a = b.
Proof.
  split; [apply json_eqb_true | intros ->; apply json_eqb_refl].
Qed.

(** Two statements share a cache key exactly when they are the same
    statement with the same parameters. *)
Lemma statement_eqb_eq p q : statement_eqb p q = true <-> p = q.
Proof.
  split.
  - destruct p, q; simpl; try discriminate; intros Heq;
      repeat match goal with
             | H : _ && _ = true |- _ => apply andb_prop in H as [? ?]
             | H : String.eqb _ _ = true |- _ => apply String.eqb_eq in H
             | H : json_eqb _ _ = true |- _ => apply json_eqb_true in H
             end; congruence.
  - intros ->. destruct q; simpl;
      rewrite ?String.eqb_refl, ?json_eqb_refl; reflexivity.
Qed.

(** ** The configuration store *)

(** What [get_company_config] returns when the statement has no live cache
    entry: the stored document, [None] without one; the answer is filed. *)
Lemma get_company_config_uncached company_id config_type st :
  uncached (SelectConfig company_id config_type) st ->
  get_company_config company_id config_type st =
    (Ok (default JNull (company_configs st !! (company_id, config_type))),
     set_cache
       (cons (SelectConfig company_id config_type,
              (clock st,
               ConfigRows match company_configs st !! (company_id, config_type) with
                          | Some config_data => [config_data]
                          | None => []
                          end)))
       st).
Proof.
  unfold uncached, get_company_config, try_except, bind, query. intros ->. simpl.
  by destruct (company_configs st !! (company_id, config_type)).
Qed.

(** [get_company_config] swallows every exception. *)
Lemma get_company_config_returns company_id config_type st :
  exists config st', get_company_config company_id config_type st = (Ok config, st').
Proof.
  unfold get_company_config, try_except, bind, query.
  destruct (cache_lookup _ _ st) as [[n | [| config rows]] |]; simpl; eauto.
  destruct (company_configs st !! (company_id, config_type)); simpl; eauto.
Qed.

(** It changes nothing but the cache. *)
Lemma get_company_config_frame company_id config_type st r st' :
  get_company_config company_id config_type st = (r, st') ->
  companies st' = companies st /\ company_configs st' = company_configs st /\
  staging st' = staging st /\ clock st' = clock st.
Proof.
  unfold get_company_config, try_except, bind, query.
  destruct (cache_lookup _ _ st) as [[n | [| config rows]] |]; simpl;
    try (intros [= <- <-]; done).
  destruct (company_configs st !! (company_id, config_type)); simpl;
    intros [= <- <-]; done.
Qed.

(** What [update_company_config] does when the statement has no live cache
    entry: the document replaces whatever was stored under the key. *)
Lemma update_company_config_uncached company_id config_type config_data st :
  uncached (UpsertConfig company_id config_type config_data) st ->
  update_company_config company_id config_type config_data st =
    (Ok true,
     set_cache (cons (UpsertConfig company_id config_type config_data, (clock st, Count 1)))
       (set_company_configs (insert (company_id, config_type) config_data) st)).
Proof.
  unfold uncached, update_company_config, try_except, bind, query. by intros ->.
Qed.

(** With a live cache entry the statement is not run. *)
Lemma update_company_config_cached company_id config_type config_data st answer :
  cache_lookup default_ttl (UpsertConfig company_id config_type config_data) st
    = Some answer ->
  update_company_config company_id config_type config_data st = (Ok true, st).
Proof.
  unfold update_company_config, try_except, bind, query. by intros ->.
Qed.

(** ** C1: a frame without mapping *)

(** When the mapping read for the company is empty or absent, the frame is
    handed back as it came. *)
Lemma transform_without_mapping df company_id data_type st mapping st' :
  get_company_schema_mapping company_id data_type st = (Ok mapping, st') ->
  truthy mapping = false ->
  transform_company_data df company_id data_type st = (Ok df, st').
Proof.
  unfold transform_company_data, bind. intros -> ->. reflexivity.
Qed.

(** C1 (the code departs from the claim).  For a company seeded by
    [create_company] the mapping of category supply_chain is empty, and for
    an unknown company the mapping is absent; in both cases
    [transform_company_data] returns the input frame itself, whose columns
    do not include company_id: no tenant column is added. *)
Theorem C1_untagged_without_mapping :
  fst (get_company_schema_mapping "acme" "supply_chain" acme_store) = Ok (JObj []) /\
  fst (transform_company_data supply_frame "acme" "supply_chain" acme_store)
    = Ok supply_frame /\
  fst (transform_company_data supply_frame "nobody" "sales" empty_store)
    = Ok supply_frame /\
  columns supply_frame = ["date"; "supplier"; "order_quantity"; "order_value"].
Proof. repeat split; vm_compute; reflexivity. Qed.

(** ** C2: the seeded Manufacturing configuration *)

(** C2 (the code departs from the claim).  After
    [create_company("acme", "Acme", "Manufacturing")] the stored product
    lines are Electronics, Automotive, Machinery, Textiles, as claimed; but
    [transform_company_data] with the seeded sales mapping renames
    product_category to product_column, location to region_column and
    client_type to customer_column (and date, units_sold and revenue to
    date_column, quantity_column and revenue_column), not to product_line,
    region and customer_segment. *)
Theorem C2_manufacturing_defaults :
  _get_default_products (Some "Manufacturing")
    = ["Electronics"; "Automotive"; "Machinery"; "Textiles"] /\
  fst (get_company_config "acme" "products" acme_store)
    = Ok (JObj [("product_lines",
                 JArr [JStr "Electronics"; JStr "Automotive";
                       JStr "Machinery"; JStr "Textiles"])]) /\
  result_map columns (fst (transform_company_data test_df "acme" "sales" acme_store))
    = Ok ["product_column"; "region_column"; "customer_column";
          "date_column"; "quantity_column"; "revenue_column"; "company_id"].
Proof. repeat split; vm_compute; reflexivity. Qed.

(** ** C7: writing a configuration and reading it back *)

(** C7, refuted as stated: the reads are cached.  A look-up made before the
    write files the empty answer; the write succeeds; the look-up that
    follows it is answered from the cache with [None]. *)
Lemma C7_stale_read :
  ~ (forall st company_id config_type X st1 v st2,
       update_company_config company_id config_type X st = (Ok true, st1) ->
       get_company_config company_id config_type st1 = (Ok v, st2) ->
       v = X).
Proof.
  intros Hclaim.
  pose (st := snd (get_company_config "acme" "products" empty_store)).
  pose (X := JObj [("product_lines", JArr [JStr "Bolts"])]).
  pose (st1 := snd (update_company_config "acme" "products" X st)).
  pose (st2 := snd (get_company_config "acme" "products" st1)).
  assert (JNull = X) as Habsurd; [| discriminate Habsurd].
  apply (Hclaim st "acme" "products" X st1 JNull st2); vm_compute; reflexivity.
Qed.

(** The writes are cached as well: a write repeated with the parameters of
    an earlier one is not run, so the value written in between stays. *)
Example repeated_write_is_skipped :
  let X := JStr "first" in
  let Y := JStr "second" in
  let st1 := snd (update_company_config "acme" "metrics" X empty_store) in
  let st2 := snd (update_company_config "acme" "metrics" Y st1) in
  let '(written, st3) := update_company_config "acme" "metrics" X st2 in
  written = Ok true /\ fst (get_company_config "acme" "metrics" st3) = Ok Y.
Proof. vm_compute. split; reflexivity. Qed.

(** A cache entry lives for [default_ttl] seconds: once that time has
    passed, the read runs again and sees the value written. *)
Example stale_read_expires :
  let X := JStr "value" in
  let st := snd (get_company_config "acme" "products" empty_store) in
  let st1 := snd (update_company_config "acme" "products" X st) in
  fst (get_company_config "acme" "products" (advance 3599 st1)) = Ok JNull /\
  fst (get_company_config "acme" "products" (advance 3600 st1)) = Ok X.
Proof. vm_compute. split; reflexivity. Qed.

(** C7, amended.  When neither the write of [X] under (tenant, kind) nor the
    read of (tenant, kind) has a live cache entry, the write succeeds, [X]
    replaces whatever was stored under that pair, and the read that follows
    returns [X]. *)
Theorem C7_set_then_get st company_id config_type X :
  uncached (UpsertConfig company_id config_type X) st ->
  uncached (SelectConfig company_id config_type) st ->
  exists st1 st2,
    update_company_config company_id config_type X st = (Ok true, st1) /\
    company_configs st1 = <[(company_id, config_type) := X]> (company_configs st) /\
    get_company_config company_id config_type st1 = (Ok X, st2).
Proof.
  intros Hwrite Hread.
  rewrite (update_company_config_uncached _ _ _ _ Hwrite).
  eexists. eexists. split; [reflexivity |]. split; [reflexivity |].
  rewrite get_company_config_uncached.
  - simpl. rewrite lookup_insert_eq. reflexivity.
  - unfold uncached, cache_lookup in *. simpl. exact Hread.
Qed.

Lemma C7_set_then_get_witness :
  uncached (UpsertConfig "acme" "products" (JObj [("product_lines", JArr [JStr "Bolts"])]))
    empty_store /\
  uncached (SelectConfig "acme" "products") empty_store /\
  exists st1 st2,
    update_company_config "acme" "products"
      (JObj [("product_lines", JArr [JStr "Bolts"])]) empty_store = (Ok true, st1) /\
    company_configs st1
      = <[("acme", "products") := JObj [("product_lines", JArr [JStr "Bolts"])]]>
          (company_configs empty_store) /\
    get_company_config "acme" "products" st1
      = (Ok (JObj [("product_lines", JArr [JStr "Bolts"])]), st2).
Proof.
  split; [reflexivity |]. split; [reflexivity |].
  apply (C7_set_then_get empty_store "acme" "products"); reflexivity.
Defined.

(** ** C3: the defaults of an unknown industry *)

(** An industry without product defaults has no mapping or metric defaults
    either. *)
Lemma unknown_industry industry :
  lookup_industry industry_products industry = None ->
  lookup_industry industry_mappings industry = None /\
  lookup_industry industry_metrics industry = None.
Proof.
  destruct industry as [name |]; [| done].
  simpl. intros Hproducts.
  repeat match type of Hproducts with
         | (if ?c then _ else _) = None => destruct c eqn:?; [discriminate |]
         end.
  done.
Qed.

(** A statement about another key does not hide a cache entry. *)
Lemma uncached_filed q q' entry st st' :
  cache st' = (q', entry) :: cache st ->
  clock st' = clock st ->
  statement_eqb q' q = false ->
  uncached q st ->
  uncached q st'.
Proof.
  unfold uncached, cache_lookup. intros -> -> Hne. simpl. by rewrite Hne.
Qed.

(** C3, refuted as stated: the seeded mapping of an unknown industry has no
    entry that maps a name to itself; its keys are the role names
    (product_column, ...) and its values the canonical column names. *)
Lemma C3_base_mapping_is_not_identity :
  ~ (forall industry,
       lookup_industry industry_products industry = None ->
       forall data_type mapping,
         dict_get (_get_default_schema_mappings industry) data_type = Some mapping ->
         forall standard_col company_col,
           In (standard_col, company_col) mapping -> standard_col = company_col).
Proof.
  intros Hclaim.
  specialize (Hclaim None eq_refl "sales" _ eq_refl "product_column" "product_line").
  simpl in Hclaim. discriminate Hclaim. by left.
Qed.

(** A free company id about which nothing is cached: [create_company]
    succeeds and writes the three default configurations. *)
Lemma create_company_fresh st company_id company_name industry description settings :
  companies st !! company_id = None ->
  (forall q, statement_company q = company_id -> uncached q st) ->
  exists st',
    create_company company_id company_name industry description settings st
      = (Ok true, st') /\
    company_configs st' =
      <[(company_id, "metrics") := json_of_metrics (_get_default_metrics industry)]>
        (<[(company_id, "schema") :=
             JObj [("mappings", json_of_mappings (_get_default_schema_mappings industry))]]>
           (<[(company_id, "products") :=
                JObj [("product_lines", json_of_strings (_get_default_products industry))]]>
              (company_configs st))).
Proof.
  intros Hfree Hcache.
  unfold create_company, _initialize_default_configs, for_each, try_except, bind, ret.
  unfold query. rewrite (Hcache (InsertCompany _ _ _ _ _) eq_refl).
  cbn [execute]. rewrite Hfree.
  set (st0 := set_cache _ (set_companies _ st)).
  assert (forall config_type config_data,
             uncached (UpsertConfig company_id config_type config_data) st0) as H0.
  { intros. eapply uncached_filed; [reflexivity | reflexivity | reflexivity |].
    by apply Hcache. }
  cbn [fst snd].
  rewrite (update_company_config_uncached _ _ _ _ (H0 _ _)).
  set (st1 := set_cache _ (set_company_configs _ st0)).
  assert (forall config_type config_data,
             String.eqb "products" config_type = false ->
             uncached (UpsertConfig company_id config_type config_data) st1) as H1.
  { intros ? ? Hne. eapply uncached_filed; [reflexivity | reflexivity | | apply H0].
    cbn [statement_eqb]. by rewrite String.eqb_refl, Hne. }
  rewrite (update_company_config_uncached _ _ _ _ (H1 "schema" _ eq_refl)).
  set (st2 := set_cache _ (set_company_configs _ st1)).
  assert (uncached (UpsertConfig company_id "metrics"
                      (json_of_metrics (_get_default_metrics industry))) st2) as H2.
  { eapply uncached_filed; [reflexivity | reflexivity | | by apply H1].
    cbn [statement_eqb]. by rewrite String.eqb_refl. }
  rewrite (update_company_config_uncached _ _ _ _ H2).
  eexists. split; reflexivity.
Qed.

(** The base mapping sends each role key to a canonical column name: for
    the data types it has it is the default schema of the uploader, and the
    required columns are among its values. *)
Lemma base_mappings_canonical data_type mapping :
  dict_get base_mappings data_type = Some mapping ->
  mapping = get_default_schema data_type /\
  forall col, In col (_get_required_columns data_type) -> In col (map snd mapping).
Proof.
  unfold base_mappings. cbn [dict_get].
  destruct (String.eqb "sales" data_type) eqn:Hs.
  { apply String.eqb_eq in Hs as <-. intros [= <-]. split; [reflexivity |].
    cbn. intuition (subst; auto 10). }
  destruct (String.eqb "esg" data_type) eqn:He; [| discriminate].
  apply String.eqb_eq in He as <-. intros [= <-]. split; [reflexivity |].
  cbn. intuition (subst; auto 10).
Qed.

(** C3, amended.  For an industry absent from the product table (a missing
    industry included), a company id that is free and about which nothing
    is cached, [create_company] succeeds and stores the generic product
    list, the base mapping and the base metrics.  The base mapping sends
    each role key to the canonical column name: for every data type it has,
    it is the default schema of the uploader, and every required column of
    that data type is among its values. *)
Theorem C3_unknown_industry_defaults st company_id company_name industry description
    settings :
  lookup_industry industry_products industry = None ->
  companies st !! company_id = None ->
  (forall q, statement_company q = company_id -> uncached q st) ->
  exists st',
    create_company company_id company_name industry description settings st
      = (Ok true, st') /\
    company_configs st' !! (company_id, "products")
      = Some (JObj [("product_lines",
                     JArr [JStr "Product A"; JStr "Product B"; JStr "Product C"])]) /\
    company_configs st' !! (company_id, "schema")
      = Some (JObj [("mappings", json_of_mappings base_mappings)]) /\
    company_configs st' !! (company_id, "metrics")
      = Some (json_of_metrics base_metrics) /\
    forall data_type mapping,
      dict_get base_mappings data_type = Some mapping ->
      mapping = get_default_schema data_type /\
      forall col, In col (_get_required_columns data_type) -> In col (map snd mapping).
Proof.
  intros Hindustry Hfree Hcache.
  destruct (unknown_industry _ Hindustry) as [Hmappings Hmetrics].
  destruct (create_company_fresh st company_id company_name industry description
              settings Hfree Hcache) as (st' & Hcreate & Hconfigs).
  exists st'. split; [exact Hcreate |].
  rewrite Hconfigs.
  unfold _get_default_products, _get_default_schema_mappings, _get_default_metrics.
  rewrite Hindustry, Hmappings, Hmetrics.
  repeat split.
  - rewrite lookup_insert_ne by (intros [=]).
    rewrite lookup_insert_ne by (intros [=]).
    by rewrite lookup_insert_eq.
  - rewrite lookup_insert_ne by (intros [=]).
    by rewrite lookup_insert_eq.
  - by rewrite lookup_insert_eq.
  - by apply base_mappings_canonical.
  - by apply base_mappings_canonical.
Qed.

Lemma C3_unknown_industry_defaults_witness :
  lookup_industry industry_products (Some "Aerospace") = None /\
  companies empty_store !! "orbital" = None /\
  (forall q, statement_company q = "orbital" -> uncached q empty_store) /\
  exists st',
    create_company "orbital" "Orbital Works" (Some "Aerospace") None JNull empty_store
      = (Ok true, st') /\
    company_configs st' !! ("orbital", "products")
      = Some (JObj [("product_lines",
                     JArr [JStr "Product A"; JStr "Product B"; JStr "Product C"])]) /\
    company_configs st' !! ("orbital", "schema")
      = Some (JObj [("mappings", json_of_mappings base_mappings)]) /\
    company_configs st' !! ("orbital", "metrics")
      = Some (json_of_metrics base_metrics) /\
    forall data_type mapping,
      dict_get base_mappings data_type = Some mapping ->
      mapping = get_default_schema data_type /\
      forall col, In col (_get_required_columns data_type) -> In col (map snd mapping).
Proof.
  split; [reflexivity |]. split; [reflexivity |]. split; [reflexivity |].
  apply (C3_unknown_industry_defaults empty_store "orbital" "Orbital Works"
           (Some "Aerospace") None JNull); reflexivity.
Defined.

(** ** C10: a frame that is already tagged *)

Lemma has_column_In df col : has_column df col = true <-> In col (columns df).
Proof.
  unfold has_column. rewrite existsb_exists. split.
  - intros (label & Hin & Heq). apply String.eqb_eq in Heq. by subst.
  - intros Hin. exists col. split; [done | apply String.eqb_refl].
Qed.

Lemma lookup_map {A B} (f : A -> B) (l : list A) (i : nat) :
  map f l !! i = f <$> l !! i.
Proof.
  revert i. induction l as [| a l IH]; intros [| i]; simpl; auto.
Qed.

(** The loop of [transform_company_data] ends without an exception when no
    value of the mapping is a list or a dict, and it does not enter
    company_id in [column_mapping] unless the mapping renames it. *)
Lemma collect_keeps_company_id df items column_mapping :
  Forall (fun kv => hashable (snd kv) = true) items ->
  (forall standard_col,
      In (standard_col, JStr "company_id") items -> standard_col = "company_id") ->
  column_mapping !! "company_id" = None ->
  exists column_mapping',
    collect_column_mapping df items column_mapping = Ok column_mapping' /\
    column_mapping' !! "company_id" = None.
Proof.
  revert column_mapping.
  induction items as [| [standard_col company_col] items IH];
    intros column_mapping Hhash Hnames Hfree; simpl.
  - eauto.
  - apply Forall_cons_1 in Hhash as [Hhead Hhash]. simpl in Hhead.
    assert (forall k, In (k, JStr "company_id") items -> k = "company_id") as Hrest.
    { intros k Hk. apply Hnames. by right. }
    destruct company_col as [| b | z | m e | label | xs | xs]; simpl;
      try discriminate Hhead; try (by apply IH).
    apply IH; [done | done |].
    destruct (has_column df label && negb (String.eqb standard_col label)) eqn:Hcond;
      [| done].
    apply andb_prop in Hcond as [_ Hne].
    destruct (String.eqb label "company_id") eqn:Hlabel.
    + apply String.eqb_eq in Hlabel. subst label.
      rewrite (Hnames standard_col) in Hne by (by left).
      by rewrite String.eqb_refl in Hne.
    + apply String.eqb_neq in Hlabel. by rewrite lookup_insert_ne.
Qed.

Lemma rename_keeps_company_id df column_mapping :
  column_mapping !! "company_id" = None ->
  keeps_company_id df (rename df column_mapping).
Proof.
  intros Hfree i series Hi. unfold rename. simpl.
  rewrite lookup_map, Hi. simpl. by rewrite Hfree.
Qed.

(** C10, refuted as stated: a mapping may name company_id as the company's
    own column.  The column is then renamed, and a new company_id column is
    filled with the argument: the frame tagged globex comes back with
    company_id holding acme. *)
Lemma C10_mapping_can_retag :
  ~ (forall st df company_id data_type df' st',
       has_column df "company_id" = true ->
       transform_company_data df company_id data_type st = (Ok df', st') ->
       keeps_company_id df df').
Proof.
  intros Hclaim.
  pose (out := transform_company_data tagged_frame "acme" "sales" retagging_store).
  assert (exists df', fst out = Ok df' /\
            data df' = [ ("tenant", ObjectSeries [OStr "globex"]);
                         ("revenue", NumericSeries [Int 1000]);
                         ("company_id", ObjectSeries [OStr "acme"]) ]) as (df' & Hout & Hdata).
  { eexists. split; vm_compute; reflexivity. }
  specialize (Hclaim retagging_store tagged_frame "acme" "sales" df' (snd out) eq_refl).
  assert (transform_company_data tagged_frame "acme" "sales" retagging_store
          = (Ok df', snd out)) as Hrun.
  { fold out. rewrite <- Hout. by destruct out. }
  specialize (Hclaim Hrun 0%nat (ObjectSeries [OStr "globex"]) eq_refl).
  rewrite Hdata in Hclaim. discriminate Hclaim.
Qed.

(** C10, amended.  Let the mapping read for the company and the category
    be a dict none of whose values is a list or a dict, and in which
    company_id is not the company's name for a differently named standard
    column.  Then for every frame that has a company_id column,
    [transform_company_data] returns a frame with as many columns, in which
    every company_id column of the input stands at its position with its
    data: nothing is added and the argument [company_id] is not written. *)
Theorem C10_company_id_kept st df company_id data_type fields st1 :
  get_company_schema_mapping company_id data_type st = (Ok (JObj fields), st1) ->
  Forall (fun kv => hashable (snd kv) = true) fields ->
  (forall standard_col,
      In (standard_col, JStr "company_id") fields -> standard_col = "company_id") ->
  has_column df "company_id" = true ->
  exists df',
    transform_company_data df company_id data_type st = (Ok df', st1) /\
    keeps_company_id df df' /\
    length (data df') = length (data df).
Proof.
  intros Hmapping Hhash Hnames Htagged.
  unfold transform_company_data, bind. rewrite Hmapping.
  destruct fields as [| field fields'] eqn:Hfields.
  { simpl. exists df. repeat split. by intros i series Hi. }
  rewrite <- Hfields in *. 
  replace (negb (truthy (JObj fields))) with false by (by rewrite Hfields).
  unfold lift. simpl py_items. cbv beta iota.
  destruct (collect_keeps_company_id df fields ∅ Hhash Hnames (lookup_empty _))
    as (column_mapping & -> & Hfree).
  set (df1 := if decide (column_mapping = ∅) then df else rename df column_mapping).
  assert (keeps_company_id df df1 /\ length (data df1) = length (data df)) as [Hkeeps Hlen].
  { unfold df1. destruct (decide (column_mapping = ∅)).
    - split; [by intros i series Hi | done].
    - split; [by apply rename_keeps_company_id |].
      unfold rename. simpl. by rewrite length_map. }
  assert (has_column df1 "company_id" = true) as ->.
  { apply has_column_In in Htagged. apply has_column_In.
    unfold columns in *. apply in_map_iff in Htagged as ([label series] & Hlabel & Hin).
    simpl in Hlabel. subst label.
    apply list_elem_of_In, list_elem_of_lookup in Hin as [i Hi].
    apply Hkeeps in Hi. apply in_map_iff. exists ("company_id", series).
    split; [done |]. apply list_elem_of_In, list_elem_of_lookup. eauto. }
  exists df1. unfold ret. auto.
Qed.

Lemma C10_company_id_kept_witness :
  get_company_schema_mapping "acme" "sales" acme_store
    = (Ok (JObj acme_sales_fields),
       snd (get_company_schema_mapping "acme" "sales" acme_store)) /\
  Forall (fun kv => hashable (snd kv) = true) acme_sales_fields /\
  (forall standard_col,
      In (standard_col, JStr "company_id") acme_sales_fields ->
      standard_col = "company_id") /\
  has_column tagged_frame "company_id" = true /\
  exists df',
    transform_company_data tagged_frame "acme" "sales" acme_store
      = (Ok df', snd (get_company_schema_mapping "acme" "sales" acme_store)) /\
    keeps_company_id tagged_frame df' /\
    length (data df') = length (data tagged_frame).
Proof.
  assert (forall standard_col,
             In (standard_col, JStr "company_id") acme_sales_fields ->
             standard_col = "company_id") as Hnames.
  { intros standard_col Hin. simpl in Hin.
    repeat (destruct Hin as [Hin | Hin]; [discriminate Hin |]). destruct Hin. }
  assert (Forall (fun kv => hashable (snd kv) = true) acme_sales_fields) as Hhash.
  { repeat constructor. }
  split; [vm_compute; reflexivity |].
  split; [exact Hhash |]. split; [exact Hnames |]. split; [reflexivity |].
  apply (C10_company_id_kept acme_store tagged_frame "acme" "sales" acme_sales_fields).
  - vm_compute. reflexivity.
  - exact Hhash.
  - exact Hnames.
  - reflexivity.
Defined.

(** ** The look-up at the head of [validate_data] *)

Section Validation.
Context `{Pandas}.

(** The look-up leaves the store as [get_company_config] leaves it. *)
Lemma lookup_schema_config_state company_id data_type st :
  snd (lookup_schema_config company_id data_type st)
    = snd (get_company_config company_id "schema" st).
Proof.
  unfold lookup_schema_config, bind, lift, ret.
  destruct (get_company_config company_id "schema" st) as [[config | e] st']; [| done].
  simpl. destruct (truthy config); [| done]. simpl.
  destruct (py_contains config "mappings") as [[|] | e]; try done. simpl.
  by destruct (py_getitem config "mappings").
Qed.

(** With a schema configuration of the documented shape it returns. *)
Lemma lookup_schema_config_returns company_id data_type st :
  well_formed_schema_config (visible_config company_id "schema" st) ->
  exists schema_config,
    fst (lookup_schema_config company_id data_type st) = Ok schema_config.
Proof.
  unfold visible_config, lookup_schema_config, bind, lift, ret.
  destruct (get_company_config_returns company_id "schema" st) as (config & st' & ->).
  simpl. intros [-> | (fields & -> & Hmappings)]; [simpl; eauto |].
  destruct fields as [| field fields]; [simpl; eauto |].
  assert (truthy (JObj (field :: fields)) = true) as Htruthy by done.
  remember (field :: fields) as d eqn:Hd. clear Hd.
  rewrite Htruthy. unfold py_contains, py_getitem.
  destruct (dict_get d "mappings") as [mappings |] eqn:Hget; simpl; [| eauto].
  destruct (Hmappings mappings eq_refl) as [categories ->]. simpl. eauto.
Qed.

Lemma validate_data_unfold df company_id data_type st :
  validate_data df company_id data_type st =
    match lookup_schema_config company_id data_type st with
    | (Ok _, st') => (verdict df data_type, st')
    | (Raise e, st') => (Raise e, st')
    end.
Proof.
  unfold validate_data, verdict, bind, lift, ret.
  destruct (lookup_schema_config company_id data_type st) as [[config | e] st']; [| done].
  by destruct (_validate_business_rules df data_type).
Qed.

(** With a schema configuration of the documented shape, the outcome of
    [validate_data] is the verdict on the frame. *)
Lemma validate_data_verdict df company_id data_type st :
  well_formed_schema_config (visible_config company_id "schema" st) ->
  fst (validate_data df company_id data_type st) = verdict df data_type.
Proof.
  intros Hconfig. rewrite validate_data_unfold.
  destruct (lookup_schema_config_returns company_id data_type st Hconfig)
    as [config Hreturns].
  destruct (lookup_schema_config company_id data_type st) as [r st'].
  simpl in Hreturns. by subst r.
Qed.

(** [validate_data] changes nothing but the query cache. *)
Lemma validate_data_frame df company_id data_type st r st' :
  validate_data df company_id data_type st = (r, st') ->
  companies st' = companies st /\ company_configs st' = company_configs st /\
  staging st' = staging st /\ clock st' = clock st.
Proof.
  intros Hrun.
  assert (st' = snd (get_company_config company_id "schema" st)) as ->.
  { rewrite <- (lookup_schema_config_state company_id data_type st).
    rewrite validate_data_unfold in Hrun.
    destruct (lookup_schema_config company_id data_type st) as [[config | e] st0];
      by injection Hrun as _ <-. }
  destruct (get_company_config company_id "schema" st) as [r0 st0] eqn:Hget.
  by apply get_company_config_frame in Hget.
Qed.

End Validation.

(** ** C9: validation and the tenant *)

(** C9, refuted as stated: the look-up of the company schema can raise.
    With a schema configuration whose entry mappings is no dict the call
    [schema_config['mappings'].get(...)] raises AttributeError for that
    company, while the same frame is validated for another company. *)
Lemma C9_malformed_schema_breaks_validation :
  ~ (forall (pandas : Pandas) st df data_type t1 t2,
       fst (validate_data df t1 data_type st) = fst (validate_data df t2 data_type st)).
Proof.
  intros Hclaim.
  specialize (Hclaim fixture_pandas malformed_store supply_frame "supply_chain"
                "acme" "globex").
  vm_compute in Hclaim. discriminate Hclaim.
Qed.

(** C9, amended.  For two tenants whose schema configuration is absent or
    of the documented shape, [validate_data] gives the same outcome on the
    same frame and category: the verdict computed from the frame and the
    category alone. *)
Theorem C9_validation_ignores_tenant `{Pandas} st df data_type t1 t2 :
  well_formed_schema_config (visible_config t1 "schema" st) ->
  well_formed_schema_config (visible_config t2 "schema" st) ->
  fst (validate_data df t1 data_type st) = fst (validate_data df t2 data_type st) /\
  fst (validate_data df t1 data_type st) = verdict df data_type.
Proof.
  intros H1 H2.
  rewrite !validate_data_verdict by assumption. done.
Qed.

Lemma C9_validation_ignores_tenant_witness :
  well_formed_schema_config (visible_config "acme" "schema" acme_store) /\
  well_formed_schema_config (visible_config "globex" "schema" acme_store) /\
  fst (@validate_data fixture_pandas test_df "acme" "sales" acme_store)
    = fst (@validate_data fixture_pandas test_df "globex" "sales" acme_store) /\
  fst (@validate_data fixture_pandas test_df "acme" "sales" acme_store)
    = @verdict fixture_pandas test_df "sales".
Proof.
  assert (well_formed_schema_config (visible_config "acme" "schema" acme_store)) as H1.
  { right. eexists. split; [vm_compute; reflexivity |].
    intros mappings [= <-]. eexists. reflexivity. }
  assert (well_formed_schema_config (visible_config "globex" "schema" acme_store)) as H2.
  { left. reflexivity. }
  split; [exact H1 |]. split; [exact H2 |].
  exact (@C9_validation_ignores_tenant fixture_pandas acme_store test_df "sales"
           "acme" "globex" H1 H2).
Defined.

(** ** C8: an upload that fails validation *)

(** When the file is read into a frame and [validate_data] returns a
    verdict that is not valid, [upload_file] returns failure with the list
    of errors of that verdict, and leaves the tables as they were: no
    staging table is created or extended (only the query cache has the
    answer of the schema look-up added).  Whatever the file, [upload_file]
    returns: no exception leaves it. *)
Lemma invalid_verdict_rejected `{Pandas} uploaded_file df company_id data_type st
    validation st1 :
  _read_file uploaded_file = Some df ->
  validate_data df company_id data_type st = (Ok validation, st1) ->
  valid validation = false ->
  upload_file uploaded_file company_id data_type st
    = (Ok (false, validation_failed (errors validation)), st1) /\
  staging st1 = staging st /\
  companies st1 = companies st /\
  company_configs st1 = company_configs st /\
  forall other_file other_company other_type st0,
    exists outcome st0',
      upload_file other_file other_company other_type st0 = (Ok outcome, st0').
Proof.
  intros Hread Hvalidate Hinvalid.
  split.
  { unfold upload_file, try_except, bind, ret.
    by rewrite Hread, Hvalidate, Hinvalid. }
  destruct (validate_data_frame _ _ _ _ _ _ Hvalidate) as (Hc & Hcc & Hs & _).
  repeat split; try done.
  intros other_file other_company other_type st0.
  unfold upload_file, try_except.
  match goal with
  | |- exists _ _, (match ?body with _ => _ end) = _ =>
      destruct body as [[outcome | e] st0']
  end; unfold ret; eauto.
Qed.

(** C8 (the code departs from the claim).  The csv file whose units_sold
    column holds text and whose revenue is negative is read into a frame
    that cannot pass validation: it lacks date and product_line, and the
    type check records that units_sold should be numeric.  The comparison
    of units_sold with zero then raises TypeError, [validate_data] raises
    with it, and [upload_file] answers with the text of the exception: the
    list of validation errors is not returned, whatever it holds.  No
    exception leaves [upload_file] and no table is written. *)
Theorem C8_validation_errors_lost :
  @_read_file text_units_pandas text_units_csv = Some text_units_negative_revenue /\
  missing_columns text_units_negative_revenue "sales" = ["date"; "product_line"] /\
  @_validate_data_types text_units_pandas text_units_negative_revenue "sales"
    = ["Column units_sold should be numeric"] /\
  fst (@validate_data text_units_pandas text_units_negative_revenue "acme" "sales"
         acme_store) = Raise TypeError /\
  fst (@upload_file text_units_pandas text_units_csv "acme" "sales" acme_store)
    = Ok (false, upload_error TypeError) /\
  (forall errors,
      fst (@upload_file text_units_pandas text_units_csv "acme" "sales" acme_store)
        <> Ok (false, validation_failed errors)) /\
  staging (snd (@upload_file text_units_pandas text_units_csv "acme" "sales" acme_store))
    = staging acme_store.
Proof.
  assert (fst (@upload_file text_units_pandas text_units_csv "acme" "sales" acme_store)
          = Ok (false, upload_error TypeError)) as Hupload
    by (vm_compute; reflexivity).
  split; [reflexivity |]. split; [reflexivity |]. split; [reflexivity |].
  split; [vm_compute; reflexivity |]. split; [exact Hupload |].
  split; [intros errors; rewrite Hupload; discriminate |].
  vm_compute. reflexivity.
Qed.

(** ** C4: missing columns *)

Section MissingColumns.
Context `{Pandas}.

Lemma getitem_data_app cols new col :
  getitem_data (cols ++ new) col =
    match getitem_data cols col with
    | Some series => Some series
    | None => getitem_data new col
    end.
Proof.
  induction cols as [| [label series] cols IH]; simpl; [done |].
  by destruct (String.eqb label col).
Qed.

Lemma getitem_data_In cols col series :
  getitem_data cols col = Some series -> In (col, series) cols.
Proof.
  induction cols as [| [label s] cols IH]; simpl; [done |].
  destruct (String.eqb label col) eqn:Heq.
  - apply String.eqb_eq in Heq. intros [= ->]. left. by subst.
  - intros Hget. right. by apply IH.
Qed.

Lemma getitem_data_None cols col :
  getitem_data cols col = None <-> ~ In col (map fst cols).
Proof.
  induction cols as [| [label s] cols IH]; simpl; [tauto |].
  destruct (String.eqb label col) eqn:Heq.
  - apply String.eqb_eq in Heq. split; [done | intros Hnot; exfalso; tauto].
  - apply String.eqb_neq in Heq. rewrite IH. tauto.
Qed.

Lemma has_column_getitem df col :
  has_column df col = false <-> getitem df col = None.
Proof.
  unfold getitem. rewrite getitem_data_None.
  rewrite <- not_true_iff_false, has_column_In. done.
Qed.

(** In a frame whose labels are distinct no label is repeated. *)
Lemma filter_eqb_NoDup col (cols : list string) :
  NoDup cols -> (length (List.filter (String.eqb col) cols) <= 1)%nat.
Proof.
  induction 1 as [| c cols Hnotin Hnodup IH]; simpl; [lia |].
  destruct (String.eqb col c) eqn:Heq; [| done].
  apply String.eqb_eq in Heq. subst c.
  replace (List.filter (String.eqb col) cols) with (@nil string); [simpl; lia |].
  symmetry. clear -Hnotin. induction cols as [| c cols IH]; simpl; [done |].
  destruct (String.eqb col c) eqn:Heq.
  - apply String.eqb_eq in Heq. subst c. exfalso. apply Hnotin. by left.
  - apply IH. intros Hin. apply Hnotin. by right.
Qed.

Lemma NoDup_not_repeated df col : NoDup (columns df) -> repeated df col = false.
Proof.
  intros Hnodup. unfold repeated. apply Nat.ltb_ge.
  by apply filter_eqb_NoDup.
Qed.

(** The checks read a frame through [df[col]] only. *)
Lemma column_ok_ext data_type df df' col :
  getitem df' col = getitem df col ->
  repeated df col = false ->
  repeated df' col = false ->
  column_ok data_type df col -> column_ok data_type df' col.
Proof.
  intros Hsame Hdf Hdf' (Htype & Hneg & Hdate & Hpct).
  unfold column_ok, validate_column_type, check_negative, check_percentage,
    item_to_datetime, item_is_numeric, item_any in *.
  rewrite Hsame, Hdf'. rewrite Hdf in Htype, Hneg, Hpct.
  repeat split; try done.
  intros ->. specialize (Hdate eq_refl).
  unfold check_date_range, item_to_datetime in *.
  rewrite Hsame, Hdf'. by rewrite Hdf in Hdate.
Qed.

Lemma flat_map_nil {A B} (f : A -> list B) (l : list A) :
  flat_map f l = [] <-> forall a, In a l -> f a = [].
Proof.
  induction l as [| a l IH]; simpl; [tauto |].
  split.
  - intros Happ. apply app_eq_nil in Happ as [Ha Hl].
    intros a' [<- | Hin]; [done | by apply IH].
  - intros Hall. rewrite (Hall a) by (by left). simpl. apply IH. auto.
Qed.

Lemma check_columns_nil check cols :
  check_columns check cols = Ok [] <-> forall col, In col cols -> check col = Ok [].
Proof.
  induction cols as [| col cols IH]; simpl; [tauto |].
  split.
  - intros Hrun. destruct (check col) as [found |] eqn:Hcol; [| done].
    simpl in Hrun.
    destruct (check_columns check cols) as [later |] eqn:Hcols; [| done].
    simpl in Hrun. injection Hrun as Happ.
    apply app_eq_nil in Happ as [-> ->].
    intros col' [<- | Hin]; [done | by apply IH].
  - intros Hall. rewrite (Hall col) by (by left). simpl.
    replace (check_columns check cols) with (@Ok (list string) []); [done |].
    symmetry. apply IH. auto.
Qed.

(** A frame passes exactly when each of its columns does. *)
Lemma passes_columns data_type df :
  passes data_type df <-> forall col, column_ok data_type df col.
Proof.
  unfold passes, _validate_data_types, _validate_business_rules, column_ok.
  rewrite flat_map_nil. split.
  - intros [Htypes Hrules].
    destruct (check_columns (check_negative df) _) as [negative |] eqn:Hneg; [| done].
    simpl in Hrules.
    destruct (check_columns (check_percentage df) _) as [percentage |] eqn:Hpct; [| done].
    simpl in Hrules. injection Hrules as Happ.
    apply app_eq_nil in Happ as [-> Happ]. apply app_eq_nil in Happ as [Hdate ->].
    intros col. repeat split.
    + intros expected_type Hin. by apply (Htypes (col, expected_type)).
    + intros Hin. by apply (proj1 (check_columns_nil _ _) Hneg).
    + done.
    + intros Hin. by apply (proj1 (check_columns_nil _ _) Hpct).
  - intros Hall. split.
    + intros [col expected_type] Hin. by apply (Hall col).
    + replace (check_columns (check_negative df) _) with (@Ok (list string) []).
      2:{ symmetry. apply check_columns_nil. intros col Hin. by apply (Hall col). }
      replace (check_columns (check_percentage df) _) with (@Ok (list string) []).
      2:{ symmetry. apply check_columns_nil. intros col Hin. by apply (Hall col). }
      simpl. by rewrite (proj1 (proj2 (proj2 (Hall "date"))) eq_refl).
Qed.

(** Adding valid columns to a frame that passes gives a frame that
    passes. *)
Lemma passes_add_columns data_type df new :
  NoDup (columns df) ->
  NoDup (columns (add_columns df new)) ->
  passes data_type df ->
  (forall col series, In (col, series) new -> column_passes data_type col series) ->
  passes data_type (add_columns df new).
Proof.
  intros Hdistinct Hdistinct' Hdf Hnew. apply passes_columns. intros col.
  assert (getitem (add_columns df new) col
          = match getitem df col with
            | Some series => Some series
            | None => getitem_data new col
            end) as Hget by apply getitem_data_app.
  pose proof (NoDup_not_repeated df col Hdistinct) as Hone.
  pose proof (NoDup_not_repeated _ col Hdistinct') as Hone'.
  destruct (getitem df col) as [series |] eqn:Hdfcol.
  { apply (column_ok_ext data_type df); [by rewrite Hget | done | done |].
    by apply passes_columns. }
  destruct (getitem_data new col) as [series |] eqn:Hnewcol.
  - apply (column_ok_ext data_type {| index_len := 0; data := [(col, series)] |}).
    + rewrite Hget. unfold getitem. simpl. by rewrite String.eqb_refl.
    + unfold repeated, columns. simpl. by rewrite String.eqb_refl.
    + done.
    + apply passes_columns. apply Hnew. by apply getitem_data_In.
  - apply (column_ok_ext data_type df); [by rewrite Hget | done | done |].
    by apply passes_columns.
Qed.

(** The verdict on a frame that passes. *)
Lemma verdict_passes data_type df :
  passes data_type df ->
  verdict df data_type =
    Ok match missing_columns df data_type with
       | [] => {| valid := true; errors := [] |}
       | missing => {| valid := false; errors := [missing_error missing] |}
       end.
Proof.
  intros [Htypes Hrules]. unfold verdict. rewrite Htypes, Hrules. simpl.
  by destruct (missing_columns df data_type).
Qed.

(** [valid] is [len(errors) == 0]. *)
Lemma verdict_valid df data_type validation :
  verdict df data_type = Ok validation ->
  valid validation = true <-> errors validation = [].
Proof.
  unfold verdict.
  destruct (_validate_business_rules df data_type) as [rule_errors |]; [| done].
  simpl. intros [= <-]. simpl.
  destruct (_ ++ rule_errors)%list; simpl; split; done.
Qed.

Lemma missing_columns_spec df data_type col :
  In col (missing_columns df data_type) <->
  In col (_get_required_columns data_type) /\ has_column df col = false.
Proof.
  unfold missing_columns. rewrite filter_In, negb_true_iff. done.
Qed.

Lemma missing_columns_added df data_type new :
  (forall col, In col (missing_columns df data_type) -> In col (map fst new)) ->
  missing_columns (add_columns df new) data_type = [].
Proof.
  intros Hcovers.
  destruct (missing_columns (add_columns df new) data_type) as [| col rest] eqn:Hmissing;
    [done |].
  assert (In col (missing_columns (add_columns df new) data_type)) as Hin
    by (rewrite Hmissing; by left).
  apply missing_columns_spec in Hin as [Hrequired Habsent].
  apply has_column_getitem in Habsent.
  unfold getitem, add_columns in Habsent. simpl in Habsent.
  rewrite getitem_data_app in Habsent.
  destruct (getitem_data (data df) col) eqn:Hdf; [done |].
  apply getitem_data_None in Habsent. exfalso. apply Habsent, Hcovers.
  apply missing_columns_spec. split; [done |]. by apply has_column_getitem.
Qed.

End MissingColumns.

(** C4, refuted as stated: the columns a frame has may be in error
    themselves.  The sales frame with a negative revenue and no other
    column gets two errors, and is still not valid once the three missing
    columns are added with valid values. *)
Lemma C4_other_errors_remain :
  ~ (forall (pandas : Pandas) st df company_id data_type new,
       missing_columns df data_type <> [] ->
       (forall col, In col (map fst new) <-> In col (missing_columns df data_type)) ->
       (forall col series, In (col, series) new -> column_passes data_type col series) ->
       fst (validate_data df company_id data_type st)
         = Ok {| valid := false;
                 errors := [missing_error (missing_columns df data_type)] |} /\
       fst (validate_data (add_columns df new) company_id data_type st)
         = Ok {| valid := true; errors := [] |}).
Proof.
  intros Hclaim.
  destruct (Hclaim fixture_pandas empty_store negative_revenue "acme" "sales"
              completing_columns) as [_ Hvalid].
  - discriminate.
  - intros col. vm_compute. tauto.
  - intros col series Hin. simpl in Hin.
    destruct Hin as [[= <- <-] | [[= <- <-] | [[= <- <-] | []]]];
      split; vm_compute; reflexivity.
  - vm_compute in Hvalid. discriminate Hvalid.
Qed.

(** C4, amended.  [validate_data] returns valid exactly when its list of
    errors is empty.  For a tenant whose schema configuration is absent or
    of the documented shape and a frame with distinct column labels that
    lacks at least one required column of its category, while the columns
    it has raise no type or business-rule error: the verdict is not valid,
    with exactly one error, which names exactly the required columns the
    frame lacks; and on the same frame with those columns added, each
    once, with valid types and in-range values the verdict is valid. *)
Theorem C4_missing_columns `{Pandas} st df company_id data_type new :
  well_formed_schema_config (visible_config company_id "schema" st) ->
  NoDup (columns df) ->
  NoDup (map fst new) ->
  missing_columns df data_type <> [] ->
  passes data_type df ->
  (forall col, In col (map fst new) <-> In col (missing_columns df data_type)) ->
  (forall col series, In (col, series) new -> column_passes data_type col series) ->
  (forall st0 df0 tenant category validation st0',
      validate_data df0 tenant category st0 = (Ok validation, st0') ->
      valid validation = true <-> errors validation = []) /\
  fst (validate_data df company_id data_type st)
    = Ok {| valid := false;
            errors := [missing_error (missing_columns df data_type)] |} /\
  (forall col, In col (missing_columns df data_type) <->
               In col (_get_required_columns data_type) /\ has_column df col = false) /\
  fst (validate_data (add_columns df new) company_id data_type st)
    = Ok {| valid := true; errors := [] |}.
Proof.
  intros Hconfig Hdistinct Hadded Hmissing Hpasses Hlabels Hvalues.
  assert (NoDup (columns (add_columns df new))) as Hdistinct'.
  { unfold columns, add_columns. simpl. rewrite map_app.
    apply NoDup_app. split; [done |]. split; [| done].
    intros col Hcol Hnew. apply list_elem_of_In in Hcol, Hnew.
    apply Hlabels, missing_columns_spec in Hnew as [_ Habsent].
    apply has_column_In in Hcol. unfold columns in Hcol. congruence. }
  pose proof (validate_data_verdict df company_id data_type st Hconfig) as Hdf.
  pose proof (validate_data_verdict (add_columns df new) company_id data_type st Hconfig)
    as Hnew.
  split; [| split; [| split]].
  - intros st0 df0 tenant category validation st0' Hrun.
    rewrite validate_data_unfold in Hrun.
    destruct (lookup_schema_config tenant category st0) as [[config | e] st1];
      [| done].
    injection Hrun as Hverdict _. by apply (verdict_valid df0 category).
  - rewrite Hdf, (verdict_passes _ _ Hpasses).
    by destruct (missing_columns df data_type).
  - apply missing_columns_spec.
  - rewrite Hnew,
      (verdict_passes _ _
         (passes_add_columns _ _ _ Hdistinct Hdistinct' Hpasses Hvalues)).
    rewrite missing_columns_added; [done |]. intros col. apply Hlabels.
Qed.

Lemma C4_missing_columns_witness :
  well_formed_schema_config (visible_config "acme" "schema" acme_store) /\
  NoDup (columns revenue_only) /\
  NoDup (map fst completing_columns) /\
  missing_columns revenue_only "sales" <> [] /\
  @passes fixture_pandas "sales" revenue_only /\
  (forall col, In col (map fst completing_columns) <->
               In col (missing_columns revenue_only "sales")) /\
  (forall col series,
      In (col, series) completing_columns ->
      @column_passes fixture_pandas "sales" col series) /\
  fst (@validate_data fixture_pandas revenue_only "acme" "sales" acme_store)
    = Ok {| valid := false;
            errors := [missing_error (missing_columns revenue_only "sales")] |} /\
  fst (@validate_data fixture_pandas (add_columns revenue_only completing_columns)
         "acme" "sales" acme_store)
    = Ok {| valid := true; errors := [] |}.
Proof.
  assert (well_formed_schema_config (visible_config "acme" "schema" acme_store)) as H1.
  { right. eexists. split; [vm_compute; reflexivity |].
    intros mappings [= <-]. eexists. reflexivity. }
  assert (missing_columns revenue_only "sales" <> []) as H2 by discriminate.
  assert (@passes fixture_pandas "sales" revenue_only) as H3
    by (split; vm_compute; reflexivity).
  assert (forall col, In col (map fst completing_columns) <->
                      In col (missing_columns revenue_only "sales")) as H4.
  { intros col. vm_compute. tauto. }
  assert (forall col series,
             In (col, series) completing_columns ->
             @column_passes fixture_pandas "sales" col series) as H5.
  { intros col series Hin. simpl in Hin.
    destruct Hin as [[= <- <-] | [[= <- <-] | [[= <- <-] | []]]];
      split; vm_compute; reflexivity. }
  assert (NoDup (columns revenue_only)) as Hdistinct.
  { repeat (apply NoDup_cons_2; [rewrite list_elem_of_In; simpl; intuition discriminate |]).
    apply NoDup_nil_2. }
  assert (NoDup (map fst completing_columns)) as Hadded.
  { repeat (apply NoDup_cons_2; [rewrite list_elem_of_In; simpl; intuition discriminate |]).
    apply NoDup_nil_2. }
  destruct (@C4_missing_columns fixture_pandas acme_store revenue_only "acme" "sales"
              completing_columns H1 Hdistinct Hadded H2 H3 H4 H5)
    as (_ & Hbefore & _ & Hafter).
  exact (conj H1 (conj Hdistinct (conj Hadded
           (conj H2 (conj H3 (conj H4 (conj H5 (conj Hbefore Hafter)))))))).
Defined.

(** ** C5 and C6: the business rules *)

Section BusinessRules.
Context `{Pandas}.

Lemma object_compare_comparable cmp cells k :
  forallb (fun cell => match cell with ONum _ => true | OStr _ => false end) cells = true ->
  exists outcome, object_compare cmp cells k = Ok outcome.
Proof.
  induction cells as [| [text | n] cells IH]; simpl; [eauto | done |].
  intros Hcells. destruct (IH Hcells) as [outcome ->]. simpl. eauto.
Qed.

(** The comparison of a comparable column with a number returns. *)
Lemma series_compare_comparable cmp series k :
  comparable series = true ->
  exists outcome, series_compare cmp series k = Ok outcome.
Proof.
  destruct series as [values | values | values | cells]; simpl; eauto; [done |].
  apply object_compare_comparable.
Qed.

Lemma check_negative_returns df col :
  NoDup (columns df) ->
  (forall series, getitem df col = Some series -> comparable series = true) ->
  exists found,
    check_negative df col = Ok found /\
    (found = [] \/ found = [negative_message col]) /\
    ((exists series, getitem df col = Some series /\ has_negative series) ->
     found = [negative_message col]).
Proof.
  unfold check_negative, has_negative, item_any. intros Hdistinct Hcomparable.
  rewrite (NoDup_not_repeated df col Hdistinct).
  destruct (getitem df col) as [series |].
  - destruct (series_compare_comparable number_ltb series 0 (Hcomparable _ eq_refl))
      as [below Hbelow].
    unfold series_lt. rewrite Hbelow. simpl.
    eexists. split; [reflexivity |]. split.
    + destruct (any below); [by right | by left].
    + intros (series' & [= <-] & below' & Hbelow' & Hany).
      unfold series_lt in Hbelow'. rewrite Hbelow in Hbelow'.
      injection Hbelow' as <-. by rewrite Hany.
  - exists []. split; [done |]. split; [by left |]. by intros (series & ? & _).
Qed.

Lemma check_percentage_returns df col :
  NoDup (columns df) ->
  (forall series, getitem df col = Some series -> comparable series = true) ->
  exists found,
    check_percentage df col = Ok found /\
    forall e, In e found -> e = "Column " +:+ col +:+ " contains values outside 0-100 range".
Proof.
  unfold check_percentage, item_any. intros Hdistinct Hcomparable.
  rewrite (NoDup_not_repeated df col Hdistinct).
  destruct (getitem df col) as [series |]; [| exists []; by split].
  destruct (series_compare_comparable number_ltb series 0 (Hcomparable _ eq_refl))
    as [below Hbelow].
  destruct (series_compare_comparable number_gtb series 100 (Hcomparable _ eq_refl))
    as [above Habove].
  unfold series_lt, series_gt. rewrite Hbelow. simpl.
  destruct (any below).
  - eexists. split; [reflexivity |]. by intros e [<- | []].
  - rewrite Habove. simpl. eexists. split; [reflexivity |].
    destruct (any above); [by intros e [<- | []] | by intros e []].
Qed.

Lemma check_columns_found check cols :
  (forall col, In col cols -> exists found, check col = Ok found) ->
  check_columns check cols = Ok (flat_map (found_by check) cols).
Proof.
  induction cols as [| col cols IH]; simpl; [done |].
  intros Hreturns. unfold found_by at 1.
  destruct (Hreturns col) as [found ->]; [by left |]. simpl.
  rewrite IH by auto. done.
Qed.

(** On a frame whose designated columns are comparable, the business
    rules return the errors of the three blocks in order. *)
Lemma business_rules_returns data_type df :
  NoDup (columns df) ->
  rules_comparable data_type df ->
  _validate_business_rules df data_type =
    Ok (flat_map (found_by (check_negative df))
          (default [] (dict_get positive_columns data_type))
        ++ check_date_range df
        ++ flat_map (found_by (check_percentage df))
             (default [] (dict_get percentage_columns data_type)))%list.
Proof.
  intros Hdistinct Hcomparable. unfold _validate_business_rules.
  rewrite check_columns_found.
  2:{ intros col Hin. destruct (check_negative_returns df col Hdistinct) as (found & -> & _).
      - intros series. apply Hcomparable, in_or_app. by left.
      - eauto. }
  rewrite check_columns_found.
  2:{ intros col Hin. destruct (check_percentage_returns df col Hdistinct) as (found & -> & _).
      - intros series. apply Hcomparable, in_or_app. by right.
      - eauto. }
  done.
Qed.

Lemma string_length_append a b :
  String.length (a +:+ b) = (String.length a + String.length b)%nat.
Proof. induction a as [| c a IH]; simpl; [done | by rewrite IH]. Qed.

Lemma string_append_inj_r a b suffix : a +:+ suffix = b +:+ suffix -> a = b.
Proof.
  revert b. induction a as [| c a IH]; intros [| d b] Heq.
  - done.
  - apply (f_equal String.length) in Heq.
    rewrite !string_length_append in Heq. simpl String.length in Heq. lia.
  - apply (f_equal String.length) in Heq.
    rewrite !string_length_append in Heq. simpl String.length in Heq. lia.
  - change (String c (a +:+ suffix) = String d (b +:+ suffix)) in Heq.
    injection Heq as -> Heq. f_equal. by apply IH.
Qed.

Lemma negative_message_inj col col' :
  negative_message col = negative_message col' -> col = col'.
Proof.
  unfold negative_message. intros Heq.
  apply (inj (String.append "Column ")) in Heq.
  by apply string_append_inj_r in Heq.
Qed.

Lemma last_char_append a b : b <> EmptyString -> last_char (a +:+ b) = last_char b.
Proof.
  intros Hb. induction a as [| c a IH]; simpl; [done |].
  rewrite IH. destruct (a +:+ b) eqn:Happ; [| done].
  destruct a; [by subst | done].
Qed.

Lemma last_char_negative_message col : last_char (negative_message col) = Some "s"%char.
Proof.
  unfold negative_message.
  rewrite last_char_append by (by destruct col).
  by rewrite last_char_append.
Qed.

(** The errors of the negative check over columns without repetition: the
    message of a column occurs once if the check found it, and not
    otherwise. *)
Lemma count_negative_messages df cols col :
  NoDup cols ->
  (forall c, In c cols ->
             found_by (check_negative df) c = [] \/
             found_by (check_negative df) c = [negative_message c]) ->
  In col cols ->
  found_by (check_negative df) col = [negative_message col] ->
  count_occ string_dec (flat_map (found_by (check_negative df)) cols)
    (negative_message col) = 1%nat.
Proof.
  intros Hnodup Hshape Hin Hfound.
  assert (forall cols', ~ In col cols' ->
            (forall c, In c cols' ->
                       found_by (check_negative df) c = [] \/
                       found_by (check_negative df) c = [negative_message c]) ->
            count_occ string_dec (flat_map (found_by (check_negative df)) cols')
              (negative_message col) = 0%nat) as Habsent.
  { induction cols' as [| c cols' IH]; simpl; [done |].
    intros Hnotin Hshape'. rewrite count_occ_app.
    rewrite IH; [| tauto | intros; apply Hshape'; by right].
    destruct (Hshape' c (or_introl eq_refl)) as [-> | ->]; [done |].
    rewrite count_occ_cons_neq; [done |].
    intros Heq. apply negative_message_inj in Heq. subst c. apply Hnotin. by left. }
  revert Hshape Hin.
  induction Hnodup as [| c cols Hnotin Hnodup IH]; intros Hshape Hin; [done |].
  simpl. rewrite count_occ_app. destruct Hin as [-> | Hin].
  - rewrite Hfound, Habsent; [| by rewrite <- list_elem_of_In
                              | intros; apply Hshape; by right].
    simpl. by destruct (string_dec _ _).
  - rewrite IH; [| intros; apply Hshape; by right | done].
    destruct (Hshape c (or_introl eq_refl)) as [-> | ->]; [done |].
    rewrite count_occ_cons_neq; [done |].
    intros Heq. apply negative_message_inj in Heq. subst c.
    apply Hnotin. by apply list_elem_of_In.
Qed.

Lemma positive_columns_NoDup data_type :
  NoDup (default [] (dict_get positive_columns data_type)).
Proof.
  unfold positive_columns. cbn [dict_get].
  repeat match goal with
         | |- context [String.eqb ?a data_type] => destruct (String.eqb a data_type)
         end; simpl;
    repeat (apply NoDup_cons_2; [rewrite list_elem_of_In; simpl; intuition discriminate |]);
    apply NoDup_nil_2.
Qed.

(** Negative values in a designated column are flagged once, whatever the
    other rows and the other comparable columns hold. *)
Lemma negative_values_flagged data_type df col series :
  NoDup (columns df) ->
  rules_comparable data_type df ->
  In col (default [] (dict_get positive_columns data_type)) ->
  getitem df col = Some series ->
  has_negative series ->
  exists rule_errors,
    _validate_business_rules df data_type = Ok rule_errors /\
    count_occ string_dec rule_errors (negative_message col) = 1%nat.
Proof.
  intros Hdistinct Hcomparable Hcol Hseries Hnegative.
  rewrite (business_rules_returns _ _ Hdistinct Hcomparable).
  eexists. split; [reflexivity |].
  assert (forall c, In c (default [] (dict_get positive_columns data_type)) ->
            exists found, check_negative df c = Ok found /\
              (found = [] \/ found = [negative_message c]) /\
              ((exists series, getitem df c = Some series /\ has_negative series) ->
               found = [negative_message c])) as Hneg.
  { intros c Hc. apply check_negative_returns; [done |].
    intros s. apply Hcomparable, in_or_app. by left. }
  rewrite !count_occ_app.
  rewrite (count_negative_messages df _ col).
  - assert (count_occ string_dec (check_date_range df) (negative_message col) = 0%nat)
      as ->.
    { unfold check_date_range.
      destruct (getitem df "date") as [dates |]; [| done].
      destruct (result_bind _ _) as [[|] |]; done. }
    assert (count_occ string_dec
              (flat_map (found_by (check_percentage df))
                 (default [] (dict_get percentage_columns data_type)))
              (negative_message col) = 0%nat) as ->; [| done].
    apply count_occ_not_In. intros Hin.
    apply in_flat_map in Hin as (c & Hc & Hin).
    destruct (check_percentage_returns df c Hdistinct) as (found & Hfound & Hshape).
    { intros s. apply Hcomparable, in_or_app. by right. }
    unfold found_by in Hin. rewrite Hfound in Hin.
    apply Hshape in Hin.
    apply (f_equal last_char) in Hin.
    rewrite last_char_negative_message in Hin.
    rewrite last_char_append in Hin by (by destruct c).
    rewrite last_char_append in Hin by done.
    discriminate Hin.
  - apply positive_columns_NoDup.
  - intros c Hc. destruct (Hneg c Hc) as (found & Hfound & Hshape & _).
    unfold found_by. by rewrite Hfound.
  - done.
  - destruct (Hneg col Hcol) as (found & Hfound & _ & Hflag).
    unfold found_by. rewrite Hfound. apply Hflag. eauto.
Qed.

Lemma any_dates_lt dates bound :
  any (dates_lt dates bound) = true <-> exists t, In (Some t) dates /\ t < bound.
Proof.
  unfold any, dates_lt. rewrite existsb_exists. split.
  - intros (b & Hin & Hb). apply in_map_iff in Hin as ([t |] & Hlt & Hin);
      unfold id in Hb; subst b; [| done].
    exists t. split; [done | by apply Z.ltb_lt].
  - intros (t & Hin & Hlt). exists true. split; [| done].
    apply in_map_iff. exists (Some t). split; [by apply Z.ltb_lt | done].
Qed.

Lemma any_dates_gt dates bound :
  any (dates_gt dates bound) = true <-> exists t, In (Some t) dates /\ bound < t.
Proof.
  unfold any, dates_gt. rewrite existsb_exists. split.
  - intros (b & Hin & Hb). apply in_map_iff in Hin as ([t |] & Hlt & Hin);
      unfold id in Hb; subst b; [| done].
    exists t. split; [done | by apply Z.ltb_lt].
  - intros (t & Hin & Hlt). exists true. split; [| done].
    apply in_map_iff. exists (Some t). split; [by apply Z.ltb_lt | done].
Qed.

(** The date block appends the range error exactly when a date lies
    outside the window, for dates without time zone. *)
Lemma check_date_range_spec df series dates :
  repeated df "date" = false ->
  getitem df "date" = Some series ->
  to_datetime series = Ok dates ->
  tz_aware series = false ->
  (out_of_range dates /\ check_date_range df = [date_range_message]) \/
  (~ out_of_range dates /\ check_date_range df = []).
Proof.
  intros Hone Hseries Hdates Hnaive.
  unfold check_date_range, item_to_datetime, outside_window, out_of_range.
  rewrite Hseries, Hone, Hdates. cbn [result_bind]. rewrite Hnaive.
  destruct (any (dates_lt dates min_date)) eqn:Hlt.
  { left. split; [| done]. apply any_dates_lt in Hlt as (t & ? & ?). eauto. }
  destruct (any (dates_gt dates max_date)) eqn:Hgt.
  { left. split; [| done]. apply any_dates_gt in Hgt as (t & ? & ?). eauto. }
  right. split; [| done].
  intros (t & Hin & [Hbefore | Hafter]).
  - assert (any (dates_lt dates min_date) = true) as Habs
      by (apply any_dates_lt; eauto).
    by rewrite Hlt in Habs.
  - assert (any (dates_gt dates max_date) = true) as Habs
      by (apply any_dates_gt; eauto).
    by rewrite Hgt in Habs.
Qed.

(** Dates outside the window are flagged, dates inside it (the two
    boundary days included) are not, on every frame whose designated
    columns are comparable. *)
Lemma date_range_flagged data_type df series dates :
  NoDup (columns df) ->
  rules_comparable data_type df ->
  getitem df "date" = Some series ->
  to_datetime series = Ok dates ->
  tz_aware series = false ->
  exists rule_errors,
    _validate_business_rules df data_type = Ok rule_errors /\
    (In date_range_message rule_errors <-> out_of_range dates).
Proof.
  intros Hdistinct Hcomparable Hseries Hdates Hnaive.
  pose proof (NoDup_not_repeated df "date" Hdistinct) as Hone.
  rewrite (business_rules_returns _ _ Hdistinct Hcomparable).
  eexists. split; [reflexivity |].
  rewrite !in_app_iff. split.
  - intros [Hneg | [Hdate | Hpct]].
    + exfalso. apply in_flat_map in Hneg as (c & Hc & Hneg).
      destruct (check_negative_returns df c Hdistinct) as (found & Hfound & [-> | ->] & _).
      { intros s. apply Hcomparable, in_or_app. by left. }
      * unfold found_by in Hneg. by rewrite Hfound in Hneg.
      * unfold found_by in Hneg. rewrite Hfound in Hneg.
        destruct Hneg as [Heq | []]. discriminate Heq.
    + destruct (check_date_range_spec df series dates Hone Hseries Hdates Hnaive)
        as [[Hout _] | [_ Hnone]]; [done |].
      by rewrite Hnone in Hdate.
    + exfalso. apply in_flat_map in Hpct as (c & Hc & Hpct).
      destruct (check_percentage_returns df c Hdistinct) as (found & Hfound & Hshape).
      { intros s. apply Hcomparable, in_or_app. by right. }
      unfold found_by in Hpct. rewrite Hfound in Hpct.
      apply Hshape in Hpct. discriminate Hpct.
  - intros Hrange. right. left.
    destruct (check_date_range_spec df series dates Hone Hseries Hdates Hnaive)
      as [[_ ->] | [Hnot _]]; [by left | done].
Qed.

(** The two boundary days are inside the window. *)
Lemma boundary_days_in_range :
  ~ out_of_range [Some (midnight 2020 1 1); Some (midnight 2030 12 31)].
Proof.
  intros (t & [[= <-] | [[= <-] | []]] & [Hbefore | Hafter]);
    vm_compute in Hbefore || vm_compute in Hafter; done.
Qed.

End BusinessRules.

(** The scenario of the specification: ten rows of sales with one negative
    revenue get exactly one error, the one for revenue. *)
Example ten_rows_one_error `{Pandas} :
  fst (validate_data ten_rows "acme" "sales" acme_store)
    = Ok {| valid := false; errors := ["Column revenue contains negative values"] |}.
Proof. vm_compute. reflexivity. Qed.

(** Sales dated on the first and on the last day of the window get no
    error from the business rules. *)
Example boundary_dates_accepted `{Pandas} :
  _validate_business_rules boundary_dates "sales" = Ok [].
Proof. vm_compute. reflexivity. Qed.

(** C5 (the code departs from the claim).  In a sales frame whose
    units_sold column holds text and whose revenue column holds a negative
    number, the comparison [df['units_sold'] < 0] raises TypeError:
    [_validate_business_rules] and [validate_data] raise, no error is
    reported for revenue, and [upload_file] answers with the text of the
    exception.  The same happens within one column in which a negative
    number and a text meet. *)
Theorem C5_negative_check_raises `{Pandas} :
  has_negative (NumericSeries [Int (-5)]) /\
  _validate_business_rules text_units_negative_revenue "sales" = Raise TypeError /\
  fst (validate_data text_units_negative_revenue "acme" "sales" acme_store)
    = Raise TypeError /\
  fst (@upload_file text_units_pandas {| name := "sales.csv"; content := "units_sold" |}
         "acme" "sales" acme_store)
    = Ok (false, upload_error TypeError) /\
  _validate_business_rules mixed_revenue "sales" = Raise TypeError.
Proof.
  split; [eexists; split; reflexivity |].
  split; [reflexivity |]. split; [vm_compute; reflexivity |].
  split; [vm_compute; reflexivity | reflexivity].
Qed.

(** C6 (the code departs from the claim).  In a sales frame with a date
    before 2020-01-01 and text in units_sold, the comparison of units_sold
    with zero raises TypeError before the date block is reached:
    [_validate_business_rules] and [validate_data] raise, and no date-range
    error is returned. *)
Theorem C6_date_check_not_reached `{Pandas} :
  to_datetime (DatetimeSeries [Some (midnight 2019 6 30)])
    = Ok [Some (midnight 2019 6 30)] /\
  out_of_range [Some (midnight 2019 6 30)] /\
  _validate_business_rules text_units_early_date "sales" = Raise TypeError /\
  fst (validate_data text_units_early_date "acme" "sales" acme_store)
    = Raise TypeError.
Proof.
  split; [reflexivity |]. split.
  - exists (midnight 2019 6 30). split; [by left |]. left. by vm_compute.
  - split; [reflexivity | vm_compute; reflexivity].
Qed.

(* ===================================================================== *)
(** * Further properties of the code                                      *)
(* ===================================================================== *)

(** ** The query cache *)

Lemma statement_eqb_refl q : statement_eqb q q = true.
Proof. by apply statement_eqb_eq. Qed.

Lemma statement_eqb_neq p q : p <> q -> statement_eqb p q = false.
Proof.
  intros Hne. apply not_true_is_false. by rewrite statement_eqb_eq.
Qed.

(** An answer filed now is live now. *)
Lemma cache_lookup_filed q answer st st' :
  cache st' = (q, (clock st', answer)) :: cache st ->
  cache_lookup default_ttl q st' = Some answer.
Proof.
  unfold cache_lookup. intros ->. simpl. rewrite statement_eqb_refl.
  replace (clock st' <? clock st' + default_ttl) with true; [done |].
  symmetry. apply Z.ltb_lt. unfold default_ttl. lia.
Qed.

(** X1: a statement that was answered and is sent again at once gets the
    same answer from the cache and changes nothing; in particular an
    INSERT sent twice is run once. *)
Theorem query_repeated_at_once q st answer st' :
  query q st = (Ok answer, st') ->
  query q st' = (Ok answer, st').
Proof.
  unfold query at 1.
  destruct (cache_lookup default_ttl q st) as [cached |] eqn:Hlookup.
  - intros [= <- <-]. unfold query. by rewrite Hlookup.
  - destruct (execute q st) as [[answer' | e] st0] eqn:Hrun; [| done].
    intros [= <- <-]. unfold query.
    by rewrite (cache_lookup_filed q answer' st0 (set_cache _ st0)).
Qed.

Lemma query_repeated_at_once_witness :
  query (UpsertConfig "acme" "products" (JStr "x")) empty_store
    = (Ok (Count 1),
       snd (query (UpsertConfig "acme" "products" (JStr "x")) empty_store)) /\
  query (UpsertConfig "acme" "products" (JStr "x"))
    (snd (query (UpsertConfig "acme" "products" (JStr "x")) empty_store))
    = (Ok (Count 1),
       snd (query (UpsertConfig "acme" "products" (JStr "x")) empty_store)).
Proof.
  split; [reflexivity |].
  apply (query_repeated_at_once _ empty_store). reflexivity.
Defined.

(** ** Writing configurations *)

(** What one call of [update_company_config] can do to the store. *)
Lemma update_company_config_effect company_id config_type config_data st :
  exists written st',
    update_company_config company_id config_type config_data st = (Ok written, st') /\
    companies st' = companies st /\ staging st' = staging st /\
    clock st' = clock st /\
    (company_configs st' = company_configs st \/
     company_configs st' =
       <[(company_id, config_type) := config_data]> (company_configs st)).
Proof.
  unfold update_company_config, try_except, bind, ret, query.
  destruct (cache_lookup _ _ st); simpl; eexists _, _; repeat split; auto.
Qed.

(** X2: [update_company_config] returns a boolean, never an exception, and
    writes at most the entry of its own (company, kind) pair: every other
    configuration, every company row and every staging table is as
    before. *)
Theorem update_company_config_touches_one_key company_id config_type config_data st :
  exists written st',
    update_company_config company_id config_type config_data st = (Ok written, st') /\
    companies st' = companies st /\ staging st' = staging st /\
    forall key, key <> (company_id, config_type) ->
                company_configs st' !! key = company_configs st !! key.
Proof.
  destruct (update_company_config_effect company_id config_type config_data st)
    as (written & st' & Hrun & Hcompanies & Hstaging & _ & Hconfigs).
  exists written, st'. repeat split; try done.
  intros key Hkey. destruct Hconfigs as [-> | ->]; [done |].
  by rewrite lookup_insert_ne.
Qed.

(** X3: a value written back within the cache lifetime is lost.  After
    writing [X] and then a different [Y] under the same (company, kind)
    pair, writing [X] again reports success but is answered from the cache:
    the stored value stays [Y]. *)
Theorem write_back_is_lost company_id config_type X Y st :
  X <> Y ->
  uncached (UpsertConfig company_id config_type X) st ->
  uncached (UpsertConfig company_id config_type Y) st ->
  exists st1 st2,
    update_company_config company_id config_type X st = (Ok true, st1) /\
    update_company_config company_id config_type Y st1 = (Ok true, st2) /\
    update_company_config company_id config_type X st2 = (Ok true, st2) /\
    company_configs st2 !! (company_id, config_type) = Some Y.
Proof.
  intros Hne HX HY.
  rewrite (update_company_config_uncached _ _ _ _ HX).
  set (st1 := set_cache _ (set_company_configs _ st)).
  assert (uncached (UpsertConfig company_id config_type Y) st1) as HY1.
  { eapply uncached_filed; [reflexivity | reflexivity | | exact HY].
    apply statement_eqb_neq. congruence. }
  exists st1. eexists. split; [reflexivity |].
  rewrite (update_company_config_uncached _ _ _ _ HY1).
  split; [reflexivity |]. split.
  - eapply update_company_config_cached.
    unfold cache_lookup. cbn [cache set_cache set_company_configs clock cache_find].
    rewrite statement_eqb_neq by congruence.
    unfold st1. cbn [cache set_cache set_company_configs clock cache_find].
    rewrite statement_eqb_refl.
    replace (clock st <? clock st + default_ttl) with true; [reflexivity |].
    symmetry. apply Z.ltb_lt. unfold default_ttl. lia.
  - simpl. by rewrite lookup_insert_eq.
Qed.

Lemma write_back_is_lost_witness :
  JStr "first" <> JStr "second" /\
  uncached (UpsertConfig "acme" "metrics" (JStr "first")) empty_store /\
  uncached (UpsertConfig "acme" "metrics" (JStr "second")) empty_store /\
  exists st1 st2,
    update_company_config "acme" "metrics" (JStr "first") empty_store = (Ok true, st1) /\
    update_company_config "acme" "metrics" (JStr "second") st1 = (Ok true, st2) /\
    update_company_config "acme" "metrics" (JStr "first") st2 = (Ok true, st2) /\
    company_configs st2 !! ("acme", "metrics") = Some (JStr "second").
Proof.
  split; [discriminate |]. split; [reflexivity |]. split; [reflexivity |].
  apply (write_back_is_lost "acme" "metrics" (JStr "first") (JStr "second") empty_store);
    [discriminate | reflexivity | reflexivity].
Defined.

(** ** Creating companies *)

Lemma initialize_default_configs_effect company_id industry st :
  exists st',
    _initialize_default_configs company_id industry st = (Ok tt, st') /\
    companies st' = companies st /\ staging st' = staging st /\ clock st' = clock st.
Proof.
  unfold _initialize_default_configs, for_each, bind, ret. cbn [fst snd].
  match goal with
  | |- context [update_company_config ?i ?t ?d st] =>
      destruct (update_company_config_effect i t d st)
        as (w1 & st1 & -> & Hc1 & Hs1 & Hk1 & _)
  end.
  match goal with
  | |- context [update_company_config ?i ?t ?d st1] =>
      destruct (update_company_config_effect i t d st1)
        as (w2 & st2 & -> & Hc2 & Hs2 & Hk2 & _)
  end.
  match goal with
  | |- context [update_company_config ?i ?t ?d st2] =>
      destruct (update_company_config_effect i t d st2)
        as (w3 & st3 & -> & Hc3 & Hs3 & Hk3 & _)
  end.
  exists st3. repeat split; congruence.
Qed.

(** X4: [create_company] returns a boolean, never an exception, and never
    overwrites or removes a company: every row the table had is still
    there, unchanged, whatever the arguments; the staging tables are not
    touched. *)
Theorem create_company_keeps_rows company_id company_name industry description
    settings st :
  exists created st',
    create_company company_id company_name industry description settings st
      = (Ok created, st') /\
    staging st' = staging st /\
    forall other row, companies st !! other = Some row ->
                      companies st' !! other = Some row.
Proof.
  unfold create_company, try_except, bind at 1, query.
  destruct (cache_lookup _ _ st) as [answer |].
  - unfold bind, ret.
    destruct (initialize_default_configs_effect company_id industry st)
      as (st' & -> & Hc & Hs & _).
    exists true, st'. repeat split; [done |]. intros other row. by rewrite Hc.
  - cbn [execute]. destruct (companies st !! company_id) as [existing |] eqn:Hrow.
    + exists false, st. unfold ret. repeat split; done.
    + unfold bind, ret.
      match goal with
      | |- context [_initialize_default_configs company_id industry ?s] =>
          destruct (initialize_default_configs_effect company_id industry s)
            as (st' & -> & Hc & Hs & _)
      end.
      exists true, st'. repeat split; [done |].
      intros other row Hother. rewrite Hc. simpl.
      rewrite lookup_insert_ne; [done |]. intros <-. congruence.
Qed.

(** X5: with an id that is taken and no live cache entry for the INSERT,
    [create_company] returns [False] and leaves the whole store as it was:
    the configurations of the existing company are not reset to the
    defaults. *)
Theorem create_company_taken_id company_id company_name industry description settings
    st row :
  companies st !! company_id = Some row ->
  uncached (InsertCompany company_id company_name (default EmptyString industry)
              (default EmptyString description) (py_or settings (JObj []))) st ->
  create_company company_id company_name industry description settings st
    = (Ok false, st).
Proof.
  intros Hrow Huncached.
  unfold create_company, try_except, bind at 1, query.
  unfold uncached in Huncached. rewrite Huncached. cbn [execute]. by rewrite Hrow.
Qed.

Lemma create_company_taken_id_witness :
  companies acme_store !! "acme"
    = Some (new_company_row "Acme" (Some "Manufacturing") None JNull 0) /\
  uncached (InsertCompany "acme" "Acme again" (default EmptyString (Some "Retail"))
              (default EmptyString None) (py_or JNull (JObj []))) acme_store /\
  create_company "acme" "Acme again" (Some "Retail") None JNull acme_store
    = (Ok false, acme_store).
Proof.
  split; [vm_compute; reflexivity |]. split; [vm_compute; reflexivity |].
  apply (create_company_taken_id "acme" "Acme again" (Some "Retail") None JNull
           acme_store (new_company_row "Acme" (Some "Manufacturing") None JNull 0));
    vm_compute; reflexivity.
Defined.

(** The store after [create_company] with a free id about which nothing is
    cached. *)
Lemma create_company_fresh_store st company_id company_name industry description
    settings :
  companies st !! company_id = None ->
  (forall q, statement_company q = company_id -> uncached q st) ->
  let products := JObj [("product_lines", json_of_strings (_get_default_products industry))] in
  let schema :=
    JObj [("mappings", json_of_mappings (_get_default_schema_mappings industry))] in
  let metrics := json_of_metrics (_get_default_metrics industry) in
  let inserted :=
    InsertCompany company_id company_name (default EmptyString industry)
      (default EmptyString description) (py_or settings (JObj [])) in
  create_company company_id company_name industry description settings st =
    (Ok true,
     {| companies :=
          <[company_id := new_company_row company_name industry description settings
                            (clock st)]> (companies st);
        company_configs :=
          <[(company_id, "metrics") := metrics]>
            (<[(company_id, "schema") := schema]>
               (<[(company_id, "products") := products]> (company_configs st)));
        staging := staging st;
        cache :=
          (UpsertConfig company_id "metrics" metrics, (clock st, Count 1))
          :: (UpsertConfig company_id "schema" schema, (clock st, Count 1))
          :: (UpsertConfig company_id "products" products, (clock st, Count 1))
          :: (inserted, (clock st, Count 1)) :: cache st;
        clock := clock st |}).
Proof.
  intros Hfree Hcache.
  unfold create_company, _initialize_default_configs, for_each, try_except, bind, ret.
  unfold query. rewrite (Hcache (InsertCompany _ _ _ _ _) eq_refl).
  cbn [execute]. rewrite Hfree.
  set (st0 := set_cache _ (set_companies _ st)).
  assert (forall config_type config_data,
             uncached (UpsertConfig company_id config_type config_data) st0) as H0.
  { intros. eapply uncached_filed; [reflexivity | reflexivity | reflexivity |].
    by apply Hcache. }
  cbn [fst snd].
  rewrite (update_company_config_uncached _ _ _ _ (H0 _ _)).
  set (st1 := set_cache _ (set_company_configs _ st0)).
  assert (forall config_type config_data,
             String.eqb "products" config_type = false ->
             uncached (UpsertConfig company_id config_type config_data) st1) as H1.
  { intros ? ? Hne. eapply uncached_filed; [reflexivity | reflexivity | | apply H0].
    cbn [statement_eqb]. by rewrite String.eqb_refl, Hne. }
  rewrite (update_company_config_uncached _ _ _ _ (H1 "schema" _ eq_refl)).
  set (st2 := set_cache _ (set_company_configs _ st1)).
  assert (uncached (UpsertConfig company_id "metrics"
                      (json_of_metrics (_get_default_metrics industry))) st2) as H2.
  { eapply uncached_filed; [reflexivity | reflexivity | | by apply H1].
    cbn [statement_eqb]. by rewrite String.eqb_refl. }
  rewrite (update_company_config_uncached _ _ _ _ H2).
  reflexivity.
Qed.

(** X6: with a free id about which nothing is cached, [create_company]
    succeeds and inserts one row: the given name, the industry and the
    description with the empty string for a missing one, the settings with
    the empty dict for missing or empty ones, the current time, and the
    active flag set; no other row changes. *)
Theorem create_company_inserts_row st company_id company_name industry description
    settings :
  companies st !! company_id = None ->
  (forall q, statement_company q = company_id -> uncached q st) ->
  exists st',
    create_company company_id company_name industry description settings st
      = (Ok true, st') /\
    companies st' =
      <[company_id :=
          {| company_name := company_name;
             industry := default EmptyString industry;
             description := default EmptyString description;
             created_at := clock st;
             settings := if truthy settings then settings else JObj [];
             is_active := true |}]> (companies st).
Proof.
  intros Hfree Hcache.
  rewrite (create_company_fresh_store st company_id company_name industry description
             settings Hfree Hcache).
  eexists. split; reflexivity.
Qed.

Lemma create_company_inserts_row_witness :
  companies empty_store !! "orbital" = None /\
  (forall q, statement_company q = "orbital" -> uncached q empty_store) /\
  exists st',
    create_company "orbital" "Orbital Works" None None JNull empty_store
      = (Ok true, st') /\
    companies st' =
      <["orbital" :=
          {| company_name := "Orbital Works";
             industry := default EmptyString None;
             description := default EmptyString None;
             created_at := clock empty_store;
             settings := if truthy JNull then JNull else JObj [];
             is_active := true |}]> (companies empty_store).
Proof.
  split; [reflexivity |]. split; [reflexivity |].
  apply (create_company_inserts_row empty_store "orbital" "Orbital Works" None None
           JNull); reflexivity.
Defined.

Lemma cache_find_head q entry rest : cache_find ((q, entry) :: rest) q = Some entry.
Proof. simpl. by rewrite statement_eqb_refl. Qed.

Lemma cache_find_skip q q' entry rest :
  statement_eqb q' q = false ->
  cache_find ((q', entry) :: rest) q = cache_find rest q.
Proof. simpl. by intros ->. Qed.

Lemma still_live now : (now <? now + default_ttl) = true.
Proof. apply Z.ltb_lt. unfold default_ttl. lia. Qed.

Lemma expired now : (now + default_ttl <? now + default_ttl) = false.
Proof. apply Z.ltb_irrefl. Qed.

(** X7: the duplicate check of [create_company] is hidden by the query
    cache.  After a successful [create_company], the same call made again
    at once is answered from the cache: it returns [True] although the id
    is taken, and changes nothing.  Once the cache lifetime has passed, the
    same call returns [False]. *)
Theorem create_company_repeated st company_id company_name industry description
    settings :
  companies st !! company_id = None ->
  (forall q, statement_company q = company_id -> uncached q st) ->
  exists st',
    create_company company_id company_name industry description settings st
      = (Ok true, st') /\
    create_company company_id company_name industry description settings st'
      = (Ok true, st') /\
    create_company company_id company_name industry description settings
      (advance default_ttl st')
      = (Ok false, advance default_ttl st').
Proof.
  intros Hfree Hcache.
  rewrite (create_company_fresh_store st company_id company_name industry description
             settings Hfree Hcache).
  cbv zeta.
  set (products := JObj [("product_lines", _)]).
  set (schema := JObj [("mappings", _)]).
  set (metrics := json_of_metrics _).
  set (inserted := InsertCompany _ _ _ _ _).
  set (st' := {| companies := _ |}).
  exists st'. split; [reflexivity |].
  assert (cache_find (cache st') inserted = Some (clock st, Count 1)) as Hinserted.
  { unfold st'. cbn [cache].
    rewrite !cache_find_skip by reflexivity. apply cache_find_head. }
  assert (cache_lookup default_ttl inserted st' = Some (Count 1)) as Hlive.
  { unfold cache_lookup. rewrite Hinserted. unfold st'. cbn [clock].
    by rewrite still_live. }
  assert (forall config_type config_data,
             In (config_type, config_data)
               [("products", products); ("schema", schema); ("metrics", metrics)] ->
             update_company_config company_id config_type config_data st'
               = (Ok true, st')) as Hskipped.
  { intros config_type config_data Hin.
    apply (update_company_config_cached _ _ _ _ (Count 1)).
    unfold cache_lookup.
    replace (cache_find (cache st') (UpsertConfig company_id config_type config_data))
      with (Some (clock st, Count 1)).
    { unfold st'. cbn [clock]. by rewrite still_live. }
    unfold st'. cbn [cache].
    destruct Hin as [[= <- <-] | [[= <- <-] | [[= <- <-] | []]]].
    - rewrite !cache_find_skip
        by (cbn [statement_eqb]; rewrite ?String.eqb_refl; reflexivity).
      by rewrite cache_find_head.
    - rewrite !cache_find_skip
        by (cbn [statement_eqb]; rewrite ?String.eqb_refl; reflexivity).
      by rewrite cache_find_head.
    - by rewrite cache_find_head. }
  split.
  - unfold create_company, _initialize_default_configs, for_each, try_except, bind, ret.
    unfold query. fold inserted. rewrite Hlive. cbn [fst snd].
    fold products. fold schema. fold metrics.
    rewrite (Hskipped "products" products) by (by left).
    rewrite (Hskipped "schema" schema) by (right; by left).
    rewrite (Hskipped "metrics" metrics) by (right; right; by left).
    reflexivity.
  - assert (cache_lookup default_ttl inserted (advance default_ttl st') = None)
      as Hexpired.
    { unfold cache_lookup.
      change (cache (advance default_ttl st')) with (cache st').
      rewrite Hinserted.
      change (clock (advance default_ttl st')) with (clock st + default_ttl).
      by rewrite expired. }
    assert (companies (advance default_ttl st') !! company_id
            = Some (new_company_row company_name industry description settings
                      (clock st))) as Hrow.
    { change (companies (advance default_ttl st'))
        with (<[company_id := new_company_row company_name industry description
                                settings (clock st)]> (companies st)).
      apply lookup_insert_eq. }
    unfold create_company, try_except, bind at 1, query. fold inserted.
    rewrite Hexpired. unfold inserted. cbn [execute]. by rewrite Hrow.
Qed.

Lemma create_company_repeated_witness :
  companies empty_store !! "orbital" = None /\
  (forall q, statement_company q = "orbital" -> uncached q empty_store) /\
  exists st',
    create_company "orbital" "Orbital Works" (Some "Retail") None JNull empty_store
      = (Ok true, st') /\
    create_company "orbital" "Orbital Works" (Some "Retail") None JNull st'
      = (Ok true, st') /\
    create_company "orbital" "Orbital Works" (Some "Retail") None JNull
      (advance default_ttl st')
      = (Ok false, advance default_ttl st').
Proof.
  split; [reflexivity |]. split; [reflexivity |].
  apply (create_company_repeated empty_store "orbital" "Orbital Works" (Some "Retail")
           None JNull); reflexivity.
Defined.

(** ** The default configurations *)

Lemma default_schema_mappings_keys industry :
  map fst (_get_default_schema_mappings industry) = ["sales"; "esg"].
Proof.
  destruct industry as [name |]; [| done].
  unfold _get_default_schema_mappings, industry_mappings. cbn [lookup_industry dict_get].
  destruct (String.eqb "Manufacturing" name); [done |].
  by destruct (String.eqb "Retail" name).
Qed.

(** X8: whatever the industry, the default schema mappings have exactly the
    data types sales and esg (never supply_chain); the esg mapping is the
    base one; the sales mapping has the keys of the base one in the same
    order, and differs from it at most in the values of product_column,
    region_column and customer_column. *)
Theorem default_schema_mappings_shape industry :
  map fst (_get_default_schema_mappings industry) = ["sales"; "esg"] /\
  dict_get (_get_default_schema_mappings industry) "esg" = dict_get base_mappings "esg" /\
  exists sales base_sales,
    dict_get (_get_default_schema_mappings industry) "sales" = Some sales /\
    dict_get base_mappings "sales" = Some base_sales /\
    map fst sales = map fst base_sales /\
    forall key value,
      In (key, value) sales ->
      ~ In key ["product_column"; "region_column"; "customer_column"] ->
      In (key, value) base_sales.
Proof.
  assert (forall mappings,
             mappings = _get_default_schema_mappings None \/
             mappings = _get_default_schema_mappings (Some "Manufacturing") \/
             mappings = _get_default_schema_mappings (Some "Retail") ->
             map fst mappings = ["sales"; "esg"] /\
             dict_get mappings "esg" = dict_get base_mappings "esg" /\
             exists sales base_sales,
               dict_get mappings "sales" = Some sales /\
               dict_get base_mappings "sales" = Some base_sales /\
               map fst sales = map fst base_sales /\
               forall key value,
                 In (key, value) sales ->
                 ~ In key ["product_column"; "region_column"; "customer_column"] ->
                 In (key, value) base_sales) as Hcases.
  { intros mappings [-> | [-> | ->]];
      (split; [reflexivity |]); (split; [reflexivity |]);
      eexists _, _; (split; [reflexivity |]); (split; [reflexivity |]);
      (split; [reflexivity |]);
      intros key value Hin Hkey; simpl in Hin, Hkey |- *;
      repeat (destruct Hin as [[= <- <-] | Hin]; [tauto |]); destruct Hin. }
  apply Hcases.
  destruct industry as [name |]; [| by left].
  unfold _get_default_schema_mappings, industry_mappings. cbn [lookup_industry dict_get].
  destruct (String.eqb "Manufacturing" name) eqn:Hm.
  { apply String.eqb_eq in Hm as <-. right. by left. }
  destruct (String.eqb "Retail" name) eqn:Hr.
  { apply String.eqb_eq in Hr as <-. right. by right. }
  by left.
Qed.

(** X9: whatever the industry, the default product list is not empty and
    names no product twice, and the default metrics have exactly the
    groups financial, esg and operational, with three metrics each. *)
Theorem default_products_and_metrics_shape industry :
  _get_default_products industry <> [] /\
  NoDup (_get_default_products industry) /\
  map fst (_get_default_metrics industry) = ["financial"; "esg"; "operational"] /\
  Forall (fun group => length (snd group) = 3%nat) (_get_default_metrics industry).
Proof.
  split; [| split].
  - unfold _get_default_products, industry_products.
    destruct industry as [name |]; [| done]. cbn [lookup_industry dict_get].
    repeat match goal with
           | |- context [String.eqb ?a name] => destruct (String.eqb a name)
           end; done.
  - unfold _get_default_products, industry_products.
    destruct industry as [name |]; cbn [lookup_industry dict_get];
      repeat match goal with
             | |- context [String.eqb ?a name] => destruct (String.eqb a name)
             end; cbn [default];
      repeat (apply NoDup_cons_2;
              [rewrite list_elem_of_In; simpl; intuition discriminate |]);
      apply NoDup_nil_2.
  - unfold _get_default_metrics, industry_metrics.
    destruct industry as [name |]; cbn [lookup_industry dict_get];
      repeat match goal with
             | |- context [String.eqb ?a name] => destruct (String.eqb a name)
             end; (split; [reflexivity | repeat constructor]).
Qed.

(** ** Reading the seeded mapping back *)

Lemma dict_get_map {V W} (f : V -> W) (fields : list (string * V)) key :
  dict_get (map (fun kv => (fst kv, f (snd kv))) fields) key = f <$> dict_get fields key.
Proof.
  induction fields as [| [k v] fields IH]; simpl; [done |].
  by destruct (String.eqb k key).
Qed.

(** X10: after [create_company] with a free id about which nothing is cached,
    [get_company_schema_mapping] returns, for a data type the default
    mappings of the industry have, that mapping, and the empty dict for any
    other data type; for supply_chain it is the empty dict whatever the
    industry. *)
Theorem seeded_mapping_read_back st company_id company_name industry description
    settings data_type :
  companies st !! company_id = None ->
  (forall q, statement_company q = company_id -> uncached q st) ->
  exists st',
    create_company company_id company_name industry description settings st
      = (Ok true, st') /\
    fst (get_company_schema_mapping company_id data_type st')
      = Ok match dict_get (_get_default_schema_mappings industry) data_type with
           | Some mapping => json_of_dict JStr mapping
           | None => JObj []
           end /\
    fst (get_company_schema_mapping company_id "supply_chain" st') = Ok (JObj []).
Proof.
  intros Hfree Hcache.
  rewrite (create_company_fresh_store st company_id company_name industry description
             settings Hfree Hcache).
  cbv zeta.
  set (schema := JObj [("mappings", _)]).
  set (st' := {| companies := _ |}).
  exists st'. split; [reflexivity |].
  assert (uncached (SelectConfig company_id "schema") st') as Hselect.
  { unfold uncached, cache_lookup, st'. cbn [cache clock].
    rewrite !cache_find_skip by reflexivity.
    apply (Hcache (SelectConfig company_id "schema") eq_refl). }
  assert (forall category,
             fst (get_company_schema_mapping company_id category st')
             = Ok match dict_get (_get_default_schema_mappings industry) category with
                  | Some mapping => json_of_dict JStr mapping
                  | None => JObj []
                  end) as Hread.
  { intros category. unfold get_company_schema_mapping, bind.
    rewrite (get_company_config_uncached _ _ _ Hselect).
    replace (company_configs st' !! (company_id, "schema")) with (Some schema).
    2:{ unfold st'. cbn [company_configs].
        rewrite lookup_insert_ne by (intros [=]). by rewrite lookup_insert_eq. }
    change (default JNull (Some schema)) with schema.
    unfold schema, json_of_mappings. unfold json_of_dict at 1. simpl.
    rewrite dict_get_map.
    by destruct (dict_get (_get_default_schema_mappings industry) category). }
  split; [apply Hread |].
  rewrite Hread.
  pose proof (default_schema_mappings_keys industry) as Hkeys.
  destruct (_get_default_schema_mappings industry) as [| [k1 m1] [| [k2 m2] [| ? ?]]];
    try discriminate Hkeys.
  injection Hkeys as -> ->. reflexivity.
Qed.

Lemma seeded_mapping_read_back_witness :
  companies empty_store !! "orbital" = None /\
  (forall q, statement_company q = "orbital" -> uncached q empty_store) /\
  exists st',
    create_company "orbital" "Orbital Works" (Some "Retail") None JNull empty_store
      = (Ok true, st') /\
    fst (get_company_schema_mapping "orbital" "esg" st')
      = Ok match dict_get (_get_default_schema_mappings (Some "Retail")) "esg" with
           | Some mapping => json_of_dict JStr mapping
           | None => JObj []
           end /\
    fst (get_company_schema_mapping "orbital" "supply_chain" st') = Ok (JObj []).
Proof.
  split; [reflexivity |]. split; [reflexivity |].
  apply (seeded_mapping_read_back empty_store "orbital" "Orbital Works" (Some "Retail")
           None JNull "esg"); reflexivity.
Defined.

(** ** More on [transform_company_data] *)

Lemma get_company_schema_mapping_state company_id data_type st :
  snd (get_company_schema_mapping company_id data_type st)
    = snd (get_company_config company_id "schema" st).
Proof.
  unfold get_company_schema_mapping, bind, lift, ret.
  destruct (get_company_config company_id "schema" st) as [[config | e] st']; [| done].
  simpl. destruct (truthy config); [| done]. simpl.
  destruct (py_contains config "mappings") as [[|] | e]; try done. simpl.
  by destruct (py_getitem config "mappings").
Qed.

(** The store [transform_company_data] leaves is the one its look-up of
    the schema configuration leaves. *)
Lemma transform_company_data_state df company_id data_type st :
  snd (transform_company_data df company_id data_type st)
    = snd (get_company_config company_id "schema" st).
Proof.
  rewrite <- (get_company_schema_mapping_state company_id data_type st).
  unfold transform_company_data, bind, lift, ret.
  destruct (get_company_schema_mapping company_id data_type st)
    as [[mapping | e] st']; [| done].
  simpl. destruct (negb (truthy mapping)); [done |].
  destruct (py_items mapping) as [items | e]; [| done]. simpl.
  by destruct (collect_column_mapping df items ∅).
Qed.

(** X11: [transform_company_data] reads the store and writes nothing but the
    query cache: whatever it returns or raises, the company rows, the
    configurations and the staging tables are as before. *)
Theorem transform_touches_only_cache df company_id data_type st :
  let st' := snd (transform_company_data df company_id data_type st) in
  companies st' = companies st /\ company_configs st' = company_configs st /\
  staging st' = staging st /\ clock st' = clock st.
Proof.
  cbv zeta. rewrite transform_company_data_state.
  destruct (get_company_config company_id "schema" st) as [r st'] eqn:Hget.
  by apply get_company_config_frame in Hget.
Qed.

Lemma collect_column_mapping_app df items items' column_mapping :
  collect_column_mapping df (items ++ items') column_mapping =
    result_bind (collect_column_mapping df items column_mapping)
      (fun collected => collect_column_mapping df items' collected).
Proof.
  revert column_mapping.
  induction items as [| [standard_col company_col] items IH]; intros column_mapping;
    simpl; [done |].
  destruct (index_contains df company_col) as [present | e]; simpl; [| done].
  apply IH.
Qed.

(** The loop leaves the entry of a label as it is when no item of the
    mapping renames that label. *)
Lemma collect_keeps_entry df items label column_mapping :
  Forall (fun kv => hashable (snd kv) = true) items ->
  (forall standard_col, In (standard_col, JStr label) items -> standard_col = label) ->
  exists collected,
    collect_column_mapping df items column_mapping = Ok collected /\
    collected !! label = column_mapping !! label.
Proof.
  revert column_mapping.
  induction items as [| [standard_col company_col] items IH];
    intros column_mapping Hhash Hnames; simpl.
  - eauto.
  - apply Forall_cons_1 in Hhash as [Hhead Hhash]. simpl in Hhead.
    assert (forall k, In (k, JStr label) items -> k = label) as Hrest.
    { intros k Hk. apply Hnames. by right. }
    destruct company_col as [| b | z | m e | other | xs | xs]; simpl;
      try discriminate Hhead; try (by apply IH).
    destruct (has_column df other && negb (String.eqb standard_col other)) eqn:Hcond;
      [| by apply IH].
    destruct (IH (<[other := standard_col]> column_mapping) Hhash Hrest)
      as (collected & -> & Hkept).
    exists collected. split; [done |]. rewrite Hkept.
    apply andb_prop in Hcond as [_ Hne].
    destruct (String.eqb other label) eqn:Hlabel.
    + apply String.eqb_eq in Hlabel. subst other.
      rewrite (Hnames standard_col) in Hne by (by left).
      by rewrite String.eqb_refl in Hne.
    + apply String.eqb_neq in Hlabel. by rewrite lookup_insert_ne.
Qed.

Lemma collect_returns df items column_mapping :
  Forall (fun kv => hashable (snd kv) = true) items ->
  exists collected, collect_column_mapping df items column_mapping = Ok collected.
Proof.
  revert column_mapping.
  induction items as [| [standard_col company_col] items IH];
    intros column_mapping Hhash; simpl; [eauto |].
  apply Forall_cons_1 in Hhash as [Hhead Hhash]. simpl in Hhead.
  destruct company_col; simpl; try discriminate Hhead; by apply IH.
Qed.

(** What [transform_company_data] returns for a dict mapping with hashable
    values and no empty one: the renamed frame, tagged if it was not. *)
Lemma transform_with_mapping df company_id data_type st fields st1 :
  get_company_schema_mapping company_id data_type st = (Ok (JObj fields), st1) ->
  fields <> [] ->
  Forall (fun kv => hashable (snd kv) = true) fields ->
  exists column_mapping,
    collect_column_mapping df fields ∅ = Ok column_mapping /\
    let renamed :=
      if decide (column_mapping = ∅) then df else rename df column_mapping in
    transform_company_data df company_id data_type st =
      (Ok (if has_column renamed "company_id" then renamed
           else setitem_new renamed "company_id" company_id), st1).
Proof.
  intros Hmapping Hfields Hhash.
  destruct (collect_returns df fields ∅ Hhash) as [column_mapping Hcollect].
  exists column_mapping. split; [done |].
  unfold transform_company_data, bind, lift, ret. rewrite Hmapping.
  replace (negb (truthy (JObj fields))) with false by (by destruct fields).
  cbn [py_items]. by rewrite Hcollect.
Qed.

(** X12: [transform_company_data] changes labels only.  With a dict mapping
    none of whose values is a list or a dict, it returns a frame with the
    same number of rows whose columns hold, in the same order, the data of
    the input columns, followed by at most one new column that holds the
    company id in every row; and unless the mapping is empty the result has
    a company_id column. *)
Theorem transform_preserves_data df company_id data_type st fields st1 :
  get_company_schema_mapping company_id data_type st = (Ok (JObj fields), st1) ->
  Forall (fun kv => hashable (snd kv) = true) fields ->
  exists df',
    transform_company_data df company_id data_type st = (Ok df', st1) /\
    index_len df' = index_len df /\
    (map snd (data df') = map snd (data df) \/
     map snd (data df')
       = (map snd (data df)
          ++ [ObjectSeries (repeat (OStr company_id) (index_len df))])%list) /\
    (fields <> [] -> has_column df' "company_id" = true).
Proof.
  intros Hmapping Hhash.
  destruct fields as [| field fields'] eqn:Hfields.
  { exists df. split.
    - by apply (transform_without_mapping df _ _ _ (JObj []) st1).
    - repeat split; [by left | done]. }
  rewrite <- Hfields in *.
  destruct (transform_with_mapping df company_id data_type st fields st1 Hmapping)
    as (column_mapping & _ & ->); [by rewrite Hfields | done |].
  set (renamed := if decide (column_mapping = ∅) then df else rename df column_mapping).
  assert (index_len renamed = index_len df /\
          map snd (data renamed) = map snd (data df)) as [Hlen Hdata].
  { unfold renamed. destruct (decide (column_mapping = ∅)); [done |].
    split; [done |]. unfold rename. simpl. rewrite map_map. done. }
  destruct (has_column renamed "company_id") eqn:Htagged.
  - exists renamed. repeat split; [done | by left | done].
  - exists (setitem_new renamed "company_id" company_id).
    repeat split; [done | |].
    + right. unfold setitem_new. simpl. rewrite map_app, Hdata, Hlen. done.
    + intros _. apply has_column_In. unfold columns, setitem_new. simpl.
      rewrite map_app. apply in_or_app. right. by left.
Qed.

Lemma transform_preserves_data_witness :
  get_company_schema_mapping "acme" "sales" acme_store
    = (Ok (JObj acme_sales_fields),
       snd (get_company_schema_mapping "acme" "sales" acme_store)) /\
  Forall (fun kv => hashable (snd kv) = true) acme_sales_fields /\
  exists df',
    transform_company_data test_df "acme" "sales" acme_store
      = (Ok df', snd (get_company_schema_mapping "acme" "sales" acme_store)) /\
    index_len df' = index_len test_df /\
    (map snd (data df') = map snd (data test_df) \/
     map snd (data df')
       = (map snd (data test_df)
          ++ [ObjectSeries (repeat (OStr "acme") (index_len test_df))])%list) /\
    (acme_sales_fields <> [] -> has_column df' "company_id" = true).
Proof.
  assert (Forall (fun kv => hashable (snd kv) = true) acme_sales_fields) as Hhash.
  { repeat constructor. }
  split; [vm_compute; reflexivity |]. split; [exact Hhash |].
  apply (transform_preserves_data test_df "acme" "sales" acme_store acme_sales_fields).
  - vm_compute. reflexivity.
  - exact Hhash.
Defined.

(** The frame [transform_company_data] hands out has the columns of the
    renamed frame at their positions. *)
Lemma tagging_keeps_columns (renamed : DataFrame) company_id (i : nat) column :
  data renamed !! i = Some column ->
  data (if has_column renamed "company_id" then renamed
        else setitem_new renamed "company_id" company_id) !! i = Some column.
Proof.
  intros Hi. destruct (has_column renamed "company_id"); [done |].
  unfold setitem_new. simpl. by apply lookup_app_l_Some.
Qed.

(** X13: a column whose label the mapping does not name as a company column
    (of a differently named standard column) keeps its label, its position
    and its data through [transform_company_data]. *)
Theorem transform_keeps_unmapped_label st df company_id data_type fields st1 label :
  get_company_schema_mapping company_id data_type st = (Ok (JObj fields), st1) ->
  Forall (fun kv => hashable (snd kv) = true) fields ->
  (forall standard_col, In (standard_col, JStr label) fields -> standard_col = label) ->
  exists df',
    transform_company_data df company_id data_type st = (Ok df', st1) /\
    forall (i : nat) series,
      data df !! i = Some (label, series) -> data df' !! i = Some (label, series).
Proof.
  intros Hmapping Hhash Hnames.
  destruct fields as [| field fields'] eqn:Hfields.
  { exists df. split; [| done].
    by apply (transform_without_mapping df _ _ _ (JObj []) st1). }
  rewrite <- Hfields in *.
  destruct (transform_with_mapping df company_id data_type st fields st1 Hmapping)
    as (column_mapping & Hcollect & ->); [by rewrite Hfields | done |].
  destruct (collect_keeps_entry df fields label ∅ Hhash Hnames) as (collected & Hsame & Hfree).
  rewrite Hcollect in Hsame. injection Hsame as <-.
  rewrite lookup_empty in Hfree.
  eexists. split; [reflexivity |].
  intros i series Hi. apply tagging_keeps_columns.
  destruct (decide (column_mapping = ∅)); [done |].
  unfold rename. simpl. rewrite lookup_map, Hi. simpl. by rewrite Hfree.
Qed.

Lemma transform_keeps_unmapped_label_witness :
  get_company_schema_mapping "acme" "sales" acme_store
    = (Ok (JObj acme_sales_fields),
       snd (get_company_schema_mapping "acme" "sales" acme_store)) /\
  Forall (fun kv => hashable (snd kv) = true) acme_sales_fields /\
  (forall standard_col,
      In (standard_col, JStr "order_ref") acme_sales_fields -> standard_col = "order_ref") /\
  data sales_with_reference !! 6%nat
    = Some ("order_ref", ObjectSeries [OStr "A-1"; OStr "A-2"]) /\
  exists df',
    transform_company_data sales_with_reference "acme" "sales" acme_store
      = (Ok df', snd (get_company_schema_mapping "acme" "sales" acme_store)) /\
    data df' !! 6%nat = Some ("order_ref", ObjectSeries [OStr "A-1"; OStr "A-2"]).
Proof.
  assert (forall standard_col,
             In (standard_col, JStr "order_ref") acme_sales_fields ->
             standard_col = "order_ref") as Hnames.
  { intros standard_col Hin. simpl in Hin.
    repeat (destruct Hin as [Hin | Hin]; [discriminate Hin |]). destruct Hin. }
  assert (Forall (fun kv => hashable (snd kv) = true) acme_sales_fields) as Hhash.
  { repeat constructor. }
  split; [vm_compute; reflexivity |]. split; [exact Hhash |]. split; [exact Hnames |].
  split; [reflexivity |].
  destruct (transform_keeps_unmapped_label acme_store sales_with_reference "acme" "sales"
              acme_sales_fields
              (snd (get_company_schema_mapping "acme" "sales" acme_store))
              "order_ref") as (df' & Hrun & Hkept).
  - vm_compute. reflexivity.
  - exact Hhash.
  - exact Hnames.
  - exists df'. split; [exact Hrun |]. by apply Hkept.
Defined.

(** X14: a column the mapping names is relabelled with the key of the last
    entry that names it.  If the entry [standard_col: label] is followed by
    no other entry for [label], every column labelled [label] comes back
    labelled [standard_col], at its position and with its data. *)
Theorem transform_renames_mapped_label st df company_id data_type before after
    standard_col label st1 :
  get_company_schema_mapping company_id data_type st
    = (Ok (JObj (before ++ (standard_col, JStr label) :: after)), st1) ->
  Forall (fun kv => hashable (snd kv) = true) (before ++ after) ->
  (forall other, In (other, JStr label) after -> other = label) ->
  standard_col <> label ->
  exists df',
    transform_company_data df company_id data_type st = (Ok df', st1) /\
    forall (i : nat) series,
      data df !! i = Some (label, series) -> data df' !! i = Some (standard_col, series).
Proof.
  intros Hmapping Hhash Hlast Hne.
  apply Forall_app in Hhash as [Hbefore Hafter].
  assert (Forall (fun kv => hashable (snd kv) = true)
            (before ++ (standard_col, JStr label) :: after)) as Hall.
  { apply Forall_app. split; [done |]. by apply Forall_cons. }
  destruct (transform_with_mapping df company_id data_type st _ st1 Hmapping)
    as (column_mapping & Hcollect & ->); [by destruct before | done |].
  eexists. split; [reflexivity |].
  intros i series Hi. apply tagging_keeps_columns.
  assert (has_column df label = true) as Hpresent.
  { apply has_column_In. unfold columns. apply in_map_iff. exists (label, series).
    split; [done |]. apply list_elem_of_In, list_elem_of_lookup. eauto. }
  rewrite collect_column_mapping_app in Hcollect.
  destruct (collect_returns df before ∅ Hbefore) as [seen Hseen].
  rewrite Hseen in Hcollect. simpl in Hcollect.
  rewrite Hpresent in Hcollect.
  replace (String.eqb standard_col label) with false in Hcollect
    by (symmetry; by apply String.eqb_neq).
  simpl in Hcollect.
  destruct (collect_keeps_entry df after label (<[label := standard_col]> seen)
              Hafter Hlast) as (collected & Hsame & Hentry).
  rewrite Hcollect in Hsame. injection Hsame as <-.
  rewrite lookup_insert_eq in Hentry.
  destruct (decide (column_mapping = ∅)) as [-> | _]; [by rewrite lookup_empty in Hentry |].
  unfold rename. simpl. rewrite lookup_map, Hi. simpl. by rewrite Hentry.
Qed.

Lemma transform_renames_mapped_label_witness :
  get_company_schema_mapping "acme" "sales" acme_store
    = (Ok (JObj ([] ++ ("product_column", JStr "product_category")
                  :: tl acme_sales_fields)),
       snd (get_company_schema_mapping "acme" "sales" acme_store)) /\
  Forall (fun kv => hashable (snd kv) = true) ([] ++ tl acme_sales_fields) /\
  (forall other, In (other, JStr "product_category") (tl acme_sales_fields) ->
                 other = "product_category") /\
  "product_column" <> "product_category" /\
  exists df',
    transform_company_data test_df "acme" "sales" acme_store
      = (Ok df', snd (get_company_schema_mapping "acme" "sales" acme_store)) /\
    forall (i : nat) series,
      data test_df !! i = Some ("product_category", series) ->
      data df' !! i = Some ("product_column", series).
Proof.
  assert (forall other, In (other, JStr "product_category") (tl acme_sales_fields) ->
                        other = "product_category") as Hlast.
  { intros other Hin. simpl in Hin.
    repeat (destruct Hin as [Hin | Hin]; [discriminate Hin |]). destruct Hin. }
  assert (Forall (fun kv => hashable (snd kv) = true) ([] ++ tl acme_sales_fields))
    as Hhash.
  { repeat constructor. }
  assert ("product_column" <> "product_category") as Hne by discriminate.
  split; [vm_compute; reflexivity |]. split; [exact Hhash |].
  split; [exact Hlast |]. split; [exact Hne |].
  apply (transform_renames_mapped_label acme_store test_df "acme" "sales" []
           (tl acme_sales_fields) "product_column" "product_category").
  - vm_compute. reflexivity.
  - exact Hhash.
  - exact Hlast.
  - exact Hne.
Defined.

(** ** Files that cannot be read *)

(** [str_endswith] is [str.endswith]. *)
Lemma str_endswith_spec s suffix :
  str_endswith s suffix = true <-> exists prefix, s = prefix +:+ suffix.
Proof.
  split.
  - induction s as [| c s IH]; cbn [str_endswith]; intros Hends;
      apply orb_prop in Hends as [Heq | Hends]; try discriminate Hends.
    + apply String.eqb_eq in Heq. exists EmptyString. by subst.
    + apply String.eqb_eq in Heq. exists EmptyString. by subst.
    + destruct (IH Hends) as [prefix ->]. by exists (String c prefix).
  - intros [prefix ->].
    induction prefix as [| c prefix IH].
    + change (EmptyString +:+ suffix) with suffix.
      destruct suffix; cbn [str_endswith]; by rewrite String.eqb_refl.
    + change (String c prefix +:+ suffix) with (String c (prefix +:+ suffix)).
      cbn [str_endswith]. rewrite IH. apply orb_true_r.
Qed.

Lemma str_endswith_false s suffix :
  (forall prefix, s <> prefix +:+ suffix) -> str_endswith s suffix = false.
Proof.
  intros Hnot. apply not_true_is_false. intros Hends.
  apply str_endswith_spec in Hends as [prefix ->]. by apply (Hnot prefix).
Qed.

(** X15: a file whose name ends with none of .csv, .xlsx, .xls and .json (in
    this spelling: the test is case-sensitive) is not handed to any reader.
    [upload_file] answers that the file could not be read and leaves the
    store, the query cache included, as it was. *)
Theorem upload_unsupported_extension `{Pandas} uploaded_file company_id data_type st :
  (forall prefix extension,
      In extension [".csv"; ".xlsx"; ".xls"; ".json"] ->
      name uploaded_file <> prefix +:+ extension) ->
  _read_file uploaded_file = None /\
  upload_file uploaded_file company_id data_type st = (Ok (false, failed_to_read), st).
Proof.
  intros Hname.
  assert (_read_file uploaded_file = None) as Hread.
  { unfold _read_file.
    rewrite !str_endswith_false; [done | | | |];
      intros prefix; apply Hname; simpl; tauto. }
  split; [done |].
  unfold upload_file, try_except, ret. by rewrite Hread.
Qed.

Lemma upload_unsupported_extension_witness :
  (forall prefix extension,
      In extension [".csv"; ".xlsx"; ".xls"; ".json"] ->
      name {| name := "SALES.CSV"; content := "revenue" |} <> prefix +:+ extension) /\
  @_read_file fixture_pandas {| name := "SALES.CSV"; content := "revenue" |} = None /\
  @upload_file fixture_pandas {| name := "SALES.CSV"; content := "revenue" |}
     "acme" "sales" acme_store
    = (Ok (false, failed_to_read), acme_store).
Proof.
  assert (forall prefix extension,
             In extension [".csv"; ".xlsx"; ".xls"; ".json"] ->
             name {| name := "SALES.CSV"; content := "revenue" |} <> prefix +:+ extension)
    as Hname.
  { intros prefix extension Hin Heq.
    assert (str_endswith "SALES.CSV" extension = true) as Hends
      by (apply str_endswith_spec; by exists prefix).
    simpl in Hin.
    destruct Hin as [<- | [<- | [<- | [<- | []]]]]; vm_compute in Hends; discriminate Hends. }
  split; [exact Hname |].
  apply (@upload_unsupported_extension fixture_pandas
           {| name := "SALES.CSV"; content := "revenue" |} "acme" "sales" acme_store).
  exact Hname.
Defined.

(** X16: an exception of the reader the name selects is swallowed by
    [_read_file].  [upload_file] answers that the file could not be read,
    not with the text of the exception, and leaves the store as it was.
    The name is tried as .csv first, then as .xlsx or .xls, then as
    .json. *)
Theorem upload_reader_failure `{Pandas} uploaded_file company_id data_type st e :
  (str_endswith (name uploaded_file) ".csv" = true /\
   read_csv (content uploaded_file) = Raise e) \/
  (str_endswith (name uploaded_file) ".csv" = false /\
   str_endswith (name uploaded_file) ".xlsx" || str_endswith (name uploaded_file) ".xls"
     = true /\
   read_excel (content uploaded_file) = Raise e) \/
  (str_endswith (name uploaded_file) ".csv" = false /\
   str_endswith (name uploaded_file) ".xlsx" || str_endswith (name uploaded_file) ".xls"
     = false /\
   str_endswith (name uploaded_file) ".json" = true /\
   read_json (content uploaded_file) = Raise e) ->
  upload_file uploaded_file company_id data_type st = (Ok (false, failed_to_read), st).
Proof.
  intros Hfailure.
  assert (_read_file uploaded_file = None) as Hread.
  { unfold _read_file.
    destruct Hfailure as [[-> ->] | [(-> & -> & ->) | (-> & -> & -> & ->)]]; done. }
  unfold upload_file, try_except, ret. by rewrite Hread.
Qed.

Lemma upload_reader_failure_witness :
  @upload_file fixture_pandas {| name := "sales.xlsx"; content := "revenue" |}
     "acme" "sales" acme_store
    = (Ok (false, failed_to_read), acme_store).
Proof.
  apply (@upload_reader_failure fixture_pandas
           {| name := "sales.xlsx"; content := "revenue" |} "acme" "sales" acme_store
           ValueError).
  right. left. split; [reflexivity |]. split; reflexivity.
Defined.

(** ** Saving *)

Section Saving.
Context `{Pandas}.

Lemma plain_name_append a b : plain_name (a +:+ b) = plain_name a && plain_name b.
Proof.
  induction a as [| c a IH]; [done |].
  change (String c a +:+ b) with (String c (a +:+ b)).
  cbn [plain_name]. rewrite IH. by rewrite andb_assoc.
Qed.

Lemma table_key_length name : String.length (table_key name) = String.length name.
Proof. induction name as [| c name IH]; simpl; [done | by rewrite IH]. Qed.

(** The names of the two tables of one call of [save_data] are plain when
    the category and the company id are, and they are the names of
    different tables. *)
Lemma staging_tables_plain data_type company_id :
  plain_name data_type = true ->
  plain_name company_id = true ->
  plain_name (staging_table data_type company_id) = true /\
  plain_name (main_staging_table data_type) = true.
Proof.
  intros Htype Hid. unfold staging_table, main_staging_table.
  rewrite !plain_name_append, Htype, Hid. done.
Qed.

Lemma staging_tables_differ data_type company_id :
  table_key (main_staging_table data_type)
    <> table_key (staging_table data_type company_id).
Proof.
  unfold main_staging_table, staging_table. intros Heq.
  apply (f_equal String.length) in Heq.
  rewrite !table_key_length, !string_length_append in Heq.
  simpl String.length in Heq. lia.
Qed.

(** What [save_data] does to the store, for plain names. *)
Lemma save_data_frame df company_id data_type st :
  plain_name data_type = true ->
  plain_name company_id = true ->
  exists saved st',
    save_data df company_id data_type st = (Ok saved, st') /\
    companies st' = companies st /\ company_configs st' = company_configs st /\
    cache st' = cache st /\ clock st' = clock st /\
    (forall frames,
        staging st !! table_key (staging_table data_type company_id) = Some frames ->
        staging st' !! table_key (staging_table data_type company_id) = Some frames) /\
    (forall key,
        key <> table_key (staging_table data_type company_id) ->
        key <> table_key (main_staging_table data_type) ->
        staging st' !! key = staging st !! key).
Proof.
  intros Htype Hid.
  destruct (staging_tables_plain data_type company_id Htype Hid) as [Htenant Hmain].
  pose proof (staging_tables_differ data_type company_id) as Hdiffer.
  unfold save_data, try_except, bind, ret, create_table_if_not_exists, probe_table,
    create_table, insert_into.
  rewrite Htenant, Hmain.
  set (tenant := table_key (staging_table data_type company_id)) in *.
  set (main := table_key (main_staging_table data_type)) in *.
  destruct (ingest CreateAs (staging st !! tenant) df) as [e |].
  { eexists _, _. split; [reflexivity |]. repeat split; done. }
  destruct (staging st !! tenant) as [held |] eqn:Hheld;
    cbn [staging set_staging];
    rewrite ?(lookup_insert_ne (staging st) tenant main) by congruence;
    destruct (staging st !! main) as [[| first rest] |] eqn:Hfilled;
    cbn [staging set_staging];
    rewrite ?(lookup_insert_ne (staging st) tenant main) by congruence;
    rewrite ?Hfilled;
    repeat match goal with
           | |- context [ingest ?kind ?held ?df] => destruct (ingest kind held df)
           | |- context [Nat.eqb ?a ?b] => destruct (Nat.eqb a b)
           end;
    eexists _, _; (split; [reflexivity |]); cbn [companies company_configs cache clock
                                                   staging set_staging];
    repeat split; try done;
    try (intros frames [= <-]); try (intros key Hne1 Hne2);
    rewrite ?lookup_insert_ne by congruence; done.
Qed.

(** X17: for a category and a company id made of letters, digits and
    underscores, [save_data] returns a boolean, never an exception, and the
    table of the tenant is written once only: if it exists it is left as
    it is, whatever the call returns, so that the rows of a later upload
    never reach it.  The company rows, the configurations and the query
    cache are not touched.  This holds whatever DuckDB makes of the
    frame. *)
Theorem save_data_keeps_tenant_table df company_id data_type st :
  plain_name data_type = true ->
  plain_name company_id = true ->
  exists saved st',
    save_data df company_id data_type st = (Ok saved, st') /\
    (forall frames,
        staging st !! table_key (staging_table data_type company_id) = Some frames ->
        staging st' !! table_key (staging_table data_type company_id) = Some frames) /\
    companies st' = companies st /\ company_configs st' = company_configs st /\
    cache st' = cache st.
Proof.
  intros Htype Hid.
  destruct (save_data_frame df company_id data_type st Htype Hid)
    as (saved & st' & Hrun & Hc & Hcc & Hcache & _ & Htenant & _).
  exists saved, st'. auto.
Qed.

End Saving.

Lemma save_data_keeps_tenant_table_witness :
  plain_name "sales" = true /\
  plain_name "acme" = true /\
  staging uploaded_store !! table_key (staging_table "sales" "acme") = Some [revenue_only] /\
  exists saved st',
    @save_data fixture_pandas negative_revenue "acme" "sales" uploaded_store
      = (Ok saved, st') /\
    staging st' !! table_key (staging_table "sales" "acme") = Some [revenue_only] /\
    companies st' = companies uploaded_store /\
    company_configs st' = company_configs uploaded_store /\
    cache st' = cache uploaded_store.
Proof.
  assert (staging uploaded_store !! table_key (staging_table "sales" "acme")
          = Some [revenue_only]) as Hheld by (vm_compute; reflexivity).
  split; [reflexivity |]. split; [reflexivity |]. split; [exact Hheld |].
  destruct (@save_data_keeps_tenant_table fixture_pandas negative_revenue "acme" "sales"
              uploaded_store eq_refl eq_refl)
    as (saved & st' & Hrun & Hkept & Hrest).
  exists saved, st'. split; [exact Hrun |]. split; [exact (Hkept _ Hheld) | exact Hrest].
Defined.

(** ** Configurations of different tenants *)

(** X18: writing a configuration does not change what is read under any
    other (company, kind) pair: [get_company_config] gives for that pair
    the answer it would have given without the write, whatever the cache
    holds. *)
Theorem config_write_is_isolated company_id config_type config_data other_id other_type st :
  (other_id, other_type) <> (company_id, config_type) ->
  fst (get_company_config other_id other_type
         (snd (update_company_config company_id config_type config_data st)))
    = fst (get_company_config other_id other_type st).
Proof.
  intros Hother.
  destruct (cache_lookup default_ttl (UpsertConfig company_id config_type config_data) st)
    as [answer |] eqn:Hwrite.
  { by rewrite (update_company_config_cached _ _ _ _ _ Hwrite). }
  rewrite (update_company_config_uncached _ _ _ _ Hwrite). cbn [snd].
  unfold get_company_config, try_except, bind, query, cache_lookup.
  cbn [cache clock set_cache set_company_configs cache_find statement_eqb].
  destruct (cache_find (cache st) (SelectConfig other_id other_type))
    as [[filed answer] |];
    [destruct (clock st <? filed + default_ttl);
       [by destruct answer as [n | [| config rows]] |] |];
    cbn [execute company_configs set_company_configs set_cache clock];
    rewrite lookup_insert_ne by done;
    by destruct (company_configs st !! (other_id, other_type)).
Qed.

Lemma config_write_is_isolated_witness :
  ("globex", "schema") <> ("acme", "schema") /\
  fst (get_company_config "globex" "schema"
         (snd (update_company_config "acme" "schema" (JObj []) acme_store)))
    = fst (get_company_config "globex" "schema" acme_store).
Proof.
  assert (("globex", "schema") <> ("acme", "schema")) as Hother by discriminate.
  split; [exact Hother |].
  exact (config_write_is_isolated "acme" "schema" (JObj []) "globex" "schema" acme_store
           Hother).
Defined.

(** ** More on [validate_data] *)

Section MoreValidation.
Context `{Pandas}.

Lemma unknown_data_type {V} (table : list (string * V)) data_type :
  ~ In data_type (map fst table) -> dict_get table data_type = None.
Proof.
  induction table as [| [key value] table IH]; simpl; [done |].
  intros Hnot. destruct (String.eqb key data_type) eqn:Hkey.
  - apply String.eqb_eq in Hkey. tauto.
  - apply IH. tauto.
Qed.

(** X19: for a category other than sales, esg and supply_chain no column is
    required and no type or value is checked.  [validate_data] applies the
    date block alone: its errors are the errors of that block, and a frame
    without a date column is valid. *)
Theorem validate_unknown_category st df company_id data_type :
  well_formed_schema_config (visible_config company_id "schema" st) ->
  ~ In data_type known_data_types ->
  fst (validate_data df company_id data_type st)
    = Ok {| valid := match check_date_range df with [] => true | _ => false end;
            errors := check_date_range df |} /\
  (has_column df "date" = false ->
   fst (validate_data df company_id data_type st) = Ok {| valid := true; errors := [] |}).
Proof.
  intros Hconfig Hunknown.
  assert (fst (validate_data df company_id data_type st)
          = Ok {| valid := match check_date_range df with [] => true | _ => false end;
                  errors := check_date_range df |}) as Hrun.
  { rewrite (validate_data_verdict _ _ _ _ Hconfig).
    unfold verdict, missing_columns, _get_required_columns, _validate_data_types,
      _validate_business_rules.
    rewrite !unknown_data_type;
      [| intros Hin; apply Hunknown; simpl in Hin; unfold known_data_types; simpl; tauto ..].
    simpl. rewrite app_nil_r. by destruct (check_date_range df). }
  split; [done |].
  intros Hnodate. rewrite Hrun. unfold check_date_range.
  apply has_column_getitem in Hnodate. by rewrite Hnodate.
Qed.

(** The date column is the first that [_validate_data_types] checks for a
    known category. *)
Lemma type_validations_date_first data_type :
  In data_type known_data_types ->
  exists others,
    default [] (dict_get type_validations data_type) = ("date", "datetime") :: others.
Proof.
  intros [<- | [<- | [<- | []]]]; eexists; reflexivity.
Qed.

(** X20: on a frame with distinct column labels, a date column that cannot
    be parsed is reported twice for a known category, once by the type
    check and once by the date block of the business rules, when the
    columns compared with numbers are comparable. *)
Theorem unparseable_date_reported_twice st df company_id data_type series e :
  well_formed_schema_config (visible_config company_id "schema" st) ->
  In data_type known_data_types ->
  NoDup (columns df) ->
  rules_comparable data_type df ->
  getitem df "date" = Some series ->
  to_datetime series = Raise e ->
  exists validation,
    fst (validate_data df company_id data_type st) = Ok validation /\
    valid validation = false /\
    In "Column date should be a valid date" (errors validation) /\
    In "Invalid date format in date column" (errors validation).
Proof.
  intros Hconfig Hknown Hdistinct Hcomparable Hdate Hparse.
  pose proof (NoDup_not_repeated df "date" Hdistinct) as Hone.
  rewrite (validate_data_verdict _ _ _ _ Hconfig). unfold verdict.
  rewrite (business_rules_returns _ _ Hdistinct Hcomparable). cbn [result_bind].
  eexists. split; [reflexivity |]. cbn [valid errors].
  assert (In "Column date should be a valid date" (_validate_data_types df data_type))
    as Htype.
  { unfold _validate_data_types.
    destruct (type_validations_date_first data_type Hknown) as [others ->].
    cbn [flat_map fst snd]. apply in_or_app. left.
    unfold validate_column_type, item_to_datetime. rewrite Hdate, Hone.
    change (String.eqb "datetime" "datetime") with true. cbv iota.
    rewrite Hparse. by left. }
  assert (In "Invalid date format in date column" (check_date_range df)) as Hrule.
  { unfold check_date_range, item_to_datetime. rewrite Hdate, Hone, Hparse. by left. }
  split; [| split].
  - match goal with
    | |- Nat.eqb (length ?l) 0 = false =>
        assert (In "Column date should be a valid date" l) as Hin
    end.
    { apply in_or_app. left. apply in_or_app. by right. }
    match type of Hin with In _ ?l => destruct l end; [destruct Hin | done].
  - apply in_or_app. left. apply in_or_app. by right.
  - apply in_or_app. right. apply in_or_app. right. apply in_or_app. by left.
Qed.

End MoreValidation.

Lemma validate_unknown_category_witness :
  well_formed_schema_config (visible_config "acme" "schema" acme_store) /\
  ~ In "finance" known_data_types /\
  fst (@validate_data fixture_pandas negative_revenue "acme" "finance" acme_store)
    = Ok {| valid := true; errors := [] |}.
Proof.
  assert (well_formed_schema_config (visible_config "acme" "schema" acme_store)) as H1.
  { right. eexists. split; [vm_compute; reflexivity |].
    intros mappings [= <-]. eexists. reflexivity. }
  assert (~ In "finance" known_data_types) as H2.
  { simpl. intros [Heq | [Heq | [Heq | []]]]; discriminate Heq. }
  split; [exact H1 |]. split; [exact H2 |].
  apply (@validate_unknown_category fixture_pandas acme_store negative_revenue "acme"
           "finance" H1 H2).
  reflexivity.
Defined.

Lemma unparseable_date_reported_twice_witness :
  well_formed_schema_config (visible_config "acme" "schema" acme_store) /\
  In "sales" known_data_types /\
  NoDup (columns unparseable_date) /\
  rules_comparable "sales" unparseable_date /\
  getitem unparseable_date "date" = Some (ObjectSeries [OStr "yesterday"]) /\
  @to_datetime fixture_pandas (ObjectSeries [OStr "yesterday"]) = Raise ValueError /\
  exists validation,
    fst (@validate_data fixture_pandas unparseable_date "acme" "sales" acme_store)
      = Ok validation /\
    valid validation = false /\
    In "Column date should be a valid date" (errors validation) /\
    In "Invalid date format in date column" (errors validation).
Proof.
  assert (well_formed_schema_config (visible_config "acme" "schema" acme_store)) as H1.
  { right. eexists. split; [vm_compute; reflexivity |].
    intros mappings [= <-]. eexists. reflexivity. }
  assert (In "sales" known_data_types) as H2 by (by left).
  assert (rules_comparable "sales" unparseable_date) as H3.
  { intros col series Hcol Hget. simpl in Hcol.
    destruct Hcol as [<- | [<- | [<- | []]]]; vm_compute in Hget;
      try discriminate Hget.
    by injection Hget as <-. }
  assert (NoDup (columns unparseable_date)) as Hdistinct.
  { repeat (apply NoDup_cons_2; [rewrite list_elem_of_In; simpl; intuition discriminate |]).
    apply NoDup_nil_2. }
  split; [exact H1 |]. split; [exact H2 |]. split; [exact Hdistinct |].
  split; [exact H3 |]. split; [reflexivity |]. split; [reflexivity |].
  exact (@unparseable_date_reported_twice fixture_pandas acme_store unparseable_date
           "acme" "sales" (ObjectSeries [OStr "yesterday"]) ValueError
           H1 H2 Hdistinct H3 eq_refl eq_refl).
Defined.

(** ** Values the business rules flag *)

Section FlaggedValues.
Context `{Pandas}.

(** The messages of the type checks. *)
Lemma type_error_shape df data_type e :
  In e (_validate_data_types df data_type) ->
  exists col,
    e = "Column " +:+ col +:+ " should be a valid date" \/
    e = "Column " +:+ col +:+ " should be numeric".
Proof.
  unfold _validate_data_types. intros Hin.
  apply in_flat_map in Hin as ([col expected_type] & _ & Hin).
  unfold validate_column_type in Hin. cbn [fst snd] in Hin.
  exists col.
  destruct (getitem df col) as [series |]; [| destruct Hin].
  destruct (String.eqb expected_type "datetime").
  - destruct (item_to_datetime df col series); [destruct Hin |].
    destruct Hin as [<- | []]. by left.
  - destruct (String.eqb expected_type "numeric"); [| destruct Hin].
    destruct (item_is_numeric df col series); [destruct Hin |].
    destruct Hin as [<- | []]. by right.
Qed.

(** The errors [validate_data] lists before those of the business rules:
    none of them is the message of a negative column or of the date
    window. *)
Lemma earlier_errors_differ df data_type e :
  In e (match missing_columns df data_type with
        | [] => []
        | _ => [missing_error (missing_columns df data_type)]
        end ++ _validate_data_types df data_type)%list ->
  (forall col, e <> negative_message col) /\ e <> date_range_message.
Proof.
  intros Hin. apply in_app_or in Hin as [Hmissing | Htype].
  - destruct (missing_columns df data_type) as [| col missing]; [destruct Hmissing |].
    destruct Hmissing as [<- | []]. split; [intros col' |]; discriminate.
  - apply type_error_shape in Htype as [col [-> | ->]]; split;
      try discriminate; intros col' Heq; apply (f_equal last_char) in Heq;
      rewrite last_char_negative_message in Heq;
      rewrite last_char_append in Heq by (by destruct col);
      rewrite last_char_append in Heq by done; discriminate Heq.
Qed.

(** X21: on a frame with distinct column labels whose columns compared
    with numbers are comparable, [validate_data] rejects a negative value
    in a column that must be positive, and names that column in exactly one
    error, whatever the other rows and columns hold. *)
Theorem negative_column_reported st df company_id data_type col series :
  well_formed_schema_config (visible_config company_id "schema" st) ->
  NoDup (columns df) ->
  rules_comparable data_type df ->
  In col (default [] (dict_get positive_columns data_type)) ->
  getitem df col = Some series ->
  has_negative series ->
  exists validation,
    fst (validate_data df company_id data_type st) = Ok validation /\
    valid validation = false /\
    count_occ string_dec (errors validation) (negative_message col) = 1%nat.
Proof.
  intros Hconfig Hdistinct Hcomparable Hcol Hseries Hnegative.
  destruct (negative_values_flagged data_type df col series
              Hdistinct Hcomparable Hcol Hseries Hnegative)
    as (rule_errors & Hrules & Hcount).
  rewrite (validate_data_verdict _ _ _ _ Hconfig). unfold verdict.
  rewrite Hrules. cbn [result_bind].
  eexists. split; [reflexivity |]. cbn [valid errors].
  pose proof (earlier_errors_differ df data_type) as Hearlier.
  destruct (missing_columns df data_type) as [| c missing] eqn:Hmissing;
    set (earlier := (_ ++ _validate_data_types df data_type)%list) in *.
  all: assert (count_occ string_dec earlier (negative_message col) = 0%nat) as Hnone
    by (apply count_occ_not_In; intros Hin; by apply (proj1 (Hearlier _ Hin) col)).
  all: split; [| by rewrite count_occ_app, Hnone, Hcount].
  all: destruct rule_errors as [| e rule_errors]; [discriminate Hcount |].
  all: rewrite length_app; simpl; rewrite ?Nat.add_succ_r; done.
Qed.

(** X22: on such a frame whose date column parses to dates without time
    zone, [validate_data] reports the date window exactly when some date
    lies strictly before 2020-01-01T00:00 or strictly after
    2030-12-31T00:00, and then rejects the frame; missing dates (NaT) are
    not counted. *)
Theorem date_window_enforced st df company_id data_type series dates :
  well_formed_schema_config (visible_config company_id "schema" st) ->
  NoDup (columns df) ->
  rules_comparable data_type df ->
  getitem df "date" = Some series ->
  to_datetime series = Ok dates ->
  tz_aware series = false ->
  exists validation,
    fst (validate_data df company_id data_type st) = Ok validation /\
    (In date_range_message (errors validation) <-> out_of_range dates) /\
    (out_of_range dates -> valid validation = false).
Proof.
  intros Hconfig Hdistinct Hcomparable Hseries Hdates Hnaive.
  destruct (date_range_flagged data_type df series dates Hdistinct Hcomparable
              Hseries Hdates Hnaive)
    as (rule_errors & Hrules & Hflag).
  rewrite (validate_data_verdict _ _ _ _ Hconfig). unfold verdict.
  rewrite Hrules. cbn [result_bind].
  eexists. split; [reflexivity |]. cbn [valid errors].
  pose proof (earlier_errors_differ df data_type) as Hearlier.
  destruct (missing_columns df data_type) as [| c missing] eqn:Hmissing;
    set (earlier := (_ ++ _validate_data_types df data_type)%list) in *.
  all: assert (In date_range_message (earlier ++ rule_errors)
               <-> out_of_range dates) as Hiff
    by (rewrite in_app_iff, <- Hflag; split; [intros [Hin | Hin] | intros Hin];
        [by destruct (proj2 (Hearlier _ Hin)) | done | by right]).
  all: split; [exact Hiff |].
  all: intros Hout; apply Hiff in Hout.
  all: destruct (earlier ++ rule_errors)%list; [destruct Hout | done].
Qed.

Lemma any_map {A} (f : A -> bool) (l : list A) :
  any (map f l) = true <-> exists x, In x l /\ f x = true.
Proof.
  unfold any. rewrite existsb_exists. split.
  - intros (b & Hin & Hb). apply in_map_iff in Hin as (x & <- & Hin). eauto.
  - intros (x & Hin & Hx). exists (f x). split; [by apply in_map | done].
Qed.

Lemma percentage_message_inj col col' :
  percentage_message col = percentage_message col' -> col = col'.
Proof.
  unfold percentage_message. intros Heq.
  apply (inj (String.append "Column ")) in Heq.
  by apply string_append_inj_r in Heq.
Qed.

(** The percentage check on a numeric column. *)
Lemma check_percentage_numeric df col values :
  repeated df col = false ->
  getitem df col = Some (NumericSeries values) ->
  (check_percentage df col = Ok [percentage_message col] /\
   exists x, In x values /\ outside_percentage x) \/
  (check_percentage df col = Ok [] /\
   ~ exists x, In x values /\ outside_percentage x).
Proof.
  intros Hone Hget. unfold check_percentage, outside_percentage, item_any.
  rewrite Hget, Hone. cbn [series_compare result_bind].
  destruct (any (map (fun x => number_ltb x 0) values)) eqn:Hbelow.
  { left. split; [done |]. apply any_map in Hbelow as (x & Hin & Hx). eauto. }
  destruct (any (map (fun x => number_gtb x 100) values)) eqn:Habove.
  { left. split; [done |]. apply any_map in Habove as (x & Hin & Hx). eauto. }
  right. split; [done |]. intros (x & Hin & [Hx | Hx]).
  - assert (any (map (fun x => number_ltb x 0) values) = true) as Habs
      by (apply any_map; eauto).
    by rewrite Hbelow in Habs.
  - assert (any (map (fun x => number_gtb x 100) values) = true) as Habs
      by (apply any_map; eauto).
    by rewrite Habove in Habs.
Qed.

(** X23: the percentage rule.  On a frame with distinct column labels,
    for a numeric column that must hold a percentage, the business rules
    report the column exactly when one of its values is below 0 or above
    100; the bounds themselves and missing values (NaN) pass. *)
Theorem percentage_values_flagged data_type df col values :
  NoDup (columns df) ->
  rules_comparable data_type df ->
  In col (default [] (dict_get percentage_columns data_type)) ->
  getitem df col = Some (NumericSeries values) ->
  exists rule_errors,
    _validate_business_rules df data_type = Ok rule_errors /\
    (In (percentage_message col) rule_errors <->
     exists x, In x values /\ outside_percentage x) /\
    (forall z, outside_percentage (Int z) <-> z < 0 \/ 100 < z) /\
    ~ outside_percentage NaN.
Proof.
  intros Hdistinct Hcomparable Hcol Hget.
  pose proof (NoDup_not_repeated df col Hdistinct) as Hone.
  rewrite (business_rules_returns _ _ Hdistinct Hcomparable).
  eexists. split; [reflexivity |]. split; [| split].
  - rewrite !in_app_iff. split.
    + intros [Hneg | [Hdate | Hpct]].
      * exfalso. apply in_flat_map in Hneg as (c & Hc & Hneg).
        destruct (check_negative_returns df c Hdistinct) as (found & Hfound & [-> | ->] & _).
        { intros s. apply Hcomparable, in_or_app. by left. }
        { unfold found_by in Hneg. by rewrite Hfound in Hneg. }
        unfold found_by in Hneg. rewrite Hfound in Hneg.
        destruct Hneg as [Heq | []].
        apply (f_equal last_char) in Heq.
        rewrite last_char_negative_message in Heq.
        unfold percentage_message in Heq.
        rewrite last_char_append in Heq by (by destruct col).
        rewrite last_char_append in Heq by done.
        discriminate Heq.
      * exfalso. unfold check_date_range in Hdate.
        destruct (getitem df "date") as [series |]; [| destruct Hdate].
        destruct (result_bind _ _) as [[|] | e]; [| destruct Hdate |];
          destruct Hdate as [Heq | []]; discriminate Heq.
      * apply in_flat_map in Hpct as (c & Hc & Hpct).
        destruct (check_percentage_returns df c Hdistinct) as (found & Hfound & Hshape).
        { intros s. apply Hcomparable, in_or_app. by right. }
        unfold found_by in Hpct. rewrite Hfound in Hpct.
        pose proof (Hshape _ Hpct) as Heq.
        apply percentage_message_inj in Heq. subst c.
        destruct (check_percentage_numeric df col values Hone Hget)
          as [[_ Hout] | [Hnone _]]; [done |].
        rewrite Hnone in Hfound. injection Hfound as <-. destruct Hpct.
    + intros Hout. right. right. apply in_flat_map. exists col. split; [done |].
      destruct (check_percentage_numeric df col values Hone Hget)
        as [[Hfound _] | [_ Hnot]]; [| done].
      unfold found_by. rewrite Hfound. by left.
  - intros z. unfold outside_percentage. simpl. rewrite !Z.ltb_lt. done.
  - unfold outside_percentage. simpl. intros [Habs | Habs]; discriminate Habs.
Qed.

End FlaggedValues.

Lemma negative_column_reported_witness :
  well_formed_schema_config (visible_config "acme" "schema" acme_store) /\
  NoDup (columns ten_rows) /\
  rules_comparable "sales" ten_rows /\
  In "revenue" (default [] (dict_get positive_columns "sales")) /\
  has_negative (NumericSeries (repeat (Int 100) 4 ++ [Int (-5)] ++ repeat (Int 100) 5)) /\
  exists validation,
    fst (@validate_data fixture_pandas ten_rows "acme" "sales" acme_store)
      = Ok validation /\
    valid validation = false /\
    count_occ string_dec (errors validation) (negative_message "revenue") = 1%nat.
Proof.
  assert (well_formed_schema_config (visible_config "acme" "schema" acme_store)) as H1.
  { right. eexists. split; [vm_compute; reflexivity |].
    intros mappings [= <-]. eexists. reflexivity. }
  assert (rules_comparable "sales" ten_rows) as H2.
  { intros col series Hcol Hget. simpl in Hcol.
    destruct Hcol as [<- | [<- | [<- | []]]]; vm_compute in Hget;
      try discriminate Hget; by injection Hget as <-. }
  assert (In "revenue" (default [] (dict_get positive_columns "sales"))) as H3.
  { right. by left. }
  assert (has_negative
            (NumericSeries (repeat (Int 100) 4 ++ [Int (-5)] ++ repeat (Int 100) 5)))
    as H4.
  { eexists. split; reflexivity. }
  assert (NoDup (columns ten_rows)) as Hdistinct.
  { repeat (apply NoDup_cons_2; [rewrite list_elem_of_In; simpl; intuition discriminate |]).
    apply NoDup_nil_2. }
  split; [exact H1 |]. split; [exact Hdistinct |]. split; [exact H2 |].
  split; [exact H3 |]. split; [exact H4 |].
  exact (@negative_column_reported fixture_pandas acme_store ten_rows "acme" "sales"
           "revenue" _ H1 Hdistinct H2 H3 eq_refl H4).
Defined.

Lemma date_window_enforced_witness :
  well_formed_schema_config (visible_config "acme" "schema" acme_store) /\
  NoDup (columns boundary_dates) /\
  rules_comparable "sales" boundary_dates /\
  @tz_aware fixture_pandas
    (DatetimeSeries [Some (midnight 2020 1 1); Some (midnight 2030 12 31)]) = false /\
  exists validation,
    fst (@validate_data fixture_pandas boundary_dates "acme" "sales" acme_store)
      = Ok validation /\
    (In date_range_message (errors validation) <->
     out_of_range [Some (midnight 2020 1 1); Some (midnight 2030 12 31)]) /\
    (out_of_range [Some (midnight 2020 1 1); Some (midnight 2030 12 31)] ->
     valid validation = false).
Proof.
  assert (well_formed_schema_config (visible_config "acme" "schema" acme_store)) as H1.
  { right. eexists. split; [vm_compute; reflexivity |].
    intros mappings [= <-]. eexists. reflexivity. }
  assert (rules_comparable "sales" boundary_dates) as H2.
  { intros col series Hcol Hget. simpl in Hcol.
    destruct Hcol as [<- | [<- | [<- | []]]]; vm_compute in Hget; discriminate Hget. }
  assert (NoDup (columns boundary_dates)) as Hdistinct.
  { repeat (apply NoDup_cons_2; [rewrite list_elem_of_In; simpl; intuition discriminate |]).
    apply NoDup_nil_2. }
  split; [exact H1 |]. split; [exact Hdistinct |]. split; [exact H2 |].
  split; [reflexivity |].
  exact (@date_window_enforced fixture_pandas acme_store boundary_dates "acme" "sales"
           _ _ H1 Hdistinct H2 eq_refl eq_refl eq_refl).
Defined.

Lemma percentage_values_flagged_witness :
  NoDup (columns esg_percentages) /\
  rules_comparable "esg" esg_percentages /\
  In "recycled_material_pct" (default [] (dict_get percentage_columns "esg")) /\
  exists rule_errors,
    @_validate_business_rules fixture_pandas esg_percentages "esg" = Ok rule_errors /\
    (In (percentage_message "recycled_material_pct") rule_errors <->
     exists x, In x [Int 0; Int 100; Int 101] /\ outside_percentage x).
Proof.
  assert (rules_comparable "esg" esg_percentages) as H1.
  { intros col series Hcol Hget. simpl in Hcol.
    destruct Hcol as [<- | [<- | [<- | [<- | [<- | []]]]]]; vm_compute in Hget;
      try discriminate Hget; by injection Hget as <-. }
  assert (In "recycled_material_pct" (default [] (dict_get percentage_columns "esg")))
    as H2 by (by left).
  assert (NoDup (columns esg_percentages)) as Hdistinct.
  { repeat (apply NoDup_cons_2; [rewrite list_elem_of_In; simpl; intuition discriminate |]).
    apply NoDup_nil_2. }
  split; [exact Hdistinct |]. split; [exact H1 |]. split; [exact H2 |].
  destruct (@percentage_values_flagged fixture_pandas "esg" esg_percentages
              "recycled_material_pct" [Int 0; Int 100; Int 101] Hdistinct H1 H2 eq_refl)
    as (rule_errors & Hrules & Hflag & _).
  exists rule_errors. split; [exact Hrules | exact Hflag].
Defined.

(** ** What an upload can touch *)

(** X24: for a category and a company id made of letters, digits and
    underscores, [upload_file] never changes a company row or a
    configuration.  It reports success exactly with the message that counts
    the rows, and unless the frame reached [save_data] (the answer is
    success or a failed save) the staging tables are as before; in
    particular an upload that ends in an exception has written no table. *)
Theorem upload_keeps_registry `{Pandas} uploaded_file company_id data_type st :
  plain_name data_type = true ->
  plain_name company_id = true ->
  exists ok message st',
    upload_file uploaded_file company_id data_type st = (Ok (ok, message), st') /\
    companies st' = companies st /\ company_configs st' = company_configs st /\
    (ok = true <-> exists rows, message = uploaded rows company_id) /\
    match message with
    | uploaded _ _ | failed_to_save => True
    | _ => staging st' = staging st
    end.
Proof.
  intros Htype Hid.
  unfold upload_file, try_except, bind, ret.
  destruct (_read_file uploaded_file) as [df |].
  2:{ eexists _, _, _. split; [reflexivity |].
      repeat split; try done. by intros [rows Hrows]. }
  destruct (validate_data df company_id data_type st) as [[validation | e] st1] eqn:Hvalidate;
    destruct (validate_data_frame _ _ _ _ _ _ Hvalidate) as (Hc1 & Hcc1 & Hs1 & _).
  2:{ eexists _, _, _. split; [reflexivity |].
      repeat split; try done. by intros [rows Hrows]. }
  destruct (valid validation); cbn [negb].
  2:{ eexists _, _, _. split; [reflexivity |].
      repeat split; try done. by intros [rows Hrows]. }
  pose proof (transform_company_data_state df company_id data_type st1) as Hstate.
  destruct (transform_company_data df company_id data_type st1)
    as [[transformed_df | e] st2].
  all: cbn [snd] in Hstate.
  all: destruct (get_company_config company_id "schema" st1) as [r st2'] eqn:Hget.
  all: cbn [snd] in Hstate; subst st2'.
  all: destruct (get_company_config_frame _ _ _ _ _ Hget) as (Hc2 & Hcc2 & Hs2 & _).
  2:{ eexists _, _, _. split; [reflexivity |].
      repeat split; try congruence. by intros [rows Hrows]. }
  destruct (save_data_frame transformed_df company_id data_type st2 Htype Hid)
    as (saved & st3 & -> & Hc3 & Hcc3 & _).
  destruct saved; eexists _, _, _; (split; [reflexivity |]);
    repeat split; try congruence; try done; eauto.
  by intros [rows Hrows].
Qed.

Lemma upload_keeps_registry_witness :
  plain_name "sales" = true /\
  plain_name "acme" = true /\
  exists ok message st',
    @upload_file fixture_pandas revenue_csv "acme" "sales" acme_store
      = (Ok (ok, message), st') /\
    companies st' = companies acme_store /\
    company_configs st' = company_configs acme_store /\
    (ok = true <-> exists rows, message = uploaded rows "acme") /\
    match message with
    | uploaded _ _ | failed_to_save => True
    | _ => staging st' = staging acme_store
    end.
Proof.
  split; [reflexivity |]. split; [reflexivity |].
  apply (@upload_keeps_registry fixture_pandas revenue_csv "acme" "sales" acme_store);
    reflexivity.
Defined.

(** ** The lifetime of a stale answer *)

Lemma cache_find_In entries q entry :
  cache_find entries q = Some entry -> exists q', In (q', entry) entries.
Proof.
  induction entries as [| [q' entry'] entries IH]; simpl; [done |].
  destruct (statement_eqb q' q).
  - intros [= <-]. exists q'. by left.
  - intros Hfind. destruct (IH Hfind) as [q'' Hin]. exists q''. by right.
Qed.

(** X25: a stale answer lives for an hour at most.  In a store whose cache
    entries were not filed in the future, once [default_ttl] seconds have
    passed without a call, [get_company_config] returns the stored
    document, or [None] when there is none, for every company and kind. *)
Theorem read_after_expiry st company_id config_type seconds :
  cache_from_past st ->
  default_ttl <= seconds ->
  fst (get_company_config company_id config_type (advance seconds st))
    = Ok (default JNull (company_configs st !! (company_id, config_type))).
Proof.
  intros Hpast Hseconds.
  rewrite get_company_config_uncached; [done |].
  unfold uncached, cache_lookup. cbn [cache clock advance].
  destruct (cache_find (cache st) (SelectConfig company_id config_type))
    as [[filed answer] |] eqn:Hfind; [| done].
  apply cache_find_In in Hfind as [q Hin].
  unfold cache_from_past in Hpast. rewrite Forall_forall in Hpast.
  apply list_elem_of_In, Hpast in Hin. cbn [fst snd] in Hin.
  replace (clock st + seconds <? filed + default_ttl) with false; [done |].
  symmetry. apply Z.ltb_ge. lia.
Qed.

Lemma read_after_expiry_witness :
  cache_from_past stale_store /\
  default_ttl <= 3600 /\
  fst (get_company_config "acme" "products" stale_store) = Ok JNull /\
  fst (get_company_config "acme" "products" (advance 3600 stale_store))
    = Ok (default JNull (company_configs stale_store !! ("acme", "products"))).
Proof.
  assert (cache_from_past stale_store) as Hpast.
  { unfold cache_from_past. vm_compute cache. vm_compute clock.
    repeat constructor; simpl; discriminate. }
  assert (default_ttl <= 3600) as Hseconds by (unfold default_ttl; lia).
  split; [exact Hpast |]. split; [exact Hseconds |]. split; [reflexivity |].
  exact (read_after_expiry stale_store "acme" "products" 3600 Hpast Hseconds).
Defined.

(** ** Required columns and column types *)

Section RequiredColumns.
Context `{Pandas}.

(** X26: a required column that the frame lacks is always reported,
    whatever else is wrong with the frame: whenever [validate_data] returns
    a verdict, the verdict is not valid and its first error is the one that
    lists the missing columns, this column among them. *)
Theorem missing_column_always_reported st df company_id data_type col validation st' :
  validate_data df company_id data_type st = (Ok validation, st') ->
  In col (_get_required_columns data_type) ->
  has_column df col = false ->
  valid validation = false /\
  head (errors validation) = Some (missing_error (missing_columns df data_type)) /\
  In col (missing_columns df data_type).
Proof.
  intros Hrun Hrequired Habsent.
  assert (In col (missing_columns df data_type)) as Hmissing
    by (by apply missing_columns_spec).
  rewrite validate_data_unfold in Hrun.
  destruct (lookup_schema_config company_id data_type st) as [[config | e] st1];
    [| done].
  injection Hrun as Hverdict _. unfold verdict in Hverdict.
  destruct (_validate_business_rules df data_type) as [rule_errors |]; [| done].
  injection Hverdict as <-. cbn [valid errors].
  by destruct (missing_columns df data_type).
Qed.

Lemma check_columns_elements check cols found e :
  check_columns check cols = Ok found ->
  In e found ->
  exists col found_here, In col cols /\ check col = Ok found_here /\ In e found_here.
Proof.
  revert found. induction cols as [| col cols IH]; simpl; intros found.
  - by intros [= <-].
  - destruct (check col) as [found_here |] eqn:Hcol; [| done]. simpl.
    destruct (check_columns check cols) as [later |]; [| done]. simpl.
    intros [= <-] Hin. apply in_app_or in Hin as [Hin | Hin].
    + exists col, found_here. auto.
    + destruct (IH later eq_refl Hin) as (col' & found' & Hin' & Hcol' & He).
      exists col', found'. auto.
Qed.

Lemma check_columns_each check cols found col :
  check_columns check cols = Ok found ->
  In col cols ->
  exists found_here, check col = Ok found_here.
Proof.
  revert found. induction cols as [| col' cols IH]; simpl; intros found; [done |].
  destruct (check col') as [found_here |] eqn:Hcol; [| done]. simpl.
  destruct (check_columns check cols) as [later |]; [| done]. simpl.
  intros _ [<- | Hin]; [eauto | by apply (IH later)].
Qed.

Lemma last_char_numeric_message col : last_char (numeric_message col) = Some "c"%char.
Proof.
  unfold numeric_message.
  rewrite last_char_append by (by destruct col).
  by rewrite last_char_append.
Qed.

Lemma numeric_message_inj col col' :
  numeric_message col = numeric_message col' -> col = col'.
Proof.
  unfold numeric_message. intros Heq.
  apply (inj (String.append "Column ")) in Heq.
  by apply string_append_inj_r in Heq.
Qed.

(** No message of the business rules ends like the message of the numeric
    type check. *)
Lemma rule_errors_differ df data_type rule_errors col :
  _validate_business_rules df data_type = Ok rule_errors ->
  ~ In (numeric_message col) rule_errors.
Proof.
  unfold _validate_business_rules.
  destruct (check_columns (check_negative df) _) as [negative_errors |] eqn:Hneg;
    [| done]. simpl.
  destruct (check_columns (check_percentage df) _) as [percentage_errors |] eqn:Hpct;
    [| done]. simpl.
  intros [= <-] Hin.
  apply in_app_or in Hin as [Hin | Hin]; [| apply in_app_or in Hin as [Hin | Hin]].
  - destruct (check_columns_elements _ _ _ _ Hneg Hin) as (c & found & _ & Hc & He).
    unfold check_negative in Hc.
    destruct (getitem df c) as [series |]; [| by injection Hc as <-].
    destruct (item_any number_ltb df c series 0) as [below |]; [| done]. simpl in Hc.
    injection Hc as <-. destruct below; [| done].
    destruct He as [Heq | []].
    apply (f_equal last_char) in Heq.
    rewrite last_char_numeric_message in Heq.
    change ("Column " +:+ c +:+ " contains negative values")
      with (negative_message c) in Heq.
    rewrite last_char_negative_message in Heq. discriminate Heq.
  - unfold check_date_range in Hin.
    destruct (getitem df "date") as [series |]; [| done].
    destruct (result_bind _ _) as [[|] | e]; [| done |];
      destruct Hin as [Heq | []]; discriminate Heq.
  - destruct (check_columns_elements _ _ _ _ Hpct Hin) as (c & found & _ & Hc & He).
    assert (numeric_message col = percentage_message c) as Heq.
    { unfold check_percentage in Hc.
      destruct (getitem df c) as [series |]; [| by injection Hc as <-].
      destruct (item_any number_ltb df c series 0) as [below |]; [| done]. simpl in Hc.
      destruct below.
      - injection Hc as <-. by destruct He as [<- | []].
      - destruct (item_any number_gtb df c series 100) as [above |]; [| done].
        simpl in Hc.
        injection Hc as <-. destruct above; [| done].
        by destruct He as [<- | []]. }
    apply (f_equal last_char) in Heq.
    rewrite last_char_numeric_message in Heq.
    unfold percentage_message in Heq.
    rewrite last_char_append in Heq by (by destruct c).
    rewrite last_char_append in Heq by done.
    discriminate Heq.
Qed.

(** Every column whose type must be numeric must be positive as well. *)
Lemma numeric_columns_positive data_type col :
  In (col, "numeric") (default [] (dict_get type_validations data_type)) ->
  In col (default [] (dict_get positive_columns data_type)).
Proof.
  unfold type_validations, positive_columns. cbn [dict_get].
  repeat match goal with
         | |- context [String.eqb ?a data_type] => destruct (String.eqb a data_type)
         end; simpl; intros Hin;
    repeat (destruct Hin as [Hin | Hin];
            [try discriminate Hin; injection Hin as <-; tauto |]);
    destruct Hin.
Qed.

(** X27: the error that a column should be numeric is only ever returned for
    an [object] column that holds nothing but numbers.  A column that must
    be numeric is also compared with zero, and that comparison raises on
    text and on dates, so for such a column [validate_data] raises instead
    of returning the type error. *)
Theorem numeric_type_error_needs_numbers st df company_id data_type col validation st' :
  validate_data df company_id data_type st = (Ok validation, st') ->
  In (numeric_message col) (errors validation) ->
  exists cells,
    getitem df col = Some (ObjectSeries cells) /\
    Forall (fun cell => exists n, cell = ONum n) cells.
Proof.
  intros Hrun Hin.
  rewrite validate_data_unfold in Hrun.
  destruct (lookup_schema_config company_id data_type st) as [[config | e] st1];
    [| done].
  injection Hrun as Hverdict _. unfold verdict in Hverdict.
  destruct (_validate_business_rules df data_type) as [rule_errors |] eqn:Hrules;
    [| done].
  injection Hverdict as <-. cbn [errors] in Hin.
  apply in_app_or in Hin as [Hin | Hin];
    [| by apply (rule_errors_differ _ _ _ col) in Hrules].
  apply in_app_or in Hin as [Hin | Hin].
  { destruct (missing_columns df data_type); [done |].
    destruct Hin as [Heq | []]. discriminate Heq. }
  unfold _validate_data_types in Hin.
  apply in_flat_map in Hin as ([c expected_type] & Hchecked & Hin).
  unfold validate_column_type in Hin. cbn [fst snd] in Hin.
  destruct (getitem df c) as [series |] eqn:Hseries; [| done].
  destruct (String.eqb expected_type "datetime") eqn:Hdatetime.
  { destruct (item_to_datetime df c series); [done |].
    destruct Hin as [Heq | []]. apply (f_equal last_char) in Heq.
    rewrite last_char_numeric_message in Heq.
    rewrite last_char_append in Heq by (by destruct c).
    rewrite last_char_append in Heq by done. discriminate Heq. }
  destruct (String.eqb expected_type "numeric") eqn:Hnumeric; [| done].
  apply String.eqb_eq in Hnumeric. subst expected_type.
  destruct (item_is_numeric df c series) eqn:Hdtype; [done |].
  destruct Hin as [Heq | []].
  apply (numeric_message_inj c col) in Heq. subst c.
  apply numeric_columns_positive in Hchecked.
  unfold _validate_business_rules in Hrules.
  destruct (check_columns (check_negative df) _) as [negative_errors |] eqn:Hneg;
    [| done].
  destruct (check_columns_each _ _ _ col Hneg Hchecked) as [found Hfound].
  unfold check_negative, item_any in Hfound. rewrite Hseries in Hfound.
  unfold item_is_numeric in Hdtype.
  destruct (repeated df col).
  { unfold frame_any in Hfound.
    by destruct (frame_compare number_ltb (getitem_frame df col) 0). }
  cbn [negb andb] in Hdtype.
  destruct series as [values | values | values | cells]; try done.
  exists cells. split; [done |].
  cbn [series_compare] in Hfound.
  destruct (object_compare number_ltb cells 0) as [below |] eqn:Hcompare; [| done].
  clear -Hcompare. revert below Hcompare.
  induction cells as [| [text | n] cells IH]; intros below Hcompare;
    [by constructor | done |].
  simpl in Hcompare.
  destruct (object_compare number_ltb cells 0) as [rest |] eqn:Hrest; [| done].
  constructor; [by exists n | by apply (IH rest)].
Qed.

End RequiredColumns.

Lemma missing_column_always_reported_witness :
  exists validation st',
    @validate_data fixture_pandas revenue_only "acme" "sales" acme_store
      = (Ok validation, st') /\
    In "date" (_get_required_columns "sales") /\
    has_column revenue_only "date" = false /\
    valid validation = false /\
    head (errors validation) = Some (missing_error (missing_columns revenue_only "sales")) /\
    In "date" (missing_columns revenue_only "sales").
Proof.
  pose (run := @validate_data fixture_pandas revenue_only "acme" "sales" acme_store).
  assert (exists validation, fst run = Ok validation) as [validation Hrun].
  { eexists. vm_compute. reflexivity. }
  assert (@validate_data fixture_pandas revenue_only "acme" "sales" acme_store
          = (Ok validation, snd run)) as Hvalidate.
  { fold run. rewrite <- Hrun. by destruct run. }
  assert (In "date" (_get_required_columns "sales")) as Hrequired by (by left).
  exists validation, (snd run).
  split; [exact Hvalidate |]. split; [exact Hrequired |]. split; [reflexivity |].
  exact (@missing_column_always_reported fixture_pandas acme_store revenue_only "acme"
           "sales" "date" validation (snd run) Hvalidate Hrequired eq_refl).
Defined.

Lemma numeric_type_error_needs_numbers_witness :
  exists validation st',
    @validate_data fixture_pandas object_units "acme" "sales" acme_store
      = (Ok validation, st') /\
    In (numeric_message "units_sold") (errors validation) /\
    exists cells,
      getitem object_units "units_sold" = Some (ObjectSeries cells) /\
      Forall (fun cell => exists n, cell = ONum n) cells.
Proof.
  pose (run := @validate_data fixture_pandas object_units "acme" "sales" acme_store).
  assert (exists validation,
            fst run = Ok validation /\
            In (numeric_message "units_sold") (errors validation))
    as (validation & Hrun & Hin).
  { eexists. split; [vm_compute; reflexivity |]. right. by left. }
  assert (@validate_data fixture_pandas object_units "acme" "sales" acme_store
          = (Ok validation, snd run)) as Hvalidate.
  { fold run. rewrite <- Hrun. by destruct run. }
  exists validation, (snd run).
  split; [exact Hvalidate |]. split; [exact Hin |].
  exact (@numeric_type_error_needs_numbers fixture_pandas acme_store object_units "acme"
           "sales" "units_sold" validation (snd run) Hvalidate Hin).
Defined.
